(** * Epsilon: rolling buffers and GNSS spoofing / jamming monitors

    A shallow embedding of [epsilon/buffers.py], [epsilon/monitor.py],
    [epsilon/filtered_monitor.py] and the concrete monitors built on them.
    Python numbers are read as exact rationals ([Qc]); [float('inf')] and
    [-float('inf')] are the two extra points of [xnum].  A Python call that
    can raise returns a [Py.result]. *)

From Stdlib Require Import String.
From Stdlib Require Import ZArith QArith Qcanon List Bool Lia Sorted.
From Stdlib Require Import DecimalString.
Import ListNotations.

Set Implicit Arguments.

(** ** Python outcomes: a value or a raised exception *)

Module Py.

Inductive exn : Set :=
| ValueError
| TypeError
| KeyError
| AttributeError
| IndexError
| ZeroDivisionError.

Inductive result (A : Type) : Type :=
| Ok (a : A)
| Raise (e : exn).

Arguments Ok {A} a.
Arguments Raise {A} e.

Definition bind {A B : Type} (r : result A) (k : A -> result B) : result B :=
  match r with
  | Ok a => k a
  | Raise e => Raise e
  end.

(** [d[key]] on a dict whose entry is modelled as an optional field. *)
Definition getitem {A : Type} (field : option A) : result A :=
  match field with
  | Some a => Ok a
  | None => Raise KeyError
  end.

Definition is_ok {A : Type} (r : result A) : bool :=
  match r with
  | Ok _ => true
  | Raise _ => false
  end.

End Py.

Import Py.

Notation "x <- c ;; k" := (Py.bind c (fun x => k))
  (at level 61, c at next level, right associativity).
Notation "' pat <- c ;; k" := (Py.bind c (fun x => match x with pat => k end))
  (at level 61, pat pattern, c at next level, right associativity).

(** ** Numbers *)

Module Num.

Open Scope Qc_scope.

Definition zq (z : Z) : Qc := Q2Qc (inject_Z z).

Definition Qcltb (x y : Qc) : bool :=
  match x ?= y with
  | Lt => true
  | _ => false
  end.

Definition Qcleb (x y : Qc) : bool :=
  match x ?= y with
  | Gt => false
  | _ => true
  end.

Definition Qceqb (x y : Qc) : bool :=
  match x ?= y with
  | Eq => true
  | _ => false
  end.

Definition Qcabs (x : Qc) : Qc := if Qcltb x 0 then - x else x.

(** Floats as the code uses them: finite values and the two infinities. *)
Inductive xnum : Set :=
| NInf
| Fin (q : Qc)
| PInf.

Definition xltb (a b : xnum) : bool :=
  match a, b with
  | NInf, NInf => false
  | NInf, _ => true
  | Fin _, NInf => false
  | Fin x, Fin y => Qcltb x y
  | Fin _, PInf => true
  | PInf, _ => false
  end.

Definition xleb (a b : xnum) : bool := negb (xltb b a).

(** [t - x] for a finite [t]. *)
Definition xsub (t : Qc) (x : xnum) : xnum :=
  match x with
  | NInf => PInf
  | Fin q => Fin (t - q)
  | PInf => NInf
  end.

End Num.

Import Num.
Open Scope Qc_scope.

(** ** [epsilon/buffers.py] *)

Module Buffers.

(** [collections.deque(maxlen=n).append(v)]: the new element goes to the right
    end and the deque keeps its last [n] elements. *)
Definition lastn {A : Type} (n : nat) (l : list A) : list A :=
  skipn (length l - n) l.

Definition deque_append {A : Type} (maxlen : nat) (d : list A) (v : A) : list A :=
  lastn maxlen (d ++ [v]).

(** *** FIFORunningSum *)

Record FIFORunningSum : Type := {
  fifo_sum : Qc;
  fifo_buffer : list Qc;
  fifo_maxlen : nat
}.

Definition fifo_init (max_size : nat) : FIFORunningSum :=
  {| fifo_sum := 0; fifo_buffer := []; fifo_maxlen := max_size |}.

Definition fifo_reset (f : FIFORunningSum) : FIFORunningSum :=
  {| fifo_sum := 0; fifo_buffer := []; fifo_maxlen := fifo_maxlen f |}.

(** [self._buffer[0]] raises [IndexError] on an empty deque. *)
Definition fifo_append (f : FIFORunningSum) (val : Qc) : result FIFORunningSum :=
  s <- (if Nat.eqb (length (fifo_buffer f)) (fifo_maxlen f)
        then match fifo_buffer f with
             | [] => Raise IndexError
             | oldest :: _ => Ok (fifo_sum f - oldest)
             end
        else Ok (fifo_sum f)) ;;
  Ok {| fifo_sum := s + val;
        fifo_buffer := deque_append (fifo_maxlen f) (fifo_buffer f) val;
        fifo_maxlen := fifo_maxlen f |}.

Fixpoint fifo_appends (f : FIFORunningSum) (vals : list Qc) : result FIFORunningSum :=
  match vals with
  | [] => Ok f
  | v :: rest => f' <- fifo_append f v ;; fifo_appends f' rest
  end.

(** The [sum] property read after each append of [vals], in order. *)
Fixpoint fifo_sums (f : FIFORunningSum) (vals : list Qc) : result (list Qc) :=
  match vals with
  | [] => Ok []
  | v :: rest =>
      f' <- fifo_append f v ;;
      sums <- fifo_sums f' rest ;;
      Ok (fifo_sum f' :: sums)
  end.

Definition qsum (l : list Qc) : Qc := fold_right Qcplus 0 l.

(** *** TimedBuffer *)

Section TimedBuffer.

Variable A : Type.

Record TimedBuffer : Type := {
  time_buffer : list Qc;
  sample_buffer : list A;
  tb_target_elapsed_time : xnum;
  tb_keep_one : bool
}.

Definition tb_len (b : TimedBuffer) : nat := length (time_buffer b).

Definition newest_time (b : TimedBuffer) : Qc :=
  match time_buffer b with
  | [] => 0
  | t :: rest => last rest t
  end.

Definition oldest_time (b : TimedBuffer) : Qc :=
  match time_buffer b with
  | [] => 0
  | t :: _ => t
  end.

Definition elapsed_time (b : TimedBuffer) : Qc :=
  match time_buffer b with
  | t0 :: t1 :: rest => last rest t1 - t0
  | _ => 0
  end.

Definition oldest_sample (b : TimedBuffer) : option A :=
  match time_buffer b with
  | [] => None
  | _ :: _ => hd_error (sample_buffer b)
  end.

Definition newest_sample (b : TimedBuffer) : option A :=
  match time_buffer b with
  | [] => None
  | _ :: _ =>
      match sample_buffer b with
      | [] => None
      | s :: rest => Some (last rest s)
      end
  end.

(** [deque.popleft()] raises [IndexError] when the deque is empty. *)
Definition tb_popleft (b : TimedBuffer) : result TimedBuffer :=
  match time_buffer b, sample_buffer b with
  | _ :: ts, _ :: ss =>
      Ok {| time_buffer := ts; sample_buffer := ss;
            tb_target_elapsed_time := tb_target_elapsed_time b;
            tb_keep_one := tb_keep_one b |}
  | _, _ => Raise IndexError
  end.

(** The first loop of [remove_old_samples]: count leading times that are
    strictly below [target_time], stopping at the first one that is not. *)
Fixpoint count_stale (target_time : xnum) (times : list Qc) : nat :=
  match times with
  | [] => 0
  | sample_time :: rest =>
      if xleb target_time (Fin sample_time) then 0
      else S (count_stale target_time rest)
  end.

Definition num_to_pop (keep_one_before : bool) (target : xnum) (times : list Qc) : Z :=
  match times with
  | [] => 0%Z
  | t :: rest =>
      let target_time := xsub (last rest t) target in
      (Z.of_nat (count_stale target_time times)
       - (if keep_one_before then 1 else 0))%Z
  end.

End TimedBuffer.

(** [remove_old_samples] calls [self.popleft()], which a subclass overrides;
    the method is therefore written once over the buffer's class. *)
Section RemoveOld.

Variable B : Type.
Variable times : B -> list Qc.
Variable target : B -> xnum.
Variable popleft : B -> result B.

Fixpoint pop_times (n : nat) (b : B) : result B :=
  match n with
  | O => Ok b
  | S k => b' <- popleft b ;; pop_times k b'
  end.

Definition remove_old_samples_with (keep_one_before : bool) (b : B) : result B :=
  match times b with
  | [] => Ok b
  | _ :: _ =>
      pop_times (Z.to_nat (num_to_pop keep_one_before (target b) (times b))) b
  end.

End RemoveOld.

Section TimedBufferOps.

Variable A : Type.

(** [remove_old_samples(self, keep_one_before=True)] *)
Definition tb_remove_old_samples (keep_one_before : bool) (b : TimedBuffer A)
  : result (TimedBuffer A) :=
  remove_old_samples_with (@time_buffer A) (@tb_target_elapsed_time A)
    (@tb_popleft A) keep_one_before b.

(** [__init__]: the setter runs [remove_old_samples] on the empty buffer. *)
Definition tb_init (target_elapsed_time : xnum) (keep_one_sample_before : bool)
  : result (TimedBuffer A) :=
  if xltb target_elapsed_time (Fin 0) then Raise ValueError
  else Ok {| time_buffer := []; sample_buffer := [];
             tb_target_elapsed_time := target_elapsed_time;
             tb_keep_one := keep_one_sample_before |}.

Definition tb_with_target (b : TimedBuffer A) (val : xnum) : TimedBuffer A :=
  {| time_buffer := time_buffer b; sample_buffer := sample_buffer b;
     tb_target_elapsed_time := val; tb_keep_one := tb_keep_one b |}.

(** The [target_elapsed_time] setter. *)
Definition tb_set_target_elapsed_time (b : TimedBuffer A) (val : xnum)
  : result (TimedBuffer A) :=
  if xltb val (Fin 0) then Raise ValueError
  else tb_remove_old_samples true (tb_with_target b val).

Definition tb_push (b : TimedBuffer A) (time : Qc) (sample : A) : TimedBuffer A :=
  {| time_buffer := time_buffer b ++ [time];
     sample_buffer := sample_buffer b ++ [sample];
     tb_target_elapsed_time := tb_target_elapsed_time b;
     tb_keep_one := tb_keep_one b |}.

(** [TimedBuffer.append]: the call to [remove_old_samples()] passes no
    argument, so [keep_one_before] takes its default [True]. *)
Definition tb_append (b : TimedBuffer A) (time : Qc) (sample : A)
  : result (TimedBuffer A) :=
  if Qcltb time (newest_time b) then Raise ValueError
  else tb_remove_old_samples true (tb_push b time sample).

Definition tb_reset (b : TimedBuffer A) : TimedBuffer A :=
  {| time_buffer := []; sample_buffer := [];
     tb_target_elapsed_time := tb_target_elapsed_time b;
     tb_keep_one := tb_keep_one b |}.

End TimedBufferOps.

(** *** TimedRunningSum *)

(** What a sample must support: the initial [0], [+=] and [-=]. *)
Class SampleOps (A : Type) : Type := {
  s_zero : A;
  s_add : A -> A -> A;
  s_sub : A -> A -> A
}.

#[export] Instance Qc_SampleOps : SampleOps Qc :=
  {| s_zero := 0; s_add := Qcplus; s_sub := Qcminus |}.

Section TimedRunningSum.

Context {A : Type} {ops : SampleOps A}.

Record TimedRunningSum : Type := {
  trs_buffer : TimedBuffer A;
  trs_sum : A
}.

Definition trs_times (b : TimedRunningSum) : list Qc := time_buffer (trs_buffer b).

Definition trs_target (b : TimedRunningSum) : xnum :=
  tb_target_elapsed_time (trs_buffer b).

(** [self._sum -= self.oldest_sample] raises [TypeError] when the buffer is
    empty ([oldest_sample] is [None]); nothing has been changed by then. *)
Definition trs_popleft (b : TimedRunningSum) : result TimedRunningSum :=
  match oldest_sample (trs_buffer b) with
  | None => Raise TypeError
  | Some oldest =>
      buf <- tb_popleft (trs_buffer b) ;;
      Ok {| trs_buffer := buf; trs_sum := s_sub (trs_sum b) oldest |}
  end.

Definition trs_remove_old_samples (keep_one_before : bool) (b : TimedRunningSum)
  : result TimedRunningSum :=
  remove_old_samples_with trs_times trs_target trs_popleft keep_one_before b.

(** [TimedRunningSum.__init__] forwards only [target_elapsed_time]. *)
Definition trs_init (target_elapsed_time : xnum) : result TimedRunningSum :=
  buf <- tb_init A target_elapsed_time true ;;
  Ok {| trs_buffer := buf; trs_sum := s_zero |}.

Definition trs_set_target_elapsed_time (b : TimedRunningSum) (val : xnum)
  : result TimedRunningSum :=
  if xltb val (Fin 0) then Raise ValueError
  else trs_remove_old_samples true
         {| trs_buffer := tb_with_target (trs_buffer b) val; trs_sum := trs_sum b |}.

Definition trs_append (b : TimedRunningSum) (time : Qc) (sample : A)
  : result TimedRunningSum :=
  if Qcltb time (newest_time (trs_buffer b)) then Raise ValueError
  else
    b' <- trs_remove_old_samples true
            {| trs_buffer := tb_push (trs_buffer b) time sample;
               trs_sum := trs_sum b |} ;;
    Ok {| trs_buffer := trs_buffer b'; trs_sum := s_add (trs_sum b') sample |}.

Definition trs_reset (b : TimedRunningSum) : TimedRunningSum :=
  {| trs_buffer := tb_reset (trs_buffer b); trs_sum := s_zero |}.

Definition trs_len (b : TimedRunningSum) : nat := tb_len (trs_buffer b).

Definition trs_elapsed_time (b : TimedRunningSum) : Qc := elapsed_time (trs_buffer b).

Definition trs_newest_time (b : TimedRunningSum) : Qc := newest_time (trs_buffer b).

(** The true sum of a list of samples, added in arrival order. *)
Definition total (l : list A) : A := fold_left s_add l s_zero.

End TimedRunningSum.

Arguments TimedRunningSum A : clear implicits.

(** Operations of a client of [TimedRunningSum]; one that raises leaves the
    object as it was. *)
Inductive trs_op : Type :=
| OpAppend (time : Qc) (sample : Qc)
| OpPopleft
| OpSetTarget (val : xnum)
| OpReset.

Definition trs_apply (b : TimedRunningSum Qc) (op : trs_op) : result (TimedRunningSum Qc) :=
  match op with
  | OpAppend time sample => trs_append b time sample
  | OpPopleft => trs_popleft b
  | OpSetTarget val => trs_set_target_elapsed_time b val
  | OpReset => Ok (trs_reset b)
  end.

Definition trs_step (b : TimedRunningSum Qc) (op : trs_op) : TimedRunningSum Qc :=
  match trs_apply b op with
  | Ok b' => b'
  | Raise _ => b
  end.

End Buffers.

Import Buffers.

(** *** FIRFilter *)

Module FIR.

(** [collections.deque(maxlen=n).appendleft(v)]: the new element goes to the
    left end and the deque keeps its first [n] elements. *)
Definition deque_appendleft {A : Type} (maxlen : nat) (d : list A) (v : A) : list A :=
  firstn maxlen (v :: d).

(** [past_samples] lists the deque from the left: the most recent sample
    first.  [past_maxlen] is the [maxlen] the deque was built with. *)
Record FIRFilter : Type := {
  filter_length : nat;
  coefficients : list Qc;
  past_samples : list Qc;
  past_maxlen : nat;
  response : option Qc
}.

Definition fir_init (coeffs : list Qc) : FIRFilter :=
  {| filter_length := length coeffs;
     coefficients := coeffs;
     past_samples := [];
     past_maxlen := length coeffs;
     response := None |}.

Definition is_initialized (f : FIRFilter) : bool :=
  Nat.eqb (length (past_samples f)) (filter_length f).

(** [sum(element * coefficient for (element, coefficient) in zip(...))]:
    [sum] starts from [0] and adds the products from the left. *)
Definition weighted_sum (samples coeffs : list Qc) : Qc :=
  fold_left Qcplus (map (fun ec => fst ec * snd ec) (combine samples coeffs)) 0.

Definition appendleft (f : FIRFilter) (sample : Qc) : FIRFilter :=
  let past := deque_appendleft (past_maxlen f) (past_samples f) sample in
  {| filter_length := filter_length f;
     coefficients := coefficients f;
     past_samples := past;
     past_maxlen := past_maxlen f;
     response := if Nat.eqb (length past) (filter_length f)
                 then Some (weighted_sum past (coefficients f))
                 else None |}.

Definition fir_reset (f : FIRFilter) : FIRFilter :=
  {| filter_length := filter_length f;
     coefficients := coefficients f;
     past_samples := [];
     past_maxlen := past_maxlen f;
     response := None |}.

Definition fir_len (f : FIRFilter) : nat := length (past_samples f).

(** Feeding samples in arrival order, one [appendleft] each. *)
Definition fir_feed (f : FIRFilter) (samples : list Qc) : FIRFilter :=
  fold_left appendleft samples f.

End FIR.

(** ** Messages

    A message is a Python dict; every key the monitors read is an optional
    field, absent when the key is. *)

Module Messages.

Definition vec3 : Type := (Qc * Qc * Qc)%type.

Record sv_data : Type := {
  svid : option Z;
  gnssId : option Z;
  cno : option Qc;
  qualityInd : option Z
}.

Record message : Type := {
  rxTime : option Qc;
  validity : option bool;
  msg_receiver_id : option string;
  clock_rate : option Qc;
  clock_bias : option Qc;
  ecef_position : option vec3;
  ecef_velocity : option (list Qc);
  svs : option (list sv_data)
}.

(** The three fields every message needs, nothing else. *)
Definition basic_message (time : Qc) (receiver : string) : message :=
  {| rxTime := Some time; validity := Some true; msg_receiver_id := Some receiver;
     clock_rate := None; clock_bias := None; ecef_position := None;
     ecef_velocity := None; svs := None |}.

End Messages.

Import Messages.

(** ** Python dicts with string keys, in insertion order *)

Module Dict.

Section Dict.

Variable V : Type.

Definition dict : Type := list (string * V).

Fixpoint get (d : dict) (key : string) : option V :=
  match d with
  | [] => None
  | (k, v) :: rest => if String.eqb key k then Some v else get rest key
  end.

(** [d[key] = v]: an existing key keeps its place. *)
Fixpoint set (d : dict) (key : string) (v : V) : dict :=
  match d with
  | [] => [(key, v)]
  | (k, w) :: rest =>
      if String.eqb key k then (k, v) :: rest else (k, w) :: set rest key v
  end.

Definition contains (d : dict) (key : string) : bool :=
  match get d key with
  | Some _ => true
  | None => false
  end.

End Dict.

End Dict.

(** ** [epsilon/monitor.py] *)

Module MonitorBase.

Section Monitor.

(** [M]: the metric; [B]: what [_compare_metric] returns; [S]: the attributes
    a subclass adds. *)
Variables M B S : Type.

Record Status : Type := {
  st_alarm : B;
  st_threshold : xnum;
  st_metric : option M
}.

Record Monitor : Type := {
  last_event_time : option Qc;
  receiver_id : option string;
  monitor_timeout : option Qc;
  threshold : xnum;
  status : Status;
  attrs : S
}.

(** The methods a subclass may override. *)
Record MonitorClass : Type := {
  calculate_metric : Monitor -> message -> result (option M * Monitor);
  compare_metric : Monitor -> M -> B;
  verify_message : Monitor -> message -> bool;
  reset : Monitor -> Monitor;
  py_False : B
}.

Definition with_last_event_time (m : Monitor) (t : option Qc) : Monitor :=
  {| last_event_time := t; receiver_id := receiver_id m;
     monitor_timeout := monitor_timeout m; threshold := threshold m;
     status := status m; attrs := attrs m |}.

Definition with_status (m : Monitor) (st : Status) : Monitor :=
  {| last_event_time := last_event_time m; receiver_id := receiver_id m;
     monitor_timeout := monitor_timeout m; threshold := threshold m;
     status := st; attrs := attrs m |}.

Definition with_attrs (m : Monitor) (a : S) : Monitor :=
  {| last_event_time := last_event_time m; receiver_id := receiver_id m;
     monitor_timeout := monitor_timeout m; threshold := threshold m;
     status := status m; attrs := a |}.

Definition receiver_id_eqb (a b : option string) : bool :=
  match a, b with
  | Some x, Some y => String.eqb x y
  | None, None => true
  | _, _ => false
  end.

(** [Monitor.verify_message] *)
Definition base_verify_message (m : Monitor) (msg : message) : bool :=
  match rxTime msg, validity msg, msg_receiver_id msg with
  | Some time, Some valid, Some receiver =>
      if negb valid then false
      else if negb (receiver_id_eqb (Some receiver) (receiver_id m)) then false
      else match last_event_time m with
           | Some last => if Qcltb time last then false else true
           | None => true
           end
  | _, _, _ => false
  end.

(** [Monitor.reset] *)
Definition base_reset (false_ : B) (m : Monitor) : Monitor :=
  with_status (with_last_event_time m None)
    {| st_alarm := false_; st_threshold := st_threshold (status m);
       st_metric := None |}.

Variable cls : MonitorClass.

(** [Monitor.update] *)
Definition update (m : Monitor) (msg : message) : result (option B * Monitor) :=
  if negb (verify_message cls m msg) then Ok (None, m)
  else
    time <- getitem (rxTime msg) ;;
    let m1 :=
      match monitor_timeout m, last_event_time m with
      | Some timeout, Some last =>
          if Qcleb timeout (time - last) then reset cls m else m
      | _, _ => m
      end in
    let m2 := with_last_event_time m1 (Some time) in
    '(metric, m3) <- calculate_metric cls m2 msg ;;
    match metric with
    | None => Ok (None, m3)
    | Some x =>
        let alarm := compare_metric cls m3 x in
        Ok (Some alarm,
            with_status m3 {| st_alarm := alarm;
                              st_threshold := st_threshold (status m3);
                              st_metric := Some x |})
    end.

End Monitor.

(** [Monitor._compare_metric] *)
Definition base_compare_metric {B S : Type} (m : Monitor Qc B S) (metric : Qc) : bool :=
  xltb (threshold m) (Fin metric).

End MonitorBase.

Import MonitorBase.

(** ** [epsilon/filtered_monitor.py] *)

Module Filtered.

Section FilteredMonitor.

Variable S : Type.

(** What [FilteredMonitor] adds to a monitor; [spoofing_flag] is the entry
    [_status['spoofing_flag']]. *)
Record FilteredAttrs : Type := {
  min_detections : Qc;
  detections : FIFORunningSum;
  spoofing_flag : bool;
  sub_attrs : S
}.

Definition FilteredMonitor : Type := Monitor Qc bool FilteredAttrs.

Definition with_detections (m : FilteredMonitor) (d : FIFORunningSum) (flag : bool)
  : FilteredMonitor :=
  with_attrs m {| min_detections := min_detections (attrs m);
                  detections := d;
                  spoofing_flag := flag;
                  sub_attrs := sub_attrs (attrs m) |}.

Definition with_alarm (m : FilteredMonitor) (alarm : bool) : FilteredMonitor :=
  with_status m {| st_alarm := alarm;
                   st_threshold := st_threshold (status m);
                   st_metric := st_metric (status m) |}.

(** [int(sample)] *)
Definition int_of_bool (b : bool) : Qc := if b then 1 else 0.

(** [FilteredMonitor.reset] *)
Definition filtered_reset (m : FilteredMonitor) : FilteredMonitor :=
  let m' := base_reset false m in
  with_detections m' (fifo_reset (detections (attrs m'))) false.

Variable cls : MonitorClass Qc bool FilteredAttrs.

(** [FilteredMonitor.update] *)
Definition filtered_update (m : FilteredMonitor) (msg : message)
  : result (option bool * FilteredMonitor) :=
  '(sample, m1) <- update cls m msg ;;
  match sample with
  | None => Ok (None, m1)
  | Some flag =>
      d <- fifo_append (detections (attrs m1)) (int_of_bool flag) ;;
      let m2 := with_detections m1 d flag in
      if Qcleb (min_detections (attrs m2)) (fifo_sum d)
      then Ok (Some true, with_alarm m2 true)
      else Ok (Some false, with_alarm m2 false)
  end.

(** [FilteredMonitor.__init__], after the base constructor has stored the
    (already checked) threshold. *)
Definition filtered_init (receiver : string) (timeout : option Qc) (thr : xnum)
    (min_det : Qc) (sample_window : nat) (sub : S) : result FilteredMonitor :=
  if Qcltb (zq (Z.of_nat sample_window)) min_det then Raise ValueError
  else Ok {| last_event_time := None;
             receiver_id := Some receiver;
             monitor_timeout := timeout;
             threshold := thr;
             status := {| st_alarm := false; st_threshold := thr; st_metric := None |};
             attrs := {| min_detections := min_det;
                         detections := fifo_init sample_window;
                         spoofing_flag := false;
                         sub_attrs := sub |} |}.

End FilteredMonitor.

End Filtered.

Import Filtered.

(** ** [epsilon/stationary_velocity_monitor.py] *)

Module StationaryVelocity.

Definition StationaryVelocityMonitor : Type := FilteredMonitor unit.

(** [_calculate_metric]: the squared speed, when the velocity has three
    components. *)
Definition sv_calculate_metric (m : StationaryVelocityMonitor) (msg : message)
  : result (option Qc * StationaryVelocityMonitor) :=
  match ecef_velocity msg with
  | None => Ok (None, m)
  | Some velocity =>
      if negb (Nat.eqb (length velocity) 3) then Ok (None, m)
      else Ok (Some (fold_left Qcplus (map (fun x => x * x) velocity) 0), m)
  end.

Definition sv_class : MonitorClass Qc bool (FilteredAttrs unit) :=
  {| calculate_metric := sv_calculate_metric;
     compare_metric := @base_compare_metric bool (FilteredAttrs unit);
     verify_message := @base_verify_message Qc bool (FilteredAttrs unit);
     reset := @filtered_reset unit;
     py_False := false |}.

(** The threshold setter keeps the absolute value of a negative threshold. *)
Definition sv_init (receiver : string) (timeout : option Qc) (min_det : Qc)
    (sample_window : nat) (thr : Qc) : result StationaryVelocityMonitor :=
  filtered_init receiver timeout (Fin (Qcabs thr)) min_det sample_window tt.

Definition sv_update : StationaryVelocityMonitor -> message
                       -> result (option bool * StationaryVelocityMonitor) :=
  filtered_update sv_class.

(** The [threshold] setter on a constructed monitor: a negative value is
    replaced by its absolute value. *)
Definition sv_set_threshold (m : StationaryVelocityMonitor) (thr : Qc)
  : StationaryVelocityMonitor :=
  {| last_event_time := last_event_time m;
     receiver_id := receiver_id m;
     monitor_timeout := monitor_timeout m;
     threshold := Fin (Qcabs thr);
     status := {| st_alarm := st_alarm (status m);
                  st_threshold := Fin (Qcabs thr);
                  st_metric := st_metric (status m) |};
     attrs := attrs m |}.

End StationaryVelocity.

(** ** [epsilon/ccd_monitor.py] *)

Module CCD.

Record CCDAttrs : Type := {
  bias_samples : TimedRunningSum Qc;
  rate_integral : TimedRunningSum Qc;
  last_rate : option Qc;
  last_time : option Qc;
  max_delta_t : Qc
}.

Definition CCDMonitor : Type := Monitor Qc bool CCDAttrs.

(** The [min_delta_t] property reads the target of [bias_samples]. *)
Definition min_delta_t (a : CCDAttrs) : xnum := trs_target (bias_samples a).

(** [CCDMonitor.reset] *)
Definition ccd_reset (m : CCDMonitor) : CCDMonitor :=
  let m' := base_reset false m in
  with_attrs m' {| bias_samples := trs_reset (bias_samples (attrs m'));
                   rate_integral := trs_reset (rate_integral (attrs m'));
                   last_rate := None;
                   last_time := None;
                   max_delta_t := max_delta_t (attrs m') |}.

(** The [while] loop that pops both buffers in lock-step.  Every turn removes
    one entry of [bias_samples] or raises, so [fuel] above its length is
    never used up. *)
Fixpoint trim (fuel : nat) (max_dt : Qc) (bias rate : TimedRunningSum Qc)
  : result (TimedRunningSum Qc * TimedRunningSum Qc) :=
  if Qcltb max_dt (trs_elapsed_time bias) then
    match fuel with
    | O => Raise IndexError
    | Datatypes.S k =>
        bias' <- trs_popleft bias ;;
        rate' <- trs_popleft rate ;;
        trim k max_dt bias' rate'
    end
  else Ok (bias, rate).

(** [CCDMonitor._calculate_metric] *)
Definition ccd_calculate_metric (m : CCDMonitor) (msg : message)
  : result (option Qc * CCDMonitor) :=
  match clock_rate msg, clock_bias msg with
  | Some rate, Some bias =>
      time <- getitem (rxTime msg) ;;
      let a := attrs m in
      match last_rate a with
      | None =>
          Ok (None,
              with_attrs m {| bias_samples := bias_samples a;
                              rate_integral := rate_integral a;
                              last_rate := Some rate;
                              last_time := Some time;
                              max_delta_t := max_delta_t a |})
      | Some prev_rate =>
          bs <- trs_append (bias_samples a) time bias ;;
          prev_time <- match last_time a with
                       | Some t => Ok t
                       | None => Raise TypeError
                       end ;;
          let rate_term := (rate + prev_rate) / zq 2 * (time - prev_time) in
          ri <- trs_append (rate_integral a) time rate_term ;;
          '(bs', ri') <- trim (Datatypes.S (trs_len bs)) (max_delta_t a) bs ri ;;
          let m' := with_attrs m {| bias_samples := bs';
                                    rate_integral := ri';
                                    last_rate := Some rate;
                                    last_time := Some time;
                                    max_delta_t := max_delta_t a |} in
          if xltb (Fin (trs_elapsed_time bs')) (trs_target bs') then Ok (None, m')
          else Ok (Some (Qcabs (trs_sum bs' - trs_sum ri')), m')
      end
  | _, _ => Ok (None, m)
  end.

Definition ccd_class : MonitorClass Qc bool CCDAttrs :=
  {| calculate_metric := ccd_calculate_metric;
     compare_metric := @base_compare_metric bool CCDAttrs;
     verify_message := @base_verify_message Qc bool CCDAttrs;
     reset := ccd_reset;
     py_False := false |}.

(** [CCDMonitor.__init__]; the threshold and [max_delta_t] setters insist on
    positive values. *)
Definition ccd_init (receiver : string) (timeout : option Qc) (thr min_dt max_dt : Qc)
  : result CCDMonitor :=
  if Qcleb thr 0 then Raise ValueError
  else if Qcltb max_dt min_dt then Raise ValueError
  else
    bs <- trs_init (Fin min_dt) ;;
    ri <- trs_init (Fin min_dt) ;;
    if Qcleb max_dt 0 then Raise ValueError
    else Ok {| last_event_time := None;
               receiver_id := Some receiver;
               monitor_timeout := timeout;
               threshold := Fin thr;
               status := {| st_alarm := false; st_threshold := Fin thr;
                            st_metric := None |};
               attrs := {| bias_samples := bs; rate_integral := ri;
                           last_rate := None; last_time := None;
                           max_delta_t := max_dt |} |}.

Definition ccd_update : CCDMonitor -> message -> result (option bool * CCDMonitor) :=
  update ccd_class.

(** Feeding a list of messages, one [update] each; the alarms come back in
    order. *)
Fixpoint ccd_run (m : CCDMonitor) (msgs : list message)
  : result (list (option bool) * CCDMonitor) :=
  match msgs with
  | [] => Ok ([], m)
  | msg :: rest =>
      '(alarm, m') <- ccd_update m msg ;;
      '(alarms, m'') <- ccd_run m' rest ;;
      Ok (alarm :: alarms, m'')
  end.

End CCD.

(** ** The per-channel C/N0 monitors *)

Module Cno.

Open Scope string_scope.

(** [str] of a Python int. *)
Definition str_of_int (z : Z) : string := NilZero.string_of_int (Z.to_int z).

(** ["{!s}.{!s}".format(gnss_id, sv_id)] *)
Definition channel_id (gnss_id sv_id : Z) : string :=
  str_of_int gnss_id ++ "." ++ str_of_int sv_id.

(** The test both monitors apply to an entry that has all its fields. *)
Definition low_quality (quality_ind : Z) (c : Qc) : bool :=
  (quality_ind <? 4)%Z || Qcleb c 0.

(** *** [epsilon/cn0_threshold_monitor.py] *)

Record CnoThresholdAttrs : Type := {
  cnt_time_window : Qc;
  cnt_cnos : Dict.dict (option (Qc * Qc))
}.

Definition CnoThresholdJammingMonitor : Type := Monitor Qc bool CnoThresholdAttrs.

(** One turn of the loop over [message['svs']].  The missing-field test only
    logs and falls through to the subscripts (no [continue]); the branch for a
    low-quality entry calls [self.logger.deubg], an attribute that
    [logging.Logger] does not have. *)
Definition cnt_entry (time : Qc) (cnos : Dict.dict (option (Qc * Qc))) (sv : sv_data)
  : result (Dict.dict (option (Qc * Qc))) :=
  sv_id <- getitem (svid sv) ;;
  gnss_id <- getitem (gnssId sv) ;;
  c <- getitem (cno sv) ;;
  quality_ind <- getitem (qualityInd sv) ;;
  if low_quality quality_ind c then Raise AttributeError
  else
    let channel := channel_id gnss_id sv_id in
    match Dict.get cnos channel with
    | Some (Some (last, _)) =>
        if Qcltb time last then Ok cnos
        else Ok (Dict.set cnos channel (Some (time, c)))
    | _ => Ok (Dict.set cnos channel (Some (time, c)))
    end.

Fixpoint cnt_entries (time : Qc) (cnos : Dict.dict (option (Qc * Qc)))
    (entries : list sv_data) : result (Dict.dict (option (Qc * Qc))) :=
  match entries with
  | [] => Ok cnos
  | sv :: rest => cnos' <- cnt_entry time cnos sv ;; cnt_entries time cnos' rest
  end.

(** The loop [for key, (last_time, cno) in self._cnos.items()]: unpacking a
    value that is [None] raises [TypeError]. *)
Fixpoint cnt_age (time window : Qc) (items : Dict.dict (option (Qc * Qc)))
    (max_cno : option Qc) : result (option Qc * Dict.dict (option (Qc * Qc))) :=
  match items with
  | [] => Ok (max_cno, [])
  | (key, None) :: _ => Raise TypeError
  | (key, Some (last_time, c)) :: rest =>
      if Qcltb window (time - last_time) then
        '(mx, rest') <- cnt_age time window rest max_cno ;;
        Ok (mx, (key, None) :: rest')
      else
        let max_cno' :=
          match max_cno with
          | None => Some c
          | Some mx => if Qcltb mx c then Some c else Some mx
          end in
        '(mx, rest') <- cnt_age time window rest max_cno' ;;
        Ok (mx, (key, Some (last_time, c)) :: rest')
  end.

(** [CnoThresholdJammingMonitor._calculate_metric] *)
Definition cnt_calculate_metric (m : CnoThresholdJammingMonitor) (msg : message)
  : result (option Qc * CnoThresholdJammingMonitor) :=
  match svs msg with
  | None => Ok (None, m)
  | Some entries =>
      time <- getitem (rxTime msg) ;;
      cnos <- cnt_entries time (cnt_cnos (attrs m)) entries ;;
      '(max_cno, cnos') <- cnt_age time (cnt_time_window (attrs m)) cnos None ;;
      Ok (max_cno,
          with_attrs m {| cnt_time_window := cnt_time_window (attrs m);
                          cnt_cnos := cnos' |})
  end.

(** [_compare_metric]: [metric < self._threshold] *)
Definition cnt_compare_metric (m : CnoThresholdJammingMonitor) (metric : Qc) : bool :=
  xltb (Fin metric) (threshold m).

Definition cnt_reset (m : CnoThresholdJammingMonitor) : CnoThresholdJammingMonitor :=
  let m' := base_reset false m in
  with_attrs m' {| cnt_time_window := cnt_time_window (attrs m'); cnt_cnos := [] |}.

Definition cnt_class : MonitorClass Qc bool CnoThresholdAttrs :=
  {| calculate_metric := cnt_calculate_metric;
     compare_metric := cnt_compare_metric;
     verify_message := @base_verify_message Qc bool CnoThresholdAttrs;
     reset := cnt_reset;
     py_False := false |}.

Definition cnt_init (receiver : string) (thr time_window : Qc)
  : result CnoThresholdJammingMonitor :=
  if Qcltb time_window 0 then Raise ValueError
  else Ok {| last_event_time := None;
             receiver_id := Some receiver;
             monitor_timeout := None;
             threshold := Fin thr;
             status := {| st_alarm := false; st_threshold := Fin thr;
                          st_metric := None |};
             attrs := {| cnt_time_window := time_window; cnt_cnos := [] |} |}.

Definition cnt_update
  : CnoThresholdJammingMonitor -> message
    -> result (option bool * CnoThresholdJammingMonitor) :=
  update cnt_class.

(** *** [epsilon/cn0_drop_monitor.py] *)

Record CnoDropAttrs : Type := {
  cnd_time_window : Qc;
  cnd_cnos : Dict.dict (TimedBuffer Qc);
  cnd_drops : Dict.dict (option Qc)
}.

Definition CnoDropJammingMonitor : Type := Monitor bool bool CnoDropAttrs.

(** One turn of the loop over [message['svs']]: an incomplete or low-quality
    entry is passed over with [continue]. *)
Definition cnd_entry (time window : Qc) (cnos : Dict.dict (TimedBuffer Qc)) (sv : sv_data)
  : result (Dict.dict (TimedBuffer Qc)) :=
  match svid sv, gnssId sv, cno sv, qualityInd sv with
  | Some sv_id, Some gnss_id, Some c, Some quality_ind =>
      if low_quality quality_ind c then Ok cnos
      else
        let channel := channel_id gnss_id sv_id in
        buf <- match Dict.get cnos channel with
               | Some buf => Ok buf
               | None => tb_init Qc (Fin window) false
               end ;;
        buf' <- tb_append buf time c ;;
        Ok (Dict.set cnos channel buf')
  | _, _, _, _ => Ok cnos
  end.

Fixpoint cnd_entries (time window : Qc) (cnos : Dict.dict (TimedBuffer Qc))
    (entries : list sv_data) : result (Dict.dict (TimedBuffer Qc)) :=
  match entries with
  | [] => Ok cnos
  | sv :: rest =>
      cnos' <- cnd_entry time window cnos sv ;;
      cnd_entries time window cnos' rest
  end.

Record cnd_scan : Type := {
  scan_alarm : bool;
  scan_any_examined : bool;
  scan_cnos : Dict.dict (TimedBuffer Qc);
  scan_drops : Dict.dict (option Qc)
}.

(** The loop over [self._cnos.items()]; [data.remove_old_samples()] is called
    without an argument. *)
Fixpoint cnd_age (thr : xnum) (items : Dict.dict (TimedBuffer Qc)) (acc : cnd_scan)
  : result cnd_scan :=
  match items with
  | [] => Ok acc
  | (channel, data) :: rest =>
      data' <- tb_remove_old_samples true data ;;
      let cnos' := Dict.set (scan_cnos acc) channel data' in
      if (tb_len data' <? 2)%nat then
        cnd_age thr rest {| scan_alarm := scan_alarm acc;
                            scan_any_examined := scan_any_examined acc;
                            scan_cnos := cnos';
                            scan_drops := Dict.set (scan_drops acc) channel None |}
      else
        match newest_sample data', oldest_sample data' with
        | Some newest, Some oldest =>
            let drop := - (newest - oldest) in
            cnd_age thr rest
              {| scan_alarm := if xleb (Fin drop) thr then false else scan_alarm acc;
                 scan_any_examined := true;
                 scan_cnos := cnos';
                 scan_drops := Dict.set (scan_drops acc) channel (Some drop) |}
        | _, _ => Raise TypeError
        end
  end.

(** [CnoDropJammingMonitor._calculate_metric] *)
Definition cnd_calculate_metric (m : CnoDropJammingMonitor) (msg : message)
  : result (option bool * CnoDropJammingMonitor) :=
  match svs msg with
  | None => Ok (None, m)
  | Some entries =>
      time <- getitem (rxTime msg) ;;
      cnos <- cnd_entries time (cnd_time_window (attrs m)) (cnd_cnos (attrs m)) entries ;;
      scan <- cnd_age (threshold m) cnos
                {| scan_alarm := true; scan_any_examined := false;
                   scan_cnos := cnos; scan_drops := cnd_drops (attrs m) |} ;;
      let m' := with_attrs m {| cnd_time_window := cnd_time_window (attrs m);
                                cnd_cnos := scan_cnos scan;
                                cnd_drops := scan_drops scan |} in
      if negb (scan_any_examined scan) then Ok (None, m')
      else Ok (Some (scan_alarm scan), m')
  end.

Definition cnd_reset (m : CnoDropJammingMonitor) : CnoDropJammingMonitor :=
  let m' := base_reset false m in
  with_attrs m' {| cnd_time_window := cnd_time_window (attrs m');
                   cnd_cnos := []; cnd_drops := [] |}.

Definition cnd_class : MonitorClass bool bool CnoDropAttrs :=
  {| calculate_metric := cnd_calculate_metric;
     compare_metric := fun _ metric => metric;
     verify_message := @base_verify_message bool bool CnoDropAttrs;
     reset := cnd_reset;
     py_False := false |}.

Definition cnd_init (receiver : string) (thr time_window : Qc)
  : result CnoDropJammingMonitor :=
  if Qcltb time_window 0 then Raise ValueError
  else Ok {| last_event_time := None;
             receiver_id := Some receiver;
             monitor_timeout := None;
             threshold := Fin thr;
             status := {| st_alarm := false; st_threshold := Fin thr;
                          st_metric := None |};
             attrs := {| cnd_time_window := time_window;
                         cnd_cnos := []; cnd_drops := [] |} |}.

Definition cnd_update
  : CnoDropJammingMonitor -> message -> result (option bool * CnoDropJammingMonitor) :=
  update cnd_class.

End Cno.

(** ** [epsilon/dual_antenna_distance_monitor.py] *)

Module DualAntenna.

(** Positions are numpy arrays of three components; [+], [-] and [/] act on
    each component. *)
Definition vadd (a b : vec3) : vec3 :=
  let '(ax, ay, az) := a in
  let '(bx, b_y, bz) := b in
  (ax + bx, ay + b_y, az + bz).

Definition vsub (a b : vec3) : vec3 :=
  let '(ax, ay, az) := a in
  let '(bx, b_y, bz) := b in
  (ax - bx, ay - b_y, az - bz).

Definition vzero : vec3 := (0, 0, 0).

#[export] Instance vec3_SampleOps : SampleOps vec3 :=
  {| s_zero := vzero; s_add := vadd; s_sub := vsub |}.

(** [sum / len(samples)].  An empty buffer has never been appended to since
    it was built or reset, so its [sum] is still the int [0] and the division
    by its length raises [ZeroDivisionError]. *)
Definition vdiv (v : vec3) (n : nat) : result vec3 :=
  match n with
  | O => Raise ZeroDivisionError
  | Datatypes.S _ =>
      let '(x, y, z) := v in
      let d := zq (Z.of_nat n) in
      Ok (x / d, y / d, z / d)
  end.

(** [sum(v ** 2)] *)
Definition sum_squares (v : vec3) : Qc :=
  let '(x, y, z) := v in x * x + y * y + z * z.

(** What [position > threshold] gives on an array, next to the plain [False]
    the status starts with. *)
Inductive np_bools : Set :=
| PyBool (b : bool)
| BoolArray (x y z : bool).

(** *** StubPosMonitor *)

Record StubPosAttrs : Type := {
  samples : TimedRunningSum vec3
}.

Definition StubPosMonitor : Type := Monitor vec3 np_bools StubPosAttrs.

Definition stub_calculate_metric (m : StubPosMonitor) (msg : message)
  : result (option vec3 * StubPosMonitor) :=
  match ecef_position msg with
  | None => Ok (None, m)
  | Some position =>
      time <- getitem (rxTime msg) ;;
      s1 <- trs_append (samples (attrs m)) time position ;;
      s2 <- (if xltb (trs_target s1) (Fin (trs_elapsed_time s1))
             then trs_popleft s1
             else Ok s1) ;;
      Ok (Some position, with_attrs m {| samples := s2 |})
  end.

Definition stub_compare_metric (m : StubPosMonitor) (metric : vec3) : np_bools :=
  let '(x, y, z) := metric in
  BoolArray (xltb (threshold m) (Fin x))
            (xltb (threshold m) (Fin y))
            (xltb (threshold m) (Fin z)).

Definition stub_reset (m : StubPosMonitor) : StubPosMonitor :=
  let m' := base_reset (PyBool false) m in
  with_attrs m' {| samples := trs_reset (samples (attrs m')) |}.

Definition stub_class : MonitorClass vec3 np_bools StubPosAttrs :=
  {| calculate_metric := stub_calculate_metric;
     compare_metric := stub_compare_metric;
     verify_message := @base_verify_message vec3 np_bools StubPosAttrs;
     reset := stub_reset;
     py_False := PyBool false |}.

Definition stub_init (receiver : string) (timeout : option Qc) (time_window : Qc)
  : result StubPosMonitor :=
  s <- trs_init (Fin time_window) ;;
  Ok {| last_event_time := None;
        receiver_id := Some receiver;
        monitor_timeout := timeout;
        threshold := PInf;
        status := {| st_alarm := PyBool false; st_threshold := PInf;
                     st_metric := None |};
        attrs := {| samples := s |} |}.

Definition stub_update
  : StubPosMonitor -> message -> result (option np_bools * StubPosMonitor) :=
  update stub_class.

(** *** DualAntennaDistanceMonitor *)

Inductive rx_sel : Set := Rx1 | Rx2.

(** [_receivers] maps each receiver id to the very object held in [rx1] or
    [rx2]; [_last_update] is [-inf] at construction and [None] after
    [reset]. *)
Record DualAttrs : Type := {
  rx1 : StubPosMonitor;
  rx2 : StubPosMonitor;
  receivers : Dict.dict rx_sel;
  min_samples : Z;
  last_update : option xnum
}.

Definition DualAntennaDistanceMonitor : Type := Monitor Qc bool DualAttrs.

Definition select (a : DualAttrs) (which : rx_sel) : StubPosMonitor :=
  match which with
  | Rx1 => rx1 a
  | Rx2 => rx2 a
  end.

Definition store (a : DualAttrs) (which : rx_sel) (sub : StubPosMonitor) : DualAttrs :=
  match which with
  | Rx1 => {| rx1 := sub; rx2 := rx2 a; receivers := receivers a;
              min_samples := min_samples a; last_update := last_update a |}
  | Rx2 => {| rx1 := rx1 a; rx2 := sub; receivers := receivers a;
              min_samples := min_samples a; last_update := last_update a |}
  end.

Definition with_last_update (a : DualAttrs) (t : option xnum) : DualAttrs :=
  {| rx1 := rx1 a; rx2 := rx2 a; receivers := receivers a;
     min_samples := min_samples a; last_update := t |}.

(** [DualAntennaDistanceMonitor.verify_message] *)
Definition dual_verify_message (m : DualAntennaDistanceMonitor) (msg : message) : bool :=
  match rxTime msg, validity msg, msg_receiver_id msg with
  | Some time, Some valid, Some receiver =>
      if negb valid then false
      else if negb (Dict.contains (receivers (attrs m)) receiver) then false
      else match last_event_time m with
           | Some last => if Qcltb time last then false else true
           | None => true
           end
  | _, _, _ => false
  end.

(** [DualAntennaDistanceMonitor.reset] *)
Definition dual_reset (m : DualAntennaDistanceMonitor) : DualAntennaDistanceMonitor :=
  let m' := base_reset false m in
  let a := attrs m' in
  with_attrs m' {| rx1 := stub_reset (rx1 a);
                   rx2 := stub_reset (rx2 a);
                   receivers := receivers a;
                   min_samples := min_samples a;
                   last_update := None |}.

Section Dual.

(** [math.sqrt] *)
Variable sqrt : Qc -> Qc.

(** [DualAntennaDistanceMonitor._calculate_metric].  Comparing a number with
    [None] raises [TypeError]. *)
Definition dual_calculate_metric (m : DualAntennaDistanceMonitor) (msg : message)
  : result (option Qc * DualAntennaDistanceMonitor) :=
  time <- getitem (rxTime msg) ;;
  receiver <- getitem (msg_receiver_id msg) ;;
  which <- getitem (Dict.get (receivers (attrs m)) receiver) ;;
  '(_, sub) <- stub_update (select (attrs m) which) msg ;;
  let a := store (attrs m) which sub in
  let m1 := with_attrs m a in
  last <- match last_update a with
          | Some t => Ok t
          | None => Raise TypeError
          end ;;
  let s1 := samples (attrs (rx1 a)) in
  let s2 := samples (attrs (rx2 a)) in
  if negb (xltb last (Fin (trs_newest_time s1)) && xltb last (Fin (trs_newest_time s2)))
  then Ok (None, m1)
  else if (Z.of_nat (trs_len s1) <? min_samples a)%Z
          || (Z.of_nat (trs_len s2) <? min_samples a)%Z
  then Ok (None, m1)
  else
    let m2 := with_attrs m (with_last_update a (Some (Fin time))) in
    avg_rx1 <- vdiv (trs_sum s1) (trs_len s1) ;;
    avg_rx2 <- vdiv (trs_sum s2) (trs_len s2) ;;
    Ok (Some (sqrt (sum_squares (vsub avg_rx1 avg_rx2))), m2).

(** [_compare_metric]: [metric <= self._threshold] *)
Definition dual_compare_metric (m : DualAntennaDistanceMonitor) (metric : Qc) : bool :=
  xleb (Fin metric) (threshold m).

Definition dual_class : MonitorClass Qc bool DualAttrs :=
  {| calculate_metric := dual_calculate_metric;
     compare_metric := dual_compare_metric;
     verify_message := dual_verify_message;
     reset := dual_reset;
     py_False := false |}.

Definition dual_update
  : DualAntennaDistanceMonitor -> message
    -> result (option bool * DualAntennaDistanceMonitor) :=
  update dual_class.

End Dual.

(** [DualAntennaDistanceMonitor.__init__] *)
Definition dual_init (receiver_id_1 receiver_id_2 : string) (timeout : option Qc)
    (minimum_samples : Z) (thr time_range : Qc) : result DualAntennaDistanceMonitor :=
  if Qcleb thr 0 then Raise ValueError
  else
    r1 <- stub_init receiver_id_1 timeout time_range ;;
    r2 <- stub_init receiver_id_2 timeout time_range ;;
    Ok {| last_event_time := None;
          receiver_id := Some receiver_id_1;
          monitor_timeout := timeout;
          threshold := Fin thr;
          status := {| st_alarm := false; st_threshold := Fin thr; st_metric := None |};
          attrs := {| rx1 := r1; rx2 := r2;
                      receivers := Dict.set (Dict.set [] receiver_id_1 Rx1)
                                            receiver_id_2 Rx2;
                      min_samples := minimum_samples;
                      last_update := Some NInf |} |}.

End DualAntenna.

(** ** [epsilon/clock_rate_monitor.py] *)

Module ClockRate.

Record ClockRateAttrs : Type := {
  cr_samples : TimedBuffer Qc;
  cr_max_delta_t : Qc
}.

Definition ClockRateMonitor : Type := Monitor Qc bool ClockRateAttrs.

(** The [min_delta_t] property reads the target of [samples]. *)
Definition cr_min_delta_t (a : ClockRateAttrs) : xnum :=
  tb_target_elapsed_time (cr_samples a).

Definition with_samples (m : ClockRateMonitor) (s : TimedBuffer Qc) : ClockRateMonitor :=
  with_attrs m {| cr_samples := s; cr_max_delta_t := cr_max_delta_t (attrs m) |}.

(** [ClockRateMonitor.reset] *)
Definition cr_reset (m : ClockRateMonitor) : ClockRateMonitor :=
  let m' := base_reset false m in
  with_samples m' (tb_reset (cr_samples (attrs m'))).

(** [ClockRateMonitor._calculate_metric].  One [popleft] at most follows the
    append.  [newest_sample - oldest_sample] on an empty buffer subtracts
    [None] from [None] ([TypeError]); the division raises
    [ZeroDivisionError] when [elapsed_time] is zero. *)
Definition cr_calculate_metric (m : ClockRateMonitor) (msg : message)
  : result (option Qc * ClockRateMonitor) :=
  match clock_rate msg with
  | None => Ok (None, m)
  | Some rate =>
      time <- getitem (rxTime msg) ;;
      s1 <- tb_append (cr_samples (attrs m)) time rate ;;
      s2 <- (if Qcltb (cr_max_delta_t (attrs m)) (elapsed_time s1)
             then tb_popleft s1
             else Ok s1) ;;
      let m' := with_samples m s2 in
      if xltb (Fin (elapsed_time s2)) (tb_target_elapsed_time s2) then Ok (None, m')
      else
        match newest_sample s2, oldest_sample s2 with
        | Some newest, Some oldest =>
            if Qceqb (elapsed_time s2) 0 then Raise ZeroDivisionError
            else Ok (Some (Qcabs (newest - oldest) / elapsed_time s2), m')
        | _, _ => Raise TypeError
        end
  end.

Definition cr_class : MonitorClass Qc bool ClockRateAttrs :=
  {| calculate_metric := cr_calculate_metric;
     compare_metric := @base_compare_metric bool ClockRateAttrs;
     verify_message := @base_verify_message Qc bool ClockRateAttrs;
     reset := cr_reset;
     py_False := false |}.

(** [ClockRateMonitor.__init__]: the threshold setter, called by the base
    constructor, and the [max_delta_t] setter insist on positive values;
    [min_delta_t] is handed to the buffer, which refuses negative ones only. *)
Definition cr_init (receiver : string) (timeout : option Qc) (thr min_dt max_dt : Qc)
  : result ClockRateMonitor :=
  if Qcleb thr 0 then Raise ValueError
  else if Qcltb max_dt min_dt then Raise ValueError
  else
    s <- tb_init Qc (Fin min_dt) true ;;
    if Qcleb max_dt 0 then Raise ValueError
    else Ok {| last_event_time := None;
               receiver_id := Some receiver;
               monitor_timeout := timeout;
               threshold := Fin thr;
               status := {| st_alarm := false; st_threshold := Fin thr;
                            st_metric := None |};
               attrs := {| cr_samples := s; cr_max_delta_t := max_dt |} |}.

(** The [min_delta_t] setter *)
Definition cr_set_min_delta_t (m : ClockRateMonitor) (min_dt : Qc)
  : result ClockRateMonitor :=
  if Qcleb min_dt 0 then Raise ValueError
  else
    s <- tb_set_target_elapsed_time (cr_samples (attrs m)) (Fin min_dt) ;;
    Ok (with_samples m s).

(** The [max_delta_t] setter *)
Definition cr_set_max_delta_t (m : ClockRateMonitor) (max_dt : Qc)
  : result ClockRateMonitor :=
  if Qcleb max_dt 0 then Raise ValueError
  else Ok (with_attrs m {| cr_samples := cr_samples (attrs m);
                           cr_max_delta_t := max_dt |}).

Definition cr_update : ClockRateMonitor -> message
                       -> result (option bool * ClockRateMonitor) :=
  update cr_class.

End ClockRate.

(** ** [epsilon/stationary_position_monitor.py] *)

Module StationaryPosition.

(** [num_accepted] and [num_init_samples] are ints; [average] is [None]
    until the first position or a hot start. *)
Record PositionAttrs : Type := {
  num_accepted : Z;
  average : option vec3;
  num_init_samples : Z;
  rejection_threshold : Qc
}.

Definition StationaryPositionMonitor : Type := FilteredMonitor PositionAttrs.

Definition with_sub (m : StationaryPositionMonitor) (a : PositionAttrs)
  : StationaryPositionMonitor :=
  with_attrs m {| min_detections := min_detections (attrs m);
                  detections := detections (attrs m);
                  spoofing_flag := spoofing_flag (attrs m);
                  sub_attrs := a |}.

Definition with_average (m : StationaryPositionMonitor) (avg : option vec3) (n : Z)
  : StationaryPositionMonitor :=
  with_sub m {| num_accepted := n;
                average := avg;
                num_init_samples := num_init_samples (sub_attrs (attrs m));
                rejection_threshold := rejection_threshold (sub_attrs (attrs m)) |}.

(** An array divided by a number. *)
Definition vscale_div (v : vec3) (d : Qc) : vec3 :=
  let '(x, y, z) := v in (x / d, y / d, z / d).

(** [_update_average].  Arithmetic on an [average] that is still [None]
    raises [TypeError].  [num_accepted] is never negative, so the divisor is
    at least 1. *)
Definition update_average (m : StationaryPositionMonitor) (measurement : vec3)
  : result StationaryPositionMonitor :=
  let a := sub_attrs (attrs m) in
  match average a with
  | None => Raise TypeError
  | Some avg =>
      Ok (with_average m
            (Some (DualAntenna.vadd avg
                     (vscale_div (DualAntenna.vsub measurement avg)
                                 (zq (num_accepted a) + 1))))
            (num_accepted a + 1))
  end.

(** [StationaryPositionMonitor.reset] *)
Definition sp_reset (m : StationaryPositionMonitor) : StationaryPositionMonitor :=
  with_average (filtered_reset m) (Some DualAntenna.vzero) 0.

Section Position.

(** [math.sqrt], which [np.linalg.norm] applies to the sum of the squares. *)
Variable sqrt : Qc -> Qc.

Definition norm (v : vec3) : Qc := sqrt (DualAntenna.sum_squares v).

(** [StationaryPositionMonitor._calculate_metric] *)
Definition sp_calculate_metric (m : StationaryPositionMonitor) (msg : message)
  : result (option Qc * StationaryPositionMonitor) :=
  match ecef_position msg with
  | None => Ok (None, m)
  | Some position =>
      let a := sub_attrs (attrs m) in
      if (num_accepted a =? 0)%Z then Ok (None, with_average m (Some position) 1)
      else if (num_accepted a <? num_init_samples a)%Z then
        m' <- update_average m position ;;
        Ok (None, m')
      else
        avg <- match average a with
               | Some avg => Ok avg
               | None => Raise TypeError
               end ;;
        let shifted_position_magnitude := norm (DualAntenna.vsub position avg) in
        m' <- (if Qcltb shifted_position_magnitude (rejection_threshold a)
               then update_average m position
               else Ok m) ;;
        Ok (Some shifted_position_magnitude, m')
  end.

Definition sp_class : MonitorClass Qc bool (FilteredAttrs PositionAttrs) :=
  {| calculate_metric := sp_calculate_metric;
     compare_metric := @base_compare_metric bool (FilteredAttrs PositionAttrs);
     verify_message := @base_verify_message Qc bool (FilteredAttrs PositionAttrs);
     reset := sp_reset;
     py_False := false |}.

Definition sp_update : StationaryPositionMonitor -> message
                       -> result (option bool * StationaryPositionMonitor) :=
  filtered_update sp_class.

End Position.

(** The [rejection_threshold] setter keeps the absolute value. *)
Definition sp_set_rejection_threshold (m : StationaryPositionMonitor) (thr : Qc)
  : StationaryPositionMonitor :=
  with_sub m {| num_accepted := num_accepted (sub_attrs (attrs m));
                average := average (sub_attrs (attrs m));
                num_init_samples := num_init_samples (sub_attrs (attrs m));
                rejection_threshold := Qcabs thr |}.

(** The [threshold] setter on a constructed monitor; [spoofing_threshold]
    goes through it. *)
Definition sp_set_threshold (m : StationaryPositionMonitor) (thr : Qc)
  : StationaryPositionMonitor :=
  {| last_event_time := last_event_time m;
     receiver_id := receiver_id m;
     monitor_timeout := monitor_timeout m;
     threshold := Fin (Qcabs thr);
     status := {| st_alarm := st_alarm (status m);
                  st_threshold := Fin (Qcabs thr);
                  st_metric := st_metric (status m) |};
     attrs := attrs m |}.

(** [StationaryPositionMonitor.__init__].  The base constructor assigns the
    threshold before it sets [_id_str]; for a negative threshold the setter
    reads [self._id_str] to log its warning, which raises [AttributeError]. *)
Definition sp_init (receiver : string) (timeout : option Qc) (min_det : Qc)
    (sample_window : nat) (rejection_thr spoofing_thr : Qc) (num_init : Z)
  : result StationaryPositionMonitor :=
  if Qcltb spoofing_thr 0 then Raise AttributeError
  else
    m <- filtered_init receiver timeout (Fin spoofing_thr) min_det sample_window
           {| num_accepted := 0; average := None;
              num_init_samples := num_init;
              rejection_threshold := Qcabs rejection_thr |} ;;
    if (num_init <? 3)%Z then Raise ValueError else Ok m.

(** [hot_start_monitor(average, num_accepted)], [num_accepted] an int. *)
Definition hot_start_monitor (m : StationaryPositionMonitor) (avg : list Qc) (n : Z)
  : result StationaryPositionMonitor :=
  match avg with
  | [x; y; z] =>
      if (n <=? 0)%Z then Raise ValueError
      else Ok (with_average m (Some (x, y, z)) n)
  | _ => Raise ValueError
  end.

End StationaryPosition.

(** ** [epsilon/cn0_spoofing_monitor.py] *)

Module CnoSpoofing.

(** The two ids the constructor reads out of [channel_id]. *)
Record CnoSpoofingAttrs : Type := {
  cns_gnss_id : Z;
  cns_sv_id : Z
}.

Definition CnoSpoofingMonitor : Type := Monitor Qc bool CnoSpoofingAttrs.

(** The loop over [message['svs']]: [sv['svid']] is read only when the
    [gnssId] matches, [sv['cno']] only when both do; each subscript raises
    [KeyError] on an entry without the key. *)
Fixpoint cns_scan (gnss_id sv_id : Z) (entries : list sv_data) : result (option Qc) :=
  match entries with
  | [] => Ok None
  | sv :: rest =>
      g <- getitem (gnssId sv) ;;
      if (g =? gnss_id)%Z then
        s <- getitem (svid sv) ;;
        if (s =? sv_id)%Z then
          c <- getitem (cno sv) ;;
          Ok (Some c)
        else cns_scan gnss_id sv_id rest
      else cns_scan gnss_id sv_id rest
  end.

(** [CnoSpoofingMonitor._calculate_metric] *)
Definition cns_calculate_metric (m : CnoSpoofingMonitor) (msg : message)
  : result (option Qc * CnoSpoofingMonitor) :=
  match svs msg with
  | None => Ok (None, m)
  | Some entries =>
      metric <- cns_scan (cns_gnss_id (attrs m)) (cns_sv_id (attrs m)) entries ;;
      Ok (metric, m)
  end.

Definition cns_class : MonitorClass Qc bool CnoSpoofingAttrs :=
  {| calculate_metric := cns_calculate_metric;
     compare_metric := @base_compare_metric bool CnoSpoofingAttrs;
     verify_message := @base_verify_message Qc bool CnoSpoofingAttrs;
     reset := @base_reset Qc bool CnoSpoofingAttrs false;
     py_False := false |}.

Definition cns_update : CnoSpoofingMonitor -> message
                        -> result (option bool * CnoSpoofingMonitor) :=
  update cns_class.

End CnoSpoofing.

(** ** [monitor.from_config] *)

Module Config.

(** A class with its direct subclasses, in the order [__subclasses__()]
    lists them (the order in which they were defined). *)
#[warnings="-register-all"] Inductive pyclass : Type :=
| PyClass (name : string) (subclasses : list pyclass).

Definition class_name (cls : pyclass) : string :=
  match cls with
  | PyClass name _ => name
  end.

Definition subclasses_of (cls : pyclass) : list pyclass :=
  match cls with
  | PyClass _ subclasses => subclasses
  end.

(** [from_config(monitor_name, configuration, cls)], up to the call of the
    class found on the configuration: the class that is instantiated, or
    [None].  The
    second loop returns from its first turn, so only the first subclass is
    searched further; with no subclass the function falls off its end. *)
Fixpoint from_config (monitor_name : string) (cls : pyclass) : option pyclass :=
  match cls with
  | PyClass _ subclasses =>
      match find (fun sub => String.eqb monitor_name (class_name sub)) subclasses with
      | Some sub => Some sub
      | None =>
          match subclasses with
          | [] => None
          | sub :: _ => from_config monitor_name sub
          end
      end
  end.

End Config.

(** ** Invariants and vocabulary of the properties *)

Module Specs.

(** The invariant of a [FIFORunningSum]. *)
Definition fifo_ok (f : FIFORunningSum) : Prop :=
  fifo_sum f = qsum (fifo_buffer f) /\ (length (fifo_buffer f) <= fifo_maxlen f)%nat.

Section TimedBufferSpecs.

Variable A : Type.

(** The two deques of a buffer have the same length. *)
Definition tb_wf (b : TimedBuffer A) : Prop :=
  length (time_buffer b) = length (sample_buffer b).

(** A time is stale when it is strictly below the cutoff. *)
Definition stale (cutoff : xnum) (t : Qc) : bool := xltb (Fin t) cutoff.

Definition tb_drop (n : nat) (b : TimedBuffer A) : TimedBuffer A :=
  {| time_buffer := skipn n (time_buffer b);
     sample_buffer := skipn n (sample_buffer b);
     tb_target_elapsed_time := tb_target_elapsed_time b;
     tb_keep_one := tb_keep_one b |}.

(** The number of entries [append] pops after pushing [(time, sample)]. *)
Definition popped_by_append (b : TimedBuffer A) (time : Qc) : nat :=
  Nat.pred (count_stale (xsub time (tb_target_elapsed_time b)) (time_buffer b ++ [time])).

End TimedBufferSpecs.

(** The laws of [+] and [-] the running sum relies on. *)
Class SampleLaws (A : Type) {ops : SampleOps A} : Prop := {
  s_add_comm : forall a b : A, s_add a b = s_add b a;
  s_add_assoc : forall a b c : A, s_add (s_add a b) c = s_add a (s_add b c);
  s_sub_add : forall a b : A, s_sub (s_add a b) b = a
}.

Arguments SampleLaws A {ops}.

Definition trs_ok {A : Type} {ops : SampleOps A} (b : TimedRunningSum A) : Prop :=
  tb_wf (trs_buffer b) /\ trs_sum b = total (sample_buffer (trs_buffer b)).


(** The raw flags pushed since the last reset, oldest first, against the
    detection window of a [FilteredMonitor]. *)
Definition count_flagged (flags : list bool) : nat := length (filter (fun b => b) flags).

Definition window_holds (d : FIFORunningSum) (flags : list bool) : Prop :=
  fifo_buffer d = lastn (fifo_maxlen d) (map int_of_bool flags)
  /\ fifo_sum d = qsum (fifo_buffer d).


(** The messages of a consistent clock: constant rate [r], and a bias delta
    equal to [r] times the step since the previous message. *)
Definition clock_message (receiver : string) (r prev time : Qc) : message :=
  {| rxTime := Some time; validity := Some true; msg_receiver_id := Some receiver;
     clock_rate := Some r; clock_bias := Some (r * (time - prev));
     ecef_position := None; ecef_velocity := None; svs := None |}.

Fixpoint clock_stream (receiver : string) (r prev : Qc) (times : list Qc)
  : list message :=
  match times with
  | [] => []
  | t :: rest => clock_message receiver r prev t :: clock_stream receiver r t rest
  end.

(** What holds of the attributes of a [CCDMonitor] fed by such a clock,
    [prev] being the time of the message before. *)
Definition ccd_attrs_inv (r prev : Qc) (a : CCD.CCDAttrs) : Prop :=
  0 <= CCD.max_delta_t a
  /\ CCD.bias_samples a = CCD.rate_integral a
  /\ trs_ok (CCD.bias_samples a)
  /\ (CCD.last_rate a = None /\ trs_times (CCD.bias_samples a) = []
      \/ CCD.last_rate a = Some r /\ CCD.last_time a = Some prev)
  /\ (trs_times (CCD.bias_samples a) = []
      \/ trs_newest_time (CCD.bias_samples a) <= prev).

Definition ccd_inv (receiver : string) (r prev : Qc) (m : CCD.CCDMonitor) : Prop :=
  receiver_id m = Some receiver
  /\ (exists thr, threshold m = Fin thr /\ 0 < thr)
  /\ (forall last, last_event_time m = Some last -> last <= prev)
  /\ (st_metric (status m) = None \/ st_metric (status m) = Some 0)
  /\ ccd_attrs_inv r prev (attrs m).

(** The window of a [CCDMonitor] is filled. *)
Definition ccd_window_filled (m : CCD.CCDMonitor) : Prop :=
  (1 <= trs_len (CCD.bias_samples (attrs m)))%nat
  /\ xltb (Fin (trs_elapsed_time (CCD.bias_samples (attrs m))))
          (CCD.min_delta_t (attrs m)) = false.


(** An entry of [svs] that has its four fields, quality at least 4 and a
    positive cno. *)
Definition usable (sv : sv_data) : bool :=
  match svid sv, gnssId sv, cno sv, qualityInd sv with
  | Some _, Some _, Some c, Some q => negb (Cno.low_quality q c)
  | _, _, _, _ => false
  end.

(** The channel an entry belongs to, when it names one. *)
Definition channel_of (sv : sv_data) : option string :=
  match gnssId sv, svid sv with
  | Some g, Some s => Some (Cno.channel_id g s)
  | _, _ => None
  end.

Definition with_svs (msg : message) (entries : list sv_data) : message :=
  {| rxTime := rxTime msg; validity := validity msg;
     msg_receiver_id := msg_receiver_id msg;
     clock_rate := clock_rate msg; clock_bias := clock_bias msg;
     ecef_position := ecef_position msg;
     ecef_velocity := ecef_velocity msg; svs := Some entries |}.


(** What one [update] on a message of the consistent clock gives. *)
Definition ccd_step_result (receiver : string) (r t : Qc)
    (res : result (option bool * CCD.CCDMonitor)) : Prop :=
  exists out m',
    res = Ok (out, m')
    /\ ccd_inv receiver r t m'
    /\ (out = None \/ out = Some false)
    /\ (out <> None <-> ccd_window_filled m')
    /\ (out <> None -> st_metric (status m') = Some 0).

(** What a run over the messages of the consistent clock gives. *)
Definition ccd_run_result (receiver : string) (r prev : Qc) (times : list Qc)
    (res : result (list (option bool) * CCD.CCDMonitor)) : Prop :=
  exists outs m',
    res = Ok (outs, m')
    /\ length outs = length times
    /\ Forall (fun o => o = None \/ o = Some false) outs
    /\ ccd_inv receiver r (last times prev) m'
    /\ (times <> [] ->
        (last outs None <> None <-> ccd_window_filled m')
        /\ (last outs None <> None -> st_metric (status m') = Some 0)).

(** The timeout guard of [update] calls [reset()] on this message. *)
Definition timeout_fires {M B S : Type} (m : Monitor M B S) (time : Qc) : bool :=
  match monitor_timeout m, last_event_time m with
  | Some timeout, Some last => Qcleb timeout (time - last)
  | _, _ => false
  end.

(** What holds of a sub-monitor of the dual-antenna monitor: its running sum
    is exact and its newest sample is no later than its last event. *)
Definition stub_inv (sub : DualAntenna.StubPosMonitor) : Prop :=
  let s := DualAntenna.samples (attrs sub) in
  @trs_ok vec3 DualAntenna.vec3_SampleOps s
  /\ (trs_newest_time s = 0
      \/ exists last, last_event_time sub = Some last /\ trs_newest_time s <= last).

(** The average of a window of positions. *)
Definition mean (window : list vec3) : result vec3 :=
  DualAntenna.vdiv (@total vec3 DualAntenna.vec3_SampleOps window) (length window).

(** The retained positions of a sub-monitor. *)
Definition window_of (sub : DualAntenna.StubPosMonitor) : list vec3 :=
  sample_buffer (trs_buffer (DualAntenna.samples (attrs sub))).


(** The response an FIR filter is meant to give: coefficient [i] times the
    [i]-th most recent sample, summed over the coefficients. *)
Definition fir_sum (coeffs recent : list Qc) : Qc :=
  qsum (map (fun p => fst p * snd p) (combine coeffs recent)).

(** Operations of a client of [TimedBuffer]; one that raises leaves the
    object as it was. *)
Section TimedBufferClient.

Variable A : Type.

Inductive tb_op : Type :=
| TbAppend (time : Qc) (sample : A)
| TbPopleft
| TbSetTarget (val : xnum)
| TbRemoveOld (keep_one_before : bool)
| TbReset.

Definition tb_apply (b : TimedBuffer A) (op : tb_op) : result (TimedBuffer A) :=
  match op with
  | TbAppend time sample => tb_append b time sample
  | TbPopleft => tb_popleft b
  | TbSetTarget val => tb_set_target_elapsed_time b val
  | TbRemoveOld keep => tb_remove_old_samples keep b
  | TbReset => Ok (tb_reset b)
  end.

Definition tb_step (b : TimedBuffer A) (op : tb_op) : TimedBuffer A :=
  match tb_apply b op with
  | Ok b' => b'
  | Raise _ => b
  end.

(** The two deques go together, the times are in arrival order and none is
    negative, and the target is not negative. *)
Definition tb_inv (b : TimedBuffer A) : Prop :=
  tb_wf b
  /\ StronglySorted Qcle (time_buffer b)
  /\ Forall (fun t => 0 <= t) (time_buffer b)
  /\ xltb (tb_target_elapsed_time b) (Fin 0) = false.

End TimedBufferClient.

(** A class that keeps the base [verify_message] and whose [reset] goes
    through [Monitor.reset]: it clears [last_event_time] and leaves the
    receiver id alone. *)
Definition resets_through_base {M B S : Type} (cls : MonitorClass M B S) : Prop :=
  (forall m msg, verify_message cls m msg = base_verify_message m msg)
  /\ (forall m, last_event_time (reset cls m) = None)
  /\ (forall m, receiver_id (reset cls m) = receiver_id m).

(** What holds of a [ClockRateMonitor] between updates: its buffer is well
    formed, [0 <= min_delta_t <= max_delta_t] with [max_delta_t] positive,
    and the newest sample is no later than the last accepted message. *)
Definition cr_inv (m : ClockRate.ClockRateMonitor) : Prop :=
  let s := ClockRate.cr_samples (attrs m) in
  tb_inv s
  /\ (exists min_dt, tb_target_elapsed_time s = Fin min_dt
                     /\ min_dt <= ClockRate.cr_max_delta_t (attrs m))
  /\ 0 < ClockRate.cr_max_delta_t (attrs m)
  /\ (time_buffer s = [] /\ sample_buffer s = []
      \/ exists last, last_event_time m = Some last /\ newest_time s <= last).

(** The monitor an [update] leaves: invariant kept, samples [s'], threshold
    untouched, last event at [time]. *)
Definition cr_left (m m' : ClockRate.ClockRateMonitor) (time : Qc) (s' : TimedBuffer Qc)
  : Prop :=
  cr_inv m'
  /\ ClockRate.cr_samples (attrs m') = s'
  /\ ClockRate.cr_max_delta_t (attrs m') = ClockRate.cr_max_delta_t (attrs m)
  /\ threshold m' = threshold m
  /\ last_event_time m' = Some time.

(** The three outcomes of an [update] that appends a clock rate and leaves
    the samples [s']: not enough elapsed time, a division by zero, or the
    metric [|newest - oldest| / elapsed_time]. *)
Definition cr_outcome (m : ClockRate.ClockRateMonitor) (time rate : Qc)
    (s' : TimedBuffer Qc) (res : result (option bool * ClockRate.ClockRateMonitor))
  : Prop :=
  (xltb (Fin (elapsed_time s')) (tb_target_elapsed_time s') = true
   /\ exists m', res = Ok (None, m') /\ cr_left m m' time s')
  \/ (xltb (Fin (elapsed_time s')) (tb_target_elapsed_time s') = false
      /\ elapsed_time s' = 0 /\ res = Raise ZeroDivisionError)
  \/ (xltb (Fin (elapsed_time s')) (tb_target_elapsed_time s') = false
      /\ elapsed_time s' <> 0
      /\ exists m' oldest,
           oldest_sample s' = Some oldest
           /\ res = Ok (Some (xltb (threshold m)
                                (Fin (Qcabs (rate - oldest) / elapsed_time s'))), m')
           /\ st_metric (status m') = Some (Qcabs (rate - oldest) / elapsed_time s')
           /\ cr_left m m' time s').

(** A clock rate that drifts linearly: [r0 + a * t] at time [t]. *)
Definition drifting_rate (r0 a t : Qc) : Qc := r0 + a * t.

(** Every sample held is the drifting rate at its time. *)
Definition cr_tracks (r0 a : Qc) (m : ClockRate.ClockRateMonitor) : Prop :=
  sample_buffer (ClockRate.cr_samples (attrs m))
  = map (drifting_rate r0 a) (time_buffer (ClockRate.cr_samples (attrs m))).

Definition with_clock_rate (msg : message) (rate : Qc) : message :=
  {| rxTime := rxTime msg; validity := validity msg;
     msg_receiver_id := msg_receiver_id msg;
     clock_rate := Some rate; clock_bias := clock_bias msg;
     ecef_position := ecef_position msg;
     ecef_velocity := ecef_velocity msg; svs := svs msg |}.

(** The arithmetic mean of a list of positions. *)
Definition vmean (acc : list vec3) : vec3 :=
  StationaryPosition.vscale_div (@total vec3 DualAntenna.vec3_SampleOps acc)
                                (zq (Z.of_nat (length acc))).

(** The monitor has accepted the positions [acc], in this order, since it was
    built, reset or hot-started: it counts them, and once there is one its
    average is their mean. *)
Definition sp_tracks (acc : list vec3) (m : StationaryPosition.StationaryPositionMonitor)
  : Prop :=
  StationaryPosition.num_accepted (sub_attrs (attrs m)) = Z.of_nat (length acc)
  /\ (acc <> [] ->
      StationaryPosition.average (sub_attrs (attrs m)) = Some (vmean acc)).

Definition with_position (msg : message) (p : vec3) : message :=
  {| rxTime := rxTime msg; validity := validity msg;
     msg_receiver_id := msg_receiver_id msg;
     clock_rate := clock_rate msg; clock_bias := clock_bias msg;
     ecef_position := Some p;
     ecef_velocity := ecef_velocity msg; svs := svs msg |}.

(** An entry the loop of [CnoSpoofingMonitor] steps over: it has a [gnssId],
    and either that is another constellation or it has an [svid] that is
    another satellite. *)
Definition cns_passes (gnss_id sv_id : Z) (sv : sv_data) : bool :=
  match gnssId sv with
  | None => false
  | Some g =>
      if (g =? gnss_id)%Z then
        match svid sv with
        | None => false
        | Some s => negb (s =? sv_id)%Z
        end
      else true
  end.

(** No channel of the dictionary holds [None]. *)
Definition cnt_healthy (cnos : Dict.dict (option (Qc * Qc))) : Prop :=
  Forall (fun kv => snd kv <> None) cnos.

(** What the ageing loop of [CnoThresholdJammingMonitor] leaves in an entry:
    [None] once its sample is older than the window. *)
Definition age_entry (time window : Qc) (kv : string * option (Qc * Qc))
  : string * option (Qc * Qc) :=
  match snd kv with
  | Some (last_time, _) =>
      if Qcltb window (time - last_time) then (fst kv, None) else kv
  | None => kv
  end.

(** The C/N0 values of the channels whose sample is inside the window. *)
Definition fresh_cnos (time window : Qc) (cnos : Dict.dict (option (Qc * Qc)))
  : list Qc :=
  flat_map (fun kv => match snd kv with
                      | Some (last_time, c) =>
                          if Qcltb window (time - last_time) then [] else [c]
                      | None => []
                      end) cnos.

(** [mx] is the largest element of [l], or [None] when there is none. *)
Definition is_max (mx : option Qc) (l : list Qc) : Prop :=
  match mx with
  | None => l = []
  | Some c => In c l /\ Forall (fun c' => c' <= c) l
  end.

(** The list holding the value of an option, if any. *)
Definition opt_list (mx : option Qc) : list Qc :=
  match mx with
  | None => []
  | Some c => [c]
  end.

(** What [remove_old_samples()] leaves of a channel's buffer, and the drop
    [CnoDropJammingMonitor] reads off it: oldest minus newest C/N0, for a
    channel left with two samples or more. *)
Definition cnd_retained (data : TimedBuffer Qc) : TimedBuffer Qc :=
  tb_drop (Z.to_nat (num_to_pop true (tb_target_elapsed_time data) (time_buffer data)))
          data.

Definition channel_drop (data : TimedBuffer Qc) : option Qc :=
  let kept := cnd_retained data in
  match sample_buffer kept with
  | oldest :: s :: rest => Some (oldest - last rest s)
  | _ => None
  end.

(** The drops of the channels that are examined, in the order of the
    dictionary. *)
Definition cnd_examined (cnos : Dict.dict (TimedBuffer Qc)) : list Qc :=
  flat_map (fun kv => opt_list (channel_drop (snd kv))) cnos.

(** Every channel buffer is well formed and holds nothing later than
    [bound]. *)
Definition cnd_ok (bound : Qc) (cnos : Dict.dict (TimedBuffer Qc)) : Prop :=
  Forall (fun kv => tb_inv (snd kv) /\ newest_time (snd kv) <= bound) cnos.

(** A class, its first subclass, the first subclass of that one, and so
    on. *)
Fixpoint first_chain (cls : Config.pyclass) : list Config.pyclass :=
  match cls with
  | Config.PyClass _ subclasses =>
      cls :: match subclasses with
             | [] => []
             | sub :: _ => first_chain sub
             end
  end.

(** What holds of a [CCDMonitor] whatever clock feeds it: the two running
    sums are exact and hold the same time stamps, in arrival order, under the
    same target; the span kept does not exceed [max_delta_t]; a remembered
    rate comes with its time; and the newest sample is no later than the last
    accepted message. *)
Definition ccd_lock (m : CCD.CCDMonitor) : Prop :=
  let a := attrs m in
  trs_ok (CCD.bias_samples a)
  /\ trs_ok (CCD.rate_integral a)
  /\ tb_inv (trs_buffer (CCD.bias_samples a))
  /\ trs_times (CCD.rate_integral a) = trs_times (CCD.bias_samples a)
  /\ trs_target (CCD.rate_integral a) = trs_target (CCD.bias_samples a)
  /\ 0 <= CCD.max_delta_t a
  /\ trs_elapsed_time (CCD.bias_samples a) <= CCD.max_delta_t a
  /\ (CCD.last_rate a <> None -> CCD.last_time a <> None)
  /\ (trs_times (CCD.bias_samples a) = []
      \/ exists last, last_event_time m = Some last
                      /\ trs_newest_time (CCD.bias_samples a) <= last).

(** The bias deltas and the trapezoid terms a [CCDMonitor] holds. *)
Definition ccd_biases (m : CCD.CCDMonitor) : list Qc :=
  sample_buffer (trs_buffer (CCD.bias_samples (attrs m))).

Definition ccd_rate_terms (m : CCD.CCDMonitor) : list Qc :=
  sample_buffer (trs_buffer (CCD.rate_integral (attrs m))).

Definition with_clock (msg : message) (rate bias : Qc) : message :=
  {| rxTime := rxTime msg; validity := validity msg;
     msg_receiver_id := msg_receiver_id msg;
     clock_rate := Some rate; clock_bias := Some bias;
     ecef_position := ecef_position msg;
     ecef_velocity := ecef_velocity msg; svs := svs msg |}.

End Specs.

Import Specs.

(** ** Concrete buffers and monitors used as examples *)

Module Examples.

(** A buffer holding one sample taken at time 1. *)
Definition one_sample_buffer : TimedBuffer Qc :=
  {| time_buffer := [1]; sample_buffer := [1];
     tb_target_elapsed_time := PInf; tb_keep_one := true |}.

(** [TimedBuffer(1, keep_one_sample_before=False)] after [append(0, 10)]. *)
Definition strict_buffer : TimedBuffer Qc :=
  {| time_buffer := [0]; sample_buffer := [zq 10];
     tb_target_elapsed_time := Fin 1; tb_keep_one := false |}.

Definition strict_buffer_after : TimedBuffer Qc :=
  {| time_buffer := [0; zq 5]; sample_buffer := [zq 10; zq 20];
     tb_target_elapsed_time := Fin 1; tb_keep_one := false |}.

(** [StationaryVelocityMonitor('rx', monitor_timeout=10, min_detections=1,
    sample_window=3, threshold=1)] *)
Definition sv_monitor : StationaryVelocity.StationaryVelocityMonitor :=
  {| last_event_time := None;
     receiver_id := Some "rx"%string;
     monitor_timeout := Some (zq 10);
     threshold := Fin 1;
     status := {| st_alarm := false; st_threshold := Fin 1; st_metric := None |};
     attrs := {| min_detections := 1;
                 detections := fifo_init 3;
                 spoofing_flag := false;
                 sub_attrs := tt |} |}.

Definition with_velocity (msg : message) (v : list Qc) : message :=
  {| rxTime := rxTime msg; validity := validity msg;
     msg_receiver_id := msg_receiver_id msg;
     clock_rate := clock_rate msg; clock_bias := clock_bias msg;
     ecef_position := ecef_position msg;
     ecef_velocity := Some v; svs := svs msg |}.

Definition with_validity (msg : message) (v : bool) : message :=
  {| rxTime := rxTime msg; validity := Some v;
     msg_receiver_id := msg_receiver_id msg;
     clock_rate := clock_rate msg; clock_bias := clock_bias msg;
     ecef_position := ecef_position msg;
     ecef_velocity := ecef_velocity msg; svs := svs msg |}.

(** A fast sample at time 0, then a message without a velocity at time 20,
    past the timeout. *)
Definition fast_message : message :=
  with_velocity (basic_message 0 "rx"%string) [zq 2; 0; 0].

Definition late_message : message := basic_message (zq 20) "rx"%string.

Definition invalid_message : message :=
  with_validity (basic_message (zq 1) "rx"%string) false.

(** [sv_monitor] after [fast_message]: the raw flag is up and sits in the
    detection window. *)
Definition sv_monitor_flagged : StationaryVelocity.StationaryVelocityMonitor :=
  {| last_event_time := Some 0;
     receiver_id := Some "rx"%string;
     monitor_timeout := Some (zq 10);
     threshold := Fin 1;
     status := {| st_alarm := true; st_threshold := Fin 1;
                  st_metric := Some (zq 4) |};
     attrs := {| min_detections := 1;
                 detections := {| fifo_sum := 1; fifo_buffer := [1];
                                  fifo_maxlen := 3 |};
                 spoofing_flag := true;
                 sub_attrs := tt |} |}.

(** [sv_monitor_flagged] after [late_message]: reset by the timeout guard. *)
Definition sv_monitor_after_timeout : StationaryVelocity.StationaryVelocityMonitor :=
  {| last_event_time := Some (zq 20);
     receiver_id := Some "rx"%string;
     monitor_timeout := Some (zq 10);
     threshold := Fin 1;
     status := {| st_alarm := false; st_threshold := Fin 1; st_metric := None |};
     attrs := {| min_detections := 1;
                 detections := fifo_init 3;
                 spoofing_flag := false;
                 sub_attrs := tt |} |}.


(** [CCDMonitor('rx', monitor_timeout=10, threshold=1, min_delta_t=2,
    max_delta_t=3)] *)
Definition ccd_monitor : CCD.CCDMonitor :=
  let empty := {| trs_buffer := {| time_buffer := []; sample_buffer := [];
                                   tb_target_elapsed_time := Fin (zq 2);
                                   tb_keep_one := true |};
                  trs_sum := 0 |} in
  {| last_event_time := None;
     receiver_id := Some "rx"%string;
     monitor_timeout := Some (zq 10);
     threshold := Fin 1;
     status := {| st_alarm := false; st_threshold := Fin 1; st_metric := None |};
     attrs := {| CCD.bias_samples := empty; CCD.rate_integral := empty;
                 CCD.last_rate := None; CCD.last_time := None;
                 CCD.max_delta_t := zq 3 |} |}.

(** A clock of constant rate 3 read at times 1, 2, 3 and 4. *)
Definition ccd_times : list Qc := [1; zq 2; zq 3; zq 4].


(** [CnoThresholdJammingMonitor('rx', threshold=20, time_window=5)] *)
Definition cnt_monitor : Cno.CnoThresholdJammingMonitor :=
  {| last_event_time := None;
     receiver_id := Some "rx"%string;
     monitor_timeout := None;
     threshold := Fin (zq 20);
     status := {| st_alarm := false; st_threshold := Fin (zq 20); st_metric := None |};
     attrs := {| Cno.cnt_time_window := zq 5; Cno.cnt_cnos := [] |} |}.

(** [CnoDropJammingMonitor('rx', threshold=-1, time_window=5)] *)
Definition cnd_monitor : Cno.CnoDropJammingMonitor :=
  {| last_event_time := None;
     receiver_id := Some "rx"%string;
     monitor_timeout := None;
     threshold := Fin (- (1));
     status := {| st_alarm := false; st_threshold := Fin (- (1)); st_metric := None |};
     attrs := {| Cno.cnd_time_window := zq 5; Cno.cnd_cnos := [];
                 Cno.cnd_drops := [] |} |}.

Definition sv_entry (gnss_id sv_id : Z) (c : Z) (quality : Z) : sv_data :=
  {| svid := Some sv_id; gnssId := Some gnss_id; cno := Some (zq c);
     qualityInd := Some quality |}.

(** An entry without its [cno]. *)
Definition sv_entry_no_cno : sv_data :=
  {| svid := Some 2%Z; gnssId := Some 0%Z; cno := None; qualityInd := Some 5%Z |}.

Definition svs_message (time : Z) (entries : list sv_data) : message :=
  {| rxTime := Some (zq time); validity := Some true;
     msg_receiver_id := Some "rx"%string;
     clock_rate := None; clock_bias := None; ecef_position := None;
     ecef_velocity := None; svs := Some entries |}.

(** One good entry and one of quality 3. *)
Definition low_quality_message : message :=
  svs_message 1 [sv_entry 0 1 30 5; sv_entry 0 2 30 3].

Definition missing_field_message : message :=
  svs_message 1 [sv_entry 0 1 30 5; sv_entry_no_cno].

(** Channels 0.1 and 0.2 at time 1; channel 0.2 alone at times 82 and 83. *)
Definition two_channels_message : message :=
  svs_message 1 [sv_entry 0 1 25 5; sv_entry 0 2 15 5].

Definition one_channel_message (time : Z) : message :=
  svs_message time [sv_entry 0 2 2 5].

(** [cnt_monitor] after [two_channels_message] and [one_channel_message 82]:
    channel 0.1 has aged out and holds [None]. *)
Definition cnt_monitor_aged : Cno.CnoThresholdJammingMonitor :=
  {| last_event_time := Some (zq 82);
     receiver_id := Some "rx"%string;
     monitor_timeout := None;
     threshold := Fin (zq 20);
     status := {| st_alarm := true; st_threshold := Fin (zq 20);
                  st_metric := Some (zq 2) |};
     attrs := {| Cno.cnt_time_window := zq 5;
                 Cno.cnt_cnos := [("0.1"%string, None);
                                  ("0.2"%string, Some (zq 82, zq 2))] |} |}.


(** [StubPosMonitor(receiver, time_window=15)] *)
Definition stub_monitor (receiver : string) : DualAntenna.StubPosMonitor :=
  {| last_event_time := None;
     receiver_id := Some receiver;
     monitor_timeout := None;
     threshold := PInf;
     status := {| st_alarm := DualAntenna.PyBool false; st_threshold := PInf;
                  st_metric := None |};
     attrs := {| DualAntenna.samples :=
                   {| trs_buffer := {| time_buffer := []; sample_buffer := [];
                                       tb_target_elapsed_time := Fin (zq 15);
                                       tb_keep_one := true |};
                      trs_sum := DualAntenna.vzero |} |} |}.

(** [DualAntennaDistanceMonitor('a', 'b', minimum_samples=n, threshold=2,
    time_range=15)] *)
Definition dual_monitor (minimum_samples : Z) : DualAntenna.DualAntennaDistanceMonitor :=
  {| last_event_time := None;
     receiver_id := Some "a"%string;
     monitor_timeout := None;
     threshold := Fin (zq 2);
     status := {| st_alarm := false; st_threshold := Fin (zq 2); st_metric := None |};
     attrs := {| DualAntenna.rx1 := stub_monitor "a";
                 DualAntenna.rx2 := stub_monitor "b";
                 DualAntenna.receivers := [("a"%string, DualAntenna.Rx1);
                                           ("b"%string, DualAntenna.Rx2)];
                 DualAntenna.min_samples := minimum_samples;
                 DualAntenna.last_update := Some NInf |} |}.

Definition position_message (time : Z) (receiver : string) (x y z : Z) : message :=
  {| rxTime := Some (zq time); validity := Some true;
     msg_receiver_id := Some receiver;
     clock_rate := None; clock_bias := None;
     ecef_position := Some (zq x, zq y, zq z);
     ecef_velocity := None; svs := None |}.

(** A stand-in for [math.sqrt] on the examples: the identity. *)
Definition sqrt_stub (x : Qc) : Qc := x.

(** [ClockRateMonitor('rx', monitor_timeout=10, threshold=1, min_delta_t=2,
    max_delta_t=3)] *)
Definition cr_monitor : ClockRate.ClockRateMonitor :=
  {| last_event_time := None;
     receiver_id := Some "rx"%string;
     monitor_timeout := Some (zq 10);
     threshold := Fin 1;
     status := {| st_alarm := false; st_threshold := Fin 1; st_metric := None |};
     attrs := {| ClockRate.cr_samples :=
                   {| time_buffer := []; sample_buffer := [];
                      tb_target_elapsed_time := Fin (zq 2);
                      tb_keep_one := true |};
                 ClockRate.cr_max_delta_t := zq 3 |} |}.

(** [ClockRateMonitor('rx', monitor_timeout=10, threshold=1, min_delta_t=0,
    max_delta_t=3)] *)
Definition cr_monitor_zero : ClockRate.ClockRateMonitor :=
  {| last_event_time := None;
     receiver_id := Some "rx"%string;
     monitor_timeout := Some (zq 10);
     threshold := Fin 1;
     status := {| st_alarm := false; st_threshold := Fin 1; st_metric := None |};
     attrs := {| ClockRate.cr_samples :=
                   {| time_buffer := []; sample_buffer := [];
                      tb_target_elapsed_time := Fin 0;
                      tb_keep_one := true |};
                 ClockRate.cr_max_delta_t := zq 3 |} |}.

(** A message of receiver [rx] that carries a clock rate. *)
Definition clock_rate_message (time : Z) (rate : Qc) : message :=
  with_clock_rate (basic_message (zq time) "rx"%string) rate.

(** [StationaryPositionMonitor('rx', monitor_timeout=60, min_detections=3,
    sample_window=4, rejection_threshold=3, spoofing_threshold=5,
    num_init_samples=4)] *)
Definition sp_monitor : StationaryPosition.StationaryPositionMonitor :=
  {| last_event_time := None;
     receiver_id := Some "rx"%string;
     monitor_timeout := Some (zq 60);
     threshold := Fin (zq 5);
     status := {| st_alarm := false; st_threshold := Fin (zq 5); st_metric := None |};
     attrs := {| min_detections := zq 3;
                 detections := fifo_init 4;
                 spoofing_flag := false;
                 sub_attrs := {| StationaryPosition.num_accepted := 0;
                                 StationaryPosition.average := None;
                                 StationaryPosition.num_init_samples := 4;
                                 StationaryPosition.rejection_threshold := zq 3 |} |} |}.

(** [CnoSpoofingMonitor('rx', channel_id='0.1', threshold=40)] *)
Definition cns_monitor : CnoSpoofing.CnoSpoofingMonitor :=
  {| last_event_time := None;
     receiver_id := Some "rx"%string;
     monitor_timeout := None;
     threshold := Fin (zq 40);
     status := {| st_alarm := false; st_threshold := Fin (zq 40); st_metric := None |};
     attrs := {| CnoSpoofing.cns_gnss_id := 0; CnoSpoofing.cns_sv_id := 1 |} |}.

(** The monitor classes of the package, [ccd_monitor] having been imported
    before [filtered_monitor]. *)
Definition monitor_classes : Config.pyclass :=
  Config.PyClass "Monitor"
    [Config.PyClass "CCDMonitor" [];
     Config.PyClass "FilteredMonitor"
       [Config.PyClass "StationaryVelocityMonitor" [];
        Config.PyClass "StationaryPositionMonitor" []];
     Config.PyClass "ClockRateMonitor" []].

End Examples.

Import Examples.

(** * Properties *)

Module NumFacts.

Lemma Qcltb_lt (x y : Qc) : Qcltb x y = true <-> x < y.
Proof.
  unfold Qcltb. rewrite Qclt_alt. destruct (x ?= y); split; congruence.
Qed.

Lemma Qcleb_le (x y : Qc) : Qcleb x y = true <-> x <= y.
Proof.
  unfold Qcleb. rewrite Qcle_alt. destruct (x ?= y); split; congruence.
Qed.

Lemma Qceqb_eq (x y : Qc) : Qceqb x y = true <-> x = y.
Proof.
  unfold Qceqb. rewrite Qceq_alt. destruct (x ?= y); split; congruence.
Qed.

Lemma Qcltb_ge (x y : Qc) : Qcltb x y = false <-> y <= x.
Proof.
  split; intro H.
  - apply Qcnot_lt_le. intro L. apply Qcltb_lt in L. congruence.
  - destruct (Qcltb x y) eqn:E; [|reflexivity].
    apply Qcltb_lt in E. exfalso. exact (Qcle_not_lt _ _ H E).
Qed.

Lemma Qcltb_irrefl (x : Qc) : Qcltb x x = false.
Proof. apply Qcltb_ge. apply Qcle_refl. Qed.

Lemma Qcabs_0 : Qcabs 0 = 0.
Proof. reflexivity. Qed.

Lemma Qcleb_gt (x y : Qc) : Qcleb x y = false <-> y < x.
Proof.
  split; intro H.
  - apply Qcnot_le_lt. intro L. apply Qcleb_le in L. congruence.
  - destruct (Qcleb x y) eqn:E; [|reflexivity].
    apply Qcleb_le in E. exfalso. exact (Qclt_not_le _ _ H E).
Qed.

Lemma zq_2 : zq 2 = 1 + 1.
Proof. apply Qc_is_canon. reflexivity. Qed.

Lemma xleb_Fin (x y : Qc) : xleb (Fin x) (Fin y) = true <-> x <= y.
Proof.
  unfold xleb; simpl. rewrite negb_true_iff. apply Qcltb_ge.
Qed.

Lemma xleb_Fin_false (x y : Qc) : xleb (Fin x) (Fin y) = false <-> y < x.
Proof.
  unfold xleb; simpl. rewrite negb_false_iff. apply Qcltb_lt.
Qed.

End NumFacts.

Import NumFacts.

(** Closes a goal between two computed values that hold rationals. *)
Ltac qc_compute :=
  vm_compute;
  repeat lazymatch goal with
         | |- @eq Qc _ _ => apply Qc_is_canon; reflexivity
         | |- _ => first [ reflexivity | f_equal ]
         end.

Module FIFOFacts.

Lemma lastn_all (A : Type) (n : nat) (l : list A) :
  (length l <= n)%nat -> lastn n l = l.
Proof.
  intro H. unfold lastn. replace (length l - n)%nat with O by lia. reflexivity.
Qed.

Lemma lastn_length (A : Type) (n : nat) (l : list A) :
  length (lastn n l) = Nat.min n (length l).
Proof. unfold lastn. rewrite length_skipn. lia. Qed.

Lemma lastn_min (A : Type) (n : nat) (l : list A) :
  lastn (Nat.min n (length l)) l = lastn n l.
Proof.
  unfold lastn. f_equal. lia.
Qed.

Lemma lastn_snoc (A : Type) (n : nat) (l : list A) (v : A) :
  lastn n (lastn n l ++ [v]) = lastn n (l ++ [v]).
Proof.
  unfold lastn at 1 3. rewrite !length_app, lastn_length. simpl.
  unfold lastn.
  destruct (Nat.le_gt_cases (length l) n) as [Hle | Hgt].
  - replace (length l - n)%nat with O by lia. simpl.
    f_equal. lia.
  - replace (Nat.min n (length l) + 1 - n)%nat with (Nat.min 1 (1 + (length l - n) - (length l - n)))%nat by lia.
    replace (Nat.min 1 (1 + (length l - n) - (length l - n)))%nat with (1 - 0)%nat by lia.
    replace (length l + 1 - n)%nat with ((1 - 0) + (length l - n))%nat by lia.
    rewrite <- skipn_skipn. f_equal.
    rewrite skipn_app. replace (length l - n - length l)%nat with O by lia.
    reflexivity.
Qed.

Lemma qsum_app (l1 l2 : list Qc) : qsum (l1 ++ l2) = qsum l1 + qsum l2.
Proof.
  induction l1 as [|x l1 IH]; simpl.
  - ring.
  - rewrite IH. ring.
Qed.


Lemma fifo_init_ok (n : nat) : fifo_ok (fifo_init n).
Proof. split; simpl; [reflexivity | lia]. Qed.

Lemma fifo_append_ok (f : FIFORunningSum) (v : Qc) :
  (0 < fifo_maxlen f)%nat -> fifo_ok f ->
  exists f', fifo_append f v = Ok f'
             /\ fifo_ok f'
             /\ fifo_maxlen f' = fifo_maxlen f
             /\ fifo_buffer f' = lastn (fifo_maxlen f) (fifo_buffer f ++ [v]).
Proof.
  intros Hpos [Hsum Hlen]. unfold fifo_append.
  destruct (Nat.eqb (length (fifo_buffer f)) (fifo_maxlen f)) eqn:E.
  - apply Nat.eqb_eq in E.
    destruct (fifo_buffer f) as [|x rest] eqn:Hb; simpl in E; [lia|].
    simpl. eexists. split; [reflexivity|]. simpl.
    assert (Hl : deque_append (fifo_maxlen f) (x :: rest) v = rest ++ [v]).
    { unfold deque_append, lastn. rewrite length_app.
      replace (length (x :: rest) + length [v] - fifo_maxlen f)%nat with 1%nat
        by (cbn [Datatypes.length]; lia).
      reflexivity. }
    split; [split | split]; simpl.
    + rewrite Hl, qsum_app, Hsum. simpl. ring.
    + rewrite Hl, length_app. simpl. lia.
    + reflexivity.
    + reflexivity.
  - apply Nat.eqb_neq in E. simpl. eexists. split; [reflexivity|]. simpl.
    assert (Hl : deque_append (fifo_maxlen f) (fifo_buffer f) v = fifo_buffer f ++ [v]).
    { unfold deque_append. apply lastn_all. rewrite length_app. simpl. lia. }
    split; [split | split]; simpl.
    + rewrite Hl, qsum_app, Hsum. simpl. ring.
    + rewrite Hl, length_app. simpl. lia.
    + reflexivity.
    + reflexivity.
Qed.

(** After appending [vals] to a queue that holds the last [n] of [pre], the
    sums read after each append are those of the last [n] values so far. *)
Lemma fifo_sums_from (n : nat) (vals pre : list Qc) (f : FIFORunningSum) :
  (0 < n)%nat -> fifo_maxlen f = n -> fifo_ok f -> fifo_buffer f = lastn n pre ->
  fifo_sums f vals
  = Ok (map (fun k => qsum (lastn n (pre ++ firstn k vals))) (seq 1 (length vals))).
Proof.
  intro Hn. revert pre f.
  induction vals as [|v vals IH]; intros pre f Hmax Hok Hbuf; simpl.
  - reflexivity.
  - destruct (fifo_append_ok v (f := f)) as (f' & Happ & Hok' & Hmax' & Hbuf');
      [lia | assumption |].
    rewrite Happ. simpl.
    rewrite Hmax, Hbuf, lastn_snoc in Hbuf'.
    rewrite (IH (pre ++ [v]) f'); [| congruence | assumption | assumption].
    simpl. f_equal. f_equal.
    + destruct Hok' as [Hs _]. rewrite Hs, Hbuf'. reflexivity.
    + rewrite <- (seq_shift (length vals) 1), map_map.
      apply map_ext. intro k. rewrite <- app_assoc. reflexivity.
Qed.

End FIFOFacts.

Module TimedBufferFacts.

Section Facts.

Variable A : Type.



Lemma count_stale_le (cutoff : xnum) (times : list Qc) :
  (count_stale cutoff times <= length times)%nat.
Proof.
  induction times as [|t times IH]; simpl; [lia|].
  destruct (xleb cutoff (Fin t)); simpl; lia.
Qed.

Lemma stale_mono (cutoff : xnum) (t t' : Qc) :
  t <= t' -> stale cutoff t = false -> stale cutoff t' = false.
Proof.
  unfold stale. destruct cutoff as [| c |]; simpl; intros Hle H; try congruence.
  apply Qcltb_ge. apply Qcltb_ge in H. eapply Qcle_trans; eassumption.
Qed.

(** On times in arrival order the loop counts every stale entry. *)
Lemma count_stale_sorted (cutoff : xnum) (times : list Qc) :
  StronglySorted Qcle times ->
  count_stale cutoff times = length (filter (stale cutoff) times).
Proof.
  induction 1 as [|t times Hs IH Hall]; simpl; [reflexivity|].
  unfold xleb. fold (stale cutoff t).
  destruct (stale cutoff t) eqn:E; simpl.
  - rewrite IH. reflexivity.
  - clear IH Hs. induction times as [|t' times IH]; simpl; [reflexivity|].
    inversion Hall as [|? ? Hle Hrest]; subst.
    rewrite (stale_mono cutoff Hle E). apply IH. assumption.
Qed.

Lemma last_snoc (l : list Qc) (t : Qc) :
  match l ++ [t] with
  | [] => 0
  | t0 :: rest => last rest t0
  end = t.
Proof.
  destruct l as [|x l]; simpl; [reflexivity|].
  apply last_last.
Qed.

Lemma newest_time_push (b : TimedBuffer A) (t : Qc) (s : A) :
  newest_time (tb_push b t s) = t.
Proof. unfold newest_time, tb_push; simpl. apply last_snoc. Qed.

Lemma num_to_pop_snoc (keep : bool) (target : xnum) (l : list Qc) (t : Qc) :
  num_to_pop keep target (l ++ [t])
  = (Z.of_nat (count_stale (xsub t target) (l ++ [t]))
     - (if keep then 1 else 0))%Z.
Proof.
  unfold num_to_pop.
  pose proof (last_snoc l t) as H.
  destruct (l ++ [t]) as [|t0 rest] eqn:E.
  - destruct l; discriminate.
  - rewrite H. reflexivity.
Qed.


Lemma tb_drop_0 (b : TimedBuffer A) : tb_drop 0 b = b.
Proof. destruct b; reflexivity. Qed.

Lemma pop_times_tb (n : nat) (b : TimedBuffer A) :
  tb_wf b -> (n <= length (time_buffer b))%nat ->
  pop_times (@tb_popleft A) n b = Ok (tb_drop n b).
Proof.
  revert b. induction n as [|n IH]; intros b Hwf Hn; simpl.
  - rewrite tb_drop_0. reflexivity.
  - unfold tb_popleft. unfold tb_wf in Hwf.
    destruct (time_buffer b) as [|t ts] eqn:Et; simpl in Hn; [lia|].
    destruct (sample_buffer b) as [|s ss] eqn:Es; simpl in Hwf; [lia|].
    simpl. rewrite IH.
    + unfold tb_drop; simpl. rewrite Et, Es. reflexivity.
    + unfold tb_wf; simpl. lia.
    + simpl. lia.
Qed.

(** What [remove_old_samples] leaves, whatever its argument. *)
Lemma tb_remove_old_samples_spec (keep : bool) (b : TimedBuffer A) :
  tb_wf b ->
  tb_remove_old_samples keep b
  = Ok (tb_drop (Z.to_nat (num_to_pop keep (tb_target_elapsed_time b) (time_buffer b))) b).
Proof.
  intro Hwf. unfold tb_remove_old_samples, remove_old_samples_with.
  destruct (time_buffer b) as [|t ts] eqn:Et.
  - simpl. rewrite tb_drop_0. reflexivity.
  - rewrite <- Et. apply pop_times_tb; [assumption|].
    rewrite Et. unfold num_to_pop.
    pose proof (count_stale_le (xsub (last ts t) (tb_target_elapsed_time b)) (t :: ts)).
    destruct keep; lia.
Qed.

Lemma tb_push_wf (b : TimedBuffer A) (t : Qc) (s : A) :
  tb_wf b -> tb_wf (tb_push b t s).
Proof.
  unfold tb_wf, tb_push; simpl. intro H. rewrite !length_app, H. reflexivity.
Qed.

Lemma tb_drop_wf (n : nat) (b : TimedBuffer A) : tb_wf b -> tb_wf (tb_drop n b).
Proof.
  unfold tb_wf, tb_drop; simpl. intro H. rewrite !length_skipn, H. reflexivity.
Qed.


Lemma tb_append_spec (b : TimedBuffer A) (time : Qc) (sample : A) :
  tb_wf b ->
  tb_append b time sample
  = if Qcltb time (newest_time b) then Raise ValueError
    else Ok (tb_drop (popped_by_append b time) (tb_push b time sample)).
Proof.
  intro Hwf. unfold tb_append.
  destruct (Qcltb time (newest_time b)); [reflexivity|].
  rewrite tb_remove_old_samples_spec by (apply tb_push_wf; assumption).
  f_equal. f_equal. unfold popped_by_append.
  change (time_buffer (tb_push b time sample)) with (time_buffer b ++ [time]).
  change (tb_target_elapsed_time (tb_push b time sample))
    with (tb_target_elapsed_time b).
  rewrite num_to_pop_snoc. lia.
Qed.

End Facts.

End TimedBufferFacts.

Import TimedBufferFacts.

Module TimedBufferProps.

Lemma count_stale_prefix (cutoff : xnum) (times : list Qc) (k : nat) (t : Qc) :
  (k < count_stale cutoff times)%nat -> nth_error times k = Some t ->
  stale cutoff t = true.
Proof.
  revert k. induction times as [|t0 times IH]; intros k Hk Hn; simpl in Hk; [lia|].
  unfold xleb in Hk. fold (stale cutoff t0) in Hk.
  destruct (stale cutoff t0) eqn:E; simpl in Hk; [|lia].
  destruct k as [|k]; simpl in Hn.
  - congruence.
  - apply (IH k); [lia | assumption].
Qed.

Lemma hd_skipn (X : Type) (k : nat) (l : list X) :
  hd_error (skipn k l) = nth_error l k.
Proof.
  revert l. induction k as [|k IH]; intros [|x l]; simpl; try reflexivity.
  apply IH.
Qed.

Lemma last_default_irrel (X : Type) (l : list X) (x z : X) :
  l <> [] -> last l x = last l z.
Proof.
  induction l as [|a l IH]; intro H; [congruence|].
  destruct l as [|b l]; [reflexivity|].
  change (last (b :: l) x = last (b :: l) z). apply IH. discriminate.
Qed.

Lemma sorted_le_last (x : Qc) (l : list Qc) (y : Qc) :
  StronglySorted Qcle (x :: l) -> In y (x :: l) -> y <= last l x.
Proof.
  revert x y. induction l as [|z l IH]; intros x y Hs Hin.
  - simpl in *. destruct Hin as [<- | []]. apply Qcle_refl.
  - inversion Hs as [|? ? Hs' Hall]; subst.
    assert (Hlast : last (z :: l) x = last l z).
    { destruct l as [|w l']; [reflexivity|].
      change (last (w :: l') x = last (w :: l') z).
      apply last_default_irrel. discriminate. }
    rewrite Hlast.
    destruct Hin as [<- | Hin].
    + inversion Hall as [|? ? Hxz _]; subst.
      eapply Qcle_trans; [exact Hxz|]. exact (IH z z Hs' (or_introl eq_refl)).
    + exact (IH z y Hs' Hin).
Qed.

Lemma sorted_snoc (l : list Qc) (t : Qc) :
  StronglySorted Qcle l -> (forall x, In x l -> x <= t) ->
  StronglySorted Qcle (l ++ [t]).
Proof.
  induction 1 as [|x l Hs IH Hall]; intro Hle; simpl.
  - constructor; constructor.
  - constructor.
    + apply IH. intros y Hy. apply Hle. right. assumption.
    + apply Forall_app. split; [assumption|].
      constructor; [|constructor]. apply Hle. left. reflexivity.
Qed.

Lemma sorted_push (A : Type) (b : TimedBuffer A) (time : Qc) :
  StronglySorted Qcle (time_buffer b) -> newest_time b <= time ->
  StronglySorted Qcle (time_buffer b ++ [time]).
Proof.
  intros Hs Hle. apply sorted_snoc; [assumption|].
  intros x Hx. unfold newest_time in Hle.
  destruct (time_buffer b) as [|t0 rest]; [destruct Hx|].
  eapply Qcle_trans; [|exact Hle]. apply sorted_le_last; assumption.
Qed.

(** C9: [append(time, sample)] raises the ordering error ([ValueError])
    exactly when [time] is strictly below the buffer's [newest_time]; in every
    other case it returns, and in particular it returns when [time] equals
    [newest_time]. *)
Theorem tb_append_ordering_error (A : Type) (b : TimedBuffer A) (time : Qc) (sample : A) :
  tb_wf b ->
  (tb_append b time sample = Raise ValueError <-> time < newest_time b)
  /\ (~ time < newest_time b -> exists b', tb_append b time sample = Ok b')
  /\ (exists b', tb_append b (newest_time b) sample = Ok b').
Proof.
  intro Hwf. repeat split.
  - rewrite tb_append_spec by assumption.
    destruct (Qcltb time (newest_time b)) eqn:E; [|discriminate].
    intros _. apply Qcltb_lt. assumption.
  - intro H. apply Qcltb_lt in H. rewrite tb_append_spec, H by assumption.
    reflexivity.
  - intro H. rewrite tb_append_spec by assumption.
    destruct (Qcltb time (newest_time b)) eqn:E.
    + apply Qcltb_lt in E. contradiction.
    + eexists. reflexivity.
  - rewrite tb_append_spec, Qcltb_irrefl by assumption. eexists. reflexivity.
Qed.


Lemma tb_append_ordering_error_witness :
  tb_wf one_sample_buffer
  /\ (tb_append one_sample_buffer 0 0 = Raise ValueError
      <-> 0 < newest_time one_sample_buffer)
  /\ (~ 0 < newest_time one_sample_buffer ->
      exists b', tb_append one_sample_buffer 0 0 = Ok b')
  /\ (exists b', tb_append one_sample_buffer (newest_time one_sample_buffer) 0 = Ok b').
Proof.
  split; [reflexivity|].
  apply (@tb_append_ordering_error Qc one_sample_buffer 0 0). reflexivity.
Defined.

(** C1: whatever [keep_one_sample_before] was at construction, an [append]
    that returns keeps every entry from the newest stale one on: with [n]
    entries strictly below [newest_time - target_elapsed_time] it drops the
    oldest [n - 1] of them, so one stale sample stays whenever one exists.
    The flag is stored and never read; for [False] the oldest retained entry
    is therefore a stale one, which the claim says is evicted. *)
Theorem tb_append_keeps_one_stale (A : Type) (b b' : TimedBuffer A) (time : Qc) (sample : A) :
  tb_wf b -> StronglySorted Qcle (time_buffer b) ->
  tb_append b time sample = Ok b' ->
  let cutoff := xsub time (tb_target_elapsed_time b) in
  let times := time_buffer b ++ [time] in
  let n := length (filter (stale cutoff) times) in
  time_buffer b' = skipn (Nat.pred n) times
  /\ sample_buffer b' = skipn (Nat.pred n) (sample_buffer b ++ [sample])
  /\ ((1 <= n)%nat ->
      exists t0, hd_error (time_buffer b') = Some t0 /\ stale cutoff t0 = true).
Proof.
  intros Hwf Hs Happ cutoff times n.
  rewrite tb_append_spec in Happ by assumption.
  destruct (Qcltb time (newest_time b)) eqn:E; [discriminate|].
  apply Qcltb_ge in E.
  assert (Hn : popped_by_append b time = Nat.pred n).
  { unfold popped_by_append, n, times, cutoff.
    rewrite count_stale_sorted by (apply sorted_push; assumption). reflexivity. }
  rewrite Hn in Happ. injection Happ as <-. simpl.
  split; [reflexivity | split; [reflexivity|]].
  intro Hpos. rewrite hd_skipn.
  assert (Hlt : (Nat.pred n < length times)%nat).
  { pose proof (filter_length_le (stale cutoff) times). fold n in H. lia. }
  destruct (nth_error (time_buffer b ++ [time]) (Nat.pred n)) as [t0|] eqn:Et.
  - exists t0. split; [reflexivity|].
    apply (@count_stale_prefix cutoff times (Nat.pred n)); [|exact Et].
    unfold times. rewrite count_stale_sorted by (apply sorted_push; assumption).
    fold times. fold n. lia.
  - apply nth_error_None in Et. fold times in Et. lia.
Qed.



Lemma strict_buffer_built :
  (b0 <- tb_init Qc (Fin 1) false ;; tb_append b0 0 (zq 10)) = Ok strict_buffer.
Proof. reflexivity. Qed.

Lemma strict_buffer_append : tb_append strict_buffer (zq 5) (zq 20) = Ok strict_buffer_after.
Proof. reflexivity. Qed.

Lemma tb_append_keeps_one_stale_witness :
  tb_wf strict_buffer
  /\ StronglySorted Qcle (time_buffer strict_buffer)
  /\ tb_append strict_buffer (zq 5) (zq 20) = Ok strict_buffer_after
  /\ time_buffer strict_buffer_after = [0; zq 5]
  /\ exists t0, hd_error (time_buffer strict_buffer_after) = Some t0
                /\ stale (Fin (zq 4)) t0 = true.
Proof.
  assert (Hs : StronglySorted Qcle (time_buffer strict_buffer)).
  { repeat constructor. }
  pose proof (@tb_append_keeps_one_stale Qc strict_buffer strict_buffer_after
                (zq 5) (zq 20) eq_refl Hs strict_buffer_append) as H.
  split; [reflexivity|]. split; [exact Hs|]. split; [exact strict_buffer_append|].
  split; [reflexivity|].
  destruct H as (_ & _ & H). apply H. vm_compute. lia.
Defined.

End TimedBufferProps.

Module RunningSumFacts.


#[export] Instance Qc_SampleLaws : SampleLaws Qc.
Proof.
  split; intros; simpl; ring.
Qed.

Section Facts.

Context {A : Type} {ops : SampleOps A} {laws : SampleLaws A}.

Lemma fold_add_shift (l : list A) (z x : A) :
  fold_left s_add l (s_add z x) = s_add (fold_left s_add l z) x.
Proof.
  revert z. induction l as [|y l IH]; intro z; simpl; [reflexivity|].
  rewrite <- IH. f_equal.
  rewrite !s_add_assoc. f_equal. apply s_add_comm.
Qed.

Lemma total_cons (x : A) (l : list A) : total (x :: l) = s_add (total l) x.
Proof. unfold total; simpl. apply fold_add_shift. Qed.

Lemma total_snoc (l : list A) (x : A) : total (l ++ [x]) = s_add (total l) x.
Proof. unfold total. rewrite fold_left_app. reflexivity. Qed.

(** Subtracting the first [n] samples one at a time leaves the sum of the
    rest. *)
Lemma sub_firstn_total (n : nat) (l : list A) :
  fold_left s_sub (firstn n l) (total l) = total (skipn n l).
Proof.
  revert l. induction n as [|n IH]; intros [|x l]; simpl; try reflexivity.
  rewrite total_cons, s_sub_add. apply IH.
Qed.


Lemma pop_times_trs (n : nat) (b : TimedRunningSum A) :
  tb_wf (trs_buffer b) -> (n <= length (time_buffer (trs_buffer b)))%nat ->
  pop_times trs_popleft n b
  = Ok {| trs_buffer := tb_drop n (trs_buffer b);
          trs_sum := fold_left s_sub (firstn n (sample_buffer (trs_buffer b)))
                               (trs_sum b) |}.
Proof.
  revert b. induction n as [|n IH]; intros [buf sum] Hwf Hn; simpl in *.
  - rewrite tb_drop_0. reflexivity.
  - unfold trs_popleft, oldest_sample, tb_popleft; simpl.
    unfold tb_wf in Hwf.
    destruct (time_buffer buf) as [|t ts] eqn:Et; simpl in Hn; [lia|].
    destruct (sample_buffer buf) as [|s ss] eqn:Es; simpl in Hwf; [lia|].
    simpl. rewrite IH; simpl.
    + unfold tb_drop; simpl. rewrite Et, Es. reflexivity.
    + unfold tb_wf; simpl. lia.
    + lia.
Qed.

Lemma trs_remove_old_samples_spec (keep : bool) (b : TimedRunningSum A) :
  tb_wf (trs_buffer b) ->
  let n := Z.to_nat (num_to_pop keep (trs_target b) (trs_times b)) in
  trs_remove_old_samples keep b
  = Ok {| trs_buffer := tb_drop n (trs_buffer b);
          trs_sum := fold_left s_sub (firstn n (sample_buffer (trs_buffer b)))
                               (trs_sum b) |}.
Proof.
  intros Hwf n. unfold trs_remove_old_samples, remove_old_samples_with.
  destruct (trs_times b) as [|t ts] eqn:Et.
  - subst n. simpl. rewrite tb_drop_0. destruct b; reflexivity.
  - subst n. apply pop_times_trs; [assumption|].
    unfold trs_times in Et. rewrite Et. unfold num_to_pop.
    pose proof (count_stale_le (xsub (last ts t) (trs_target b)) (t :: ts)).
    destruct keep; lia.
Qed.

Lemma trs_popleft_ok (b b' : TimedRunningSum A) :
  trs_ok b -> trs_popleft b = Ok b' -> trs_ok b'.
Proof.
  intros [Hwf Hsum]. unfold trs_popleft, oldest_sample, tb_popleft.
  unfold tb_wf in Hwf.
  destruct (time_buffer (trs_buffer b)) as [|t ts] eqn:Et; [discriminate|].
  destruct (sample_buffer (trs_buffer b)) as [|s ss] eqn:Es; [discriminate|].
  simpl. intro H. injection H as <-. split; simpl.
  - unfold tb_wf; simpl. simpl in Hwf. lia.
  - rewrite Hsum, total_cons. apply s_sub_add.
Qed.

Lemma trs_set_target_ok (b b' : TimedRunningSum A) (val : xnum) :
  trs_ok b -> trs_set_target_elapsed_time b val = Ok b' -> trs_ok b'.
Proof.
  intros [Hwf Hsum]. unfold trs_set_target_elapsed_time.
  destruct (xltb val (Fin 0)); [discriminate|].
  rewrite trs_remove_old_samples_spec by exact Hwf.
  intro H. injection H as <-. split; simpl.
  - apply (tb_drop_wf _ (b := tb_with_target (trs_buffer b) val)). exact Hwf.
  - rewrite Hsum. apply sub_firstn_total.
Qed.

(** What [append] returns and that it keeps the sum exact. *)
Lemma trs_append_spec (b : TimedRunningSum A) (time : Qc) (sample : A) :
  trs_ok b ->
  if Qcltb time (trs_newest_time b)
  then trs_append b time sample = Raise ValueError
  else exists b', trs_append b time sample = Ok b'
                  /\ trs_ok b'
                  /\ trs_buffer b'
                     = tb_drop (popped_by_append (trs_buffer b) time)
                               (tb_push (trs_buffer b) time sample).
Proof.
  intros [Hwf Hsum]. unfold trs_append, trs_newest_time.
  destruct (Qcltb time (newest_time (trs_buffer b))); [reflexivity|].
  rewrite trs_remove_old_samples_spec by (apply tb_push_wf; exact Hwf).
  simpl. eexists. split; [reflexivity|].
  assert (Hn : Z.to_nat (num_to_pop true (tb_target_elapsed_time (trs_buffer b))
                           (time_buffer (trs_buffer b) ++ [time]))
               = popped_by_append (trs_buffer b) time).
  { rewrite num_to_pop_snoc. unfold popped_by_append. lia. }
  unfold trs_target, trs_times; simpl. rewrite Hn.
  assert (Hle : (popped_by_append (trs_buffer b) time
                 <= length (sample_buffer (trs_buffer b)))%nat).
  { unfold popped_by_append.
    pose proof (count_stale_le (xsub time (tb_target_elapsed_time (trs_buffer b)))
                  (time_buffer (trs_buffer b) ++ [time])) as H.
    rewrite length_app in H. simpl in H. unfold tb_wf in Hwf. lia. }
  split; [split|]; simpl.
  - apply (tb_drop_wf _ (b := tb_push (trs_buffer b) time sample)).
    apply tb_push_wf. exact Hwf.
  - rewrite firstn_app.
    replace (popped_by_append (trs_buffer b) time
             - length (sample_buffer (trs_buffer b)))%nat with O by lia.
    simpl. rewrite app_nil_r, Hsum, sub_firstn_total.
    rewrite skipn_app.
    replace (popped_by_append (trs_buffer b) time
             - length (sample_buffer (trs_buffer b)))%nat with O by lia.
    simpl. rewrite total_snoc. reflexivity.
  - reflexivity.
Qed.

Lemma trs_append_ok (b b' : TimedRunningSum A) (time : Qc) (sample : A) :
  trs_ok b -> trs_append b time sample = Ok b' -> trs_ok b'.
Proof.
  intros Hok H. pose proof (trs_append_spec time sample Hok) as S.
  destruct (Qcltb time (trs_newest_time b)); [congruence|].
  destruct S as (b1 & H1 & Hok1 & _). congruence.
Qed.

Lemma trs_reset_ok (b : TimedRunningSum A) : trs_ok (trs_reset b).
Proof. split; reflexivity. Qed.

Lemma trs_init_ok (target : xnum) (b : TimedRunningSum A) :
  trs_init target = Ok b -> trs_ok b.
Proof.
  unfold trs_init, tb_init. destruct (xltb target (Fin 0)); [discriminate|].
  simpl. intro H. injection H as <-. split; reflexivity.
Qed.

End Facts.

Lemma total_qsum (l : list Qc) : total l = qsum l.
Proof.
  induction l as [|x l IH]; [reflexivity|].
  rewrite total_cons, IH. simpl. ring.
Qed.

Lemma trs_step_ok (b : TimedRunningSum Qc) (op : trs_op) :
  trs_ok b -> trs_ok (trs_step b op).
Proof.
  intro Hok. unfold trs_step.
  destruct (trs_apply b op) as [b'|e] eqn:E; [|assumption].
  destruct op; simpl in E.
  - eapply trs_append_ok; eassumption.
  - eapply trs_popleft_ok; eassumption.
  - eapply trs_set_target_ok; eassumption.
  - injection E as <-. apply trs_reset_ok.
Qed.


(** Capacity 3, appending 1 to 6: the sums are 1, 3, 6, 9, 12, 15. *)
Lemma fifo_sums_example :
  fifo_sums (fifo_init 3) (map zq [1; 2; 3; 4; 5; 6]%Z)
  = Ok (map zq [1; 3; 6; 9; 12; 15]%Z).
Proof. qc_compute. Qed.



End RunningSumFacts.

Module MonitorProps.

(** When [base_verify_message] says no. *)
Lemma base_verify_message_false (M B S : Type) (m : Monitor M B S) (msg : message) :
  base_verify_message m msg = false
  <-> (rxTime msg = None \/ validity msg = None \/ msg_receiver_id msg = None
       \/ validity msg = Some false
       \/ (exists r, msg_receiver_id msg = Some r
                     /\ receiver_id_eqb (Some r) (receiver_id m) = false)
       \/ (exists t last, rxTime msg = Some t /\ last_event_time m = Some last
                          /\ t < last)).
Proof.
  unfold base_verify_message.
  destruct (rxTime msg) as [t|]; [|tauto].
  destruct (validity msg) as [v|]; [|tauto].
  destruct (msg_receiver_id msg) as [r|]; [|tauto].
  destruct v; cbn [negb].
  - destruct (receiver_id_eqb (Some r) (receiver_id m)) eqn:Er; cbn [negb].
    + destruct (last_event_time m) as [last|].
      * destruct (Qcltb t last) eqn:El.
        -- split; [|reflexivity]. intros _.
           do 5 right. exists t, last. apply Qcltb_lt in El. auto.
        -- split; [discriminate|].
           intros [H|[H|[H|[H|[H|H]]]]]; try discriminate.
           ++ destruct H as (r' & Hr & Hne). congruence.
           ++ destruct H as (t' & l' & Ht & Hl & Hlt).
              injection Ht as <-. injection Hl as <-.
              apply Qcltb_lt in Hlt. congruence.
      * split; [discriminate|].
        intros [H|[H|[H|[H|[H|H]]]]]; try discriminate.
        -- destruct H as (r' & Hr & Hne). congruence.
        -- destruct H as (t' & l' & _ & Hl & _). discriminate.
    + split; [|reflexivity]. intros _. do 4 right. left. exists r. auto.
  - split; [|reflexivity]. intros _. do 3 right. left. reflexivity.
Qed.

(** C2: a message that [verify_message] rejects makes [update] return
    [None] without raising and leaves the whole monitor as it was: the last
    event time, the status and every attribute of the subclass.  This holds
    for [Monitor.update] under any overriding of the hooks and for
    [FilteredMonitor.update]; the base [verify_message] rejects exactly the
    messages with a missing [rxTime], [validity] or [receiver_id], a false
    [validity], another receiver id, or an [rxTime] strictly below the last
    accepted event time. *)
Theorem update_rejected_message_is_noop :
  (forall (M B S : Type) (cls : MonitorClass M B S) (m : Monitor M B S) (msg : message),
      verify_message cls m msg = false -> update cls m msg = Ok (None, m))
  /\ (forall (S : Type) (cls : MonitorClass Qc bool (FilteredAttrs S))
             (m : FilteredMonitor S) (msg : message),
         verify_message cls m msg = false -> filtered_update cls m msg = Ok (None, m))
  /\ (forall (M B S : Type) (m : Monitor M B S) (msg : message),
         (rxTime msg = None \/ validity msg = None \/ msg_receiver_id msg = None
          \/ validity msg = Some false
          \/ (exists r, msg_receiver_id msg = Some r
                        /\ receiver_id_eqb (Some r) (receiver_id m) = false)
          \/ (exists t last, rxTime msg = Some t /\ last_event_time m = Some last
                             /\ t < last))
         -> base_verify_message m msg = false).
Proof.
  split; [|split].
  - intros M B S cls m msg H. unfold update. rewrite H. reflexivity.
  - intros S cls m msg H. unfold filtered_update, update. rewrite H. reflexivity.
  - intros M B S m msg H. apply base_verify_message_false. exact H.
Qed.

End MonitorProps.

Module MonitorWitness.

Lemma sv_monitor_built :
  StationaryVelocity.sv_init "rx"%string (Some (zq 10)) 1 3 1 = Ok sv_monitor.
Proof. reflexivity. Qed.

Lemma update_rejected_message_is_noop_witness :
  verify_message StationaryVelocity.sv_class sv_monitor invalid_message = false
  /\ update StationaryVelocity.sv_class sv_monitor invalid_message
     = Ok (None, sv_monitor)
  /\ filtered_update StationaryVelocity.sv_class sv_monitor invalid_message
     = Ok (None, sv_monitor)
  /\ base_verify_message sv_monitor invalid_message = false.
Proof.
  destruct MonitorProps.update_rejected_message_is_noop as (H1 & H2 & H3).
  split; [reflexivity|]. split; [|split].
  - apply H1. reflexivity.
  - apply H2. reflexivity.
  - apply H3. do 3 right. left. reflexivity.
Defined.

End MonitorWitness.

Module FilteredProps.

Import FIFOFacts.

Lemma lastn_map (X Y : Type) (f : X -> Y) (n : nat) (l : list X) :
  lastn n (map f l) = map f (lastn n l).
Proof. unfold lastn. rewrite length_map. apply skipn_map. Qed.

Lemma zq_add (a b : Z) : zq (a + b) = zq a + zq b.
Proof.
  apply Qc_is_canon. unfold zq, Qcplus, Q2Qc. cbn [this].
  rewrite !Qred_correct. rewrite inject_Z_plus. reflexivity.
Qed.

Lemma zq_succ (n : nat) : zq (Z.of_nat (Datatypes.S n)) = 1 + zq (Z.of_nat n).
Proof.
  rewrite Nat2Z.inj_succ. unfold Z.succ. rewrite zq_add.
  rewrite Qcplus_comm. f_equal.
Qed.

Lemma qsum_flags (flags : list bool) :
  qsum (map int_of_bool flags) = zq (Z.of_nat (count_flagged flags)).
Proof.
  induction flags as [|b flags IH]; [apply Qc_is_canon; reflexivity|].
  unfold count_flagged in *.
  change (qsum (map int_of_bool (b :: flags)))
    with (int_of_bool b + qsum (map int_of_bool flags)).
  rewrite IH. destruct b; cbn [filter Datatypes.length int_of_bool].
  - rewrite zq_succ. reflexivity.
  - ring.
Qed.

Lemma window_holds_init (n : nat) : window_holds (fifo_init n) [].
Proof. split; reflexivity. Qed.

Lemma window_holds_reset (S : Type) (m : FilteredMonitor S) :
  window_holds (detections (attrs (filtered_reset m))) [].
Proof. split; reflexivity. Qed.

Lemma window_holds_ok (d : FIFORunningSum) (flags : list bool) :
  window_holds d flags -> fifo_ok d.
Proof.
  intros [Hb Hs]. split; [assumption|].
  rewrite Hb, lastn_length. lia.
Qed.


Lemma sv_first_update :
  StationaryVelocity.sv_update sv_monitor fast_message = Ok (Some true, sv_monitor_flagged)
  /\ update StationaryVelocity.sv_class sv_monitor fast_message
     = Ok (Some true,
           with_detections (with_alarm sv_monitor_flagged true) (fifo_init 3) false).
Proof. split; qc_compute. Qed.



End FilteredProps.

Module CCDProps.

Import CCD RunningSumFacts.

Lemma rate_term_consistent (r d : Qc) : (r + r) / zq 2 * d = r * d.
Proof.
  rewrite zq_2. field. intro H. discriminate H.
Qed.

Lemma Qcabs_diag (x : Qc) : Qcabs (x - x) = 0.
Proof.
  replace (x - x) with 0 by ring. reflexivity.
Qed.

Lemma skipn_snoc (X : Type) (k : nat) (l : list X) (x : X) :
  (k <= length l)%nat -> skipn k (l ++ [x]) = skipn k l ++ [x].
Proof.
  intro H. rewrite skipn_app. replace (k - length l)%nat with O by lia. reflexivity.
Qed.

Lemma newest_time_drop_push (A : Type) (b : TimedBuffer A) (k : nat) (t : Qc) (s : A) :
  (k <= length (time_buffer b))%nat ->
  newest_time (tb_drop k (tb_push b t s)) = t.
Proof.
  intro H. unfold newest_time, tb_drop, tb_push; simpl.
  rewrite skipn_snoc by assumption. apply TimedBufferFacts.last_snoc.
Qed.

Lemma popped_by_append_le (A : Type) (b : TimedBuffer A) (t : Qc) :
  (popped_by_append b t <= length (time_buffer b))%nat.
Proof.
  unfold popped_by_append.
  pose proof (TimedBufferFacts.count_stale_le
                (xsub t (tb_target_elapsed_time b)) (time_buffer b ++ [t])) as H.
  rewrite length_app in H. simpl in H. lia.
Qed.

(** A positive elapsed time needs two entries. *)
Lemma elapsed_exceeds (A : Type) (b : TimedBuffer A) (max_dt : Qc) :
  0 <= max_dt -> Qcltb max_dt (elapsed_time b) = true ->
  exists t0 t1 rest, time_buffer b = t0 :: t1 :: rest.
Proof.
  intros Hmax H. unfold elapsed_time in H.
  destruct (time_buffer b) as [|t0 [|t1 rest]].
  - apply Qcltb_lt in H. exfalso. exact (Qcle_not_lt _ _ Hmax H).
  - apply Qcltb_lt in H. exfalso. exact (Qcle_not_lt _ _ Hmax H).
  - eauto.
Qed.

Lemma last_shift (X : Type) (x z : X) (l : list X) : last (z :: l) x = last l z.
Proof.
  destruct l as [|w l]; [reflexivity|].
  change (last (w :: l) x = last (w :: l) z).
  apply TimedBufferProps.last_default_irrel. discriminate.
Qed.

(** Two equal buffers stay equal through the lock-step loop, which ends
    without raising and keeps the newest entry. *)
Lemma trim_same (fuel : nat) (max_dt : Qc) (b : TimedRunningSum Qc) :
  trs_ok b -> 0 <= max_dt -> (trs_len b < fuel)%nat ->
  exists b', trim fuel max_dt b b = Ok (b', b')
             /\ trs_ok b'
             /\ trs_newest_time b' = trs_newest_time b
             /\ trs_target b' = trs_target b
             /\ ((1 <= trs_len b)%nat -> (1 <= trs_len b')%nat).
Proof.
  revert b. induction fuel as [|fuel IH]; intros b Hok Hmax Hlen; [lia|].
  cbn [trim].
  destruct (Qcltb max_dt (trs_elapsed_time b)) eqn:E.
  - destruct (elapsed_exceeds _ Hmax E) as (t0 & t1 & rest & Ht).
    destruct (trs_popleft b) as [b1|e] eqn:Ep.
    + pose proof (trs_popleft_ok Hok Ep) as Hok1.
      assert (Hb1 : trs_times b1 = t1 :: rest /\ trs_target b1 = trs_target b).
      { unfold trs_popleft, oldest_sample, tb_popleft in Ep. rewrite Ht in Ep.
        destruct (sample_buffer (trs_buffer b)) as [|s ss]; [discriminate|].
        simpl in Ep. injection Ep as <-. split; reflexivity. }
      destruct Hb1 as [Ht1 Htg1].
      cbn [bind]. destruct (IH b1 Hok1 Hmax) as (b' & Htrim & Hok' & Hnew & Htg & Hpos).
      { unfold trs_len, tb_len in *. unfold trs_times in Ht1.
        rewrite Ht in Hlen. rewrite Ht1. simpl in *. lia. }
      exists b'. split; [exact Htrim|]. split; [exact Hok'|].
      split; [|split].
      * rewrite Hnew. unfold trs_newest_time, newest_time.
        unfold trs_times in Ht1. rewrite Ht1, Ht. symmetry. apply last_shift.
      * congruence.
      * intros _. apply Hpos. unfold trs_len, tb_len.
        unfold trs_times in Ht1. rewrite Ht1. simpl. lia.
    + exfalso. unfold trs_popleft, oldest_sample, tb_popleft in Ep.
      rewrite Ht in Ep. destruct Hok as [Hwf _]. unfold tb_wf in Hwf.
      rewrite Ht in Hwf.
      destruct (sample_buffer (trs_buffer b)); simpl in *; [lia | discriminate].
  - exists b. repeat split; auto. apply Hok. apply Hok.
Qed.

(** One message of the consistent clock through [_calculate_metric]: it
    seeds the monitor, or both buffers receive the same entry.  The only way
    to raise is the ordering error of [append], on a negative time. *)
Lemma ccd_calc_step (receiver : string) (r prev t : Qc) (m : CCDMonitor) :
  ccd_attrs_inv r prev (attrs m) -> prev <= t ->
  (ccd_calculate_metric m (clock_message receiver r prev t) = Raise ValueError
   /\ t < 0)
  \/ exists out a',
      ccd_calculate_metric m (clock_message receiver r prev t)
      = Ok (out, with_attrs m a')
      /\ ccd_attrs_inv r t a'
      /\ (out = None \/ out = Some 0)
      /\ (out <> None
          <-> (1 <= trs_len (bias_samples a'))%nat
              /\ xltb (Fin (trs_elapsed_time (bias_samples a'))) (min_delta_t a')
                 = false).
Proof.
  intros (Hmax & Heq & Hok & Hrate & Hnew) Hle.
  unfold ccd_calculate_metric. cbn [clock_message clock_rate clock_bias rxTime getitem bind].
  destruct Hrate as [[Hr Hempty] | [Hr Ht]]; rewrite Hr.
  - (* no earlier sample: the message seeds the monitor *)
    right. eexists. eexists. split; [reflexivity|].
    split; [|split].
    + split; [exact Hmax|]. split; [exact Heq|]. split; [exact Hok|].
      split; [right; split; reflexivity|].
      left. exact Hempty.
    + left. reflexivity.
    + split; [congruence|]. intros [Hlen _]. exfalso.
      cbn in Hlen. unfold trs_len, tb_len in Hlen. unfold trs_times in Hempty.
      rewrite Hempty in Hlen. simpl in Hlen. lia.
  - (* an earlier sample: both buffers receive the same entry *)
    pose proof (trs_append_spec t (r * (t - prev)) Hok) as Happ.
    destruct (Qcltb t (trs_newest_time (bias_samples (attrs m)))) eqn:Hnl.
    { left. rewrite Happ. split; [reflexivity|].
      apply Qcltb_lt in Hnl. destruct Hnew as [Hempty | Hnew].
      - unfold trs_newest_time, newest_time in Hnl. unfold trs_times in Hempty.
        rewrite Hempty in Hnl. exact Hnl.
      - exfalso. apply (Qclt_not_le _ _ Hnl). eapply Qcle_trans; eassumption. }
    right. destruct Happ as (bs & Happ & Hokbs & Hbuf).
    rewrite Happ. cbn [bind]. rewrite Ht. cbn [bind].
    rewrite rate_term_consistent, <- Heq, Happ. cbn [bind].
    destruct (@trim_same (Datatypes.S (trs_len bs)) (max_delta_t (attrs m)) bs)
      as (b' & Htrim & Hok' & Hnew' & Htg' & Hpos); [assumption | assumption | lia |].
    rewrite Htrim. cbn [bind].
    assert (Hnewbs : trs_newest_time bs = t).
    { unfold trs_newest_time. rewrite Hbuf.
      apply newest_time_drop_push. apply popped_by_append_le. }
    assert (Hlenbs : (1 <= trs_len bs)%nat).
    { unfold trs_len, tb_len. rewrite Hbuf. unfold tb_drop, tb_push; simpl.
      rewrite length_skipn, length_app. simpl.
      pose proof (popped_by_append_le (trs_buffer (bias_samples (attrs m))) t). lia. }
    destruct (xltb (Fin (trs_elapsed_time b')) (trs_target b')) eqn:Ew.
    + eexists. eexists. split; [reflexivity|].
      split; [|split].
      * split; [exact Hmax|]. split; [reflexivity|]. split; [exact Hok'|].
        split; [right; split; reflexivity|].
        right. cbn. rewrite Hnew', Hnewbs. apply Qcle_refl.
      * left. reflexivity.
      * unfold min_delta_t. cbn [bias_samples]. rewrite Ew.
        split; [congruence | intros [_ H]; discriminate].
    + eexists. eexists. split; [reflexivity|].
      split; [|split].
      * split; [exact Hmax|]. split; [reflexivity|]. split; [exact Hok'|].
        split; [right; split; reflexivity|].
        right. cbn. rewrite Hnew', Hnewbs. apply Qcle_refl.
      * right. rewrite Qcabs_diag. reflexivity.
      * unfold min_delta_t. cbn [bias_samples]. rewrite Ew.
        split; [intros _; split; [apply Hpos; assumption | reflexivity] | discriminate].
Qed.

Lemma ccd_reset_inv (receiver : string) (r prev : Qc) (m : CCDMonitor) :
  ccd_inv receiver r prev m ->
  receiver_id (ccd_reset m) = Some receiver
  /\ threshold (ccd_reset m) = threshold m
  /\ st_metric (status (ccd_reset m)) = None
  /\ ccd_attrs_inv r prev (attrs (ccd_reset m)).
Proof.
  intros (Hid & Hthr & Hlast & Hmetric & Hmax & Heq & Hok & Hrate & Hnew).
  split; [exact Hid|]. split; [reflexivity|]. split; [reflexivity|].
  split; [exact Hmax|]. split; [cbn; rewrite Heq; reflexivity|].
  split; [apply trs_reset_ok|].
  split; [left; split; reflexivity|].
  left. reflexivity.
Qed.

(** One message of the consistent clock through [update]. *)
Lemma ccd_update_step (receiver : string) (r prev t : Qc) (m : CCDMonitor) :
  ccd_inv receiver r prev m -> prev <= t ->
  (ccd_update m (clock_message receiver r prev t) = Raise ValueError /\ t < 0)
  \/ ccd_step_result receiver r t (ccd_update m (clock_message receiver r prev t)).
Proof.
  intros Hinv Hle.
  pose proof (ccd_reset_inv Hinv) as (Rid & Rthr & Rmetric & Rattrs).
  destruct Hinv as (Hid & (thr & Hthr & Hpos) & Hlast & Hmetric & Hattrs).
  unfold ccd_step_result, ccd_update, update.
  assert (Hv : verify_message ccd_class m (clock_message receiver r prev t) = true).
  { cbn [verify_message ccd_class]. unfold base_verify_message.
    cbn [clock_message rxTime validity msg_receiver_id negb].
    rewrite Hid. cbn [receiver_id_eqb]. rewrite String.eqb_refl. cbn [negb].
    destruct (last_event_time m) as [last|] eqn:El; [|reflexivity].
    assert (Hl : Qcltb t last = false).
    { apply Qcltb_ge. eapply Qcle_trans; [apply Hlast; reflexivity | exact Hle]. }
    rewrite Hl. reflexivity. }
  rewrite Hv. cbn [negb clock_message rxTime getitem bind].
  match goal with
  | |- context [with_last_event_time ?x (Some t)] => set (m1 := x)
  end.
  assert (H1 : receiver_id m1 = Some receiver
               /\ threshold m1 = Fin thr
               /\ (st_metric (status m1) = None \/ st_metric (status m1) = Some 0)
               /\ ccd_attrs_inv r prev (attrs m1)).
  { subst m1.
    destruct (monitor_timeout m) as [timeout|]; [|auto].
    destruct (last_event_time m) as [last|]; [|auto].
    destruct (Qcleb timeout (t - last)); [|auto].
    cbn [reset ccd_class]. rewrite Rthr. auto. }
  clearbody m1. destruct H1 as (Hid1 & Hthr1 & Hmetric1 & Hattrs1).
  set (m2 := with_last_event_time m1 (Some t)).
  fold (clock_message receiver r prev t).
  cbn [calculate_metric ccd_class].
  destruct (@ccd_calc_step receiver r prev t m2 Hattrs1 Hle)
    as [[Hraise Hneg] | (out & a' & Hcalc & Ha' & Hout & Hwin)].
  { left. rewrite Hraise. split; [reflexivity | exact Hneg]. }
  right. rewrite Hcalc. cbn [bind].
  destruct Hout as [-> | ->].
  - eexists. eexists. split; [reflexivity|].
    split; [|split; [|split]].
    + split; [exact Hid1|]. split; [exists thr; auto|].
      split; [intros last Hl; injection Hl as <-; apply Qcle_refl|].
      split; [exact Hmetric1 | exact Ha'].
    + left. reflexivity.
    + split; [congruence|]. intro H. apply Hwin in H. congruence.
    + congruence.
  - assert (Hcmp : compare_metric ccd_class (with_attrs m2 a') 0 = false).
    { cbn [compare_metric ccd_class]. unfold base_compare_metric.
      cbn [with_attrs threshold m2 with_last_event_time]. rewrite Hthr1.
      cbn [xltb]. apply Qcltb_ge. apply Qclt_le_weak. exact Hpos. }
    rewrite Hcmp.
    eexists. eexists. split; [reflexivity|].
    split; [|split; [|split]].
    + split; [exact Hid1|]. split; [exists thr; auto|].
      split; [intros last Hl; injection Hl as <-; apply Qcle_refl|].
      split; [right; reflexivity | exact Ha'].
    + right. reflexivity.
    + split; [intros _; apply Hwin; discriminate | discriminate].
    + reflexivity.
Qed.

Lemma ccd_init_inv (receiver : string) (timeout : option Qc) (thr min_dt max_dt : Qc)
    (m0 : CCDMonitor) (r prev : Qc) :
  ccd_init receiver timeout thr min_dt max_dt = Ok m0 ->
  ccd_inv receiver r prev m0.
Proof.
  unfold ccd_init, trs_init, tb_init.
  destruct (Qcleb thr 0) eqn:Ethr; [discriminate|].
  destruct (Qcltb max_dt min_dt); [discriminate|].
  destruct (xltb (Fin min_dt) (Fin 0)); [discriminate|].
  cbn [bind].
  destruct (Qcleb max_dt 0) eqn:Emax; [discriminate|].
  intros H. injection H as <-.
  apply Qcleb_gt in Ethr. apply Qcleb_gt in Emax.
  split; [reflexivity|]. split; [exists thr; auto|].
  split; [discriminate|]. split; [left; reflexivity|].
  split; [apply Qclt_le_weak; exact Emax|]. split; [reflexivity|].
  split; [split; reflexivity|]. split; [left; split; reflexivity|].
  left. reflexivity.
Qed.

Lemma ccd_run_inv (receiver : string) (r : Qc) (times : list Qc) :
  forall (prev : Qc) (m : CCDMonitor),
    ccd_inv receiver r prev m -> StronglySorted Qcle (prev :: times) ->
    (exists e, ccd_run m (clock_stream receiver r prev times) = Raise e
               /\ exists t, In t times /\ t < 0)
    \/ ccd_run_result receiver r prev times
         (ccd_run m (clock_stream receiver r prev times)).
Proof.
  induction times as [|t rest IH]; intros prev m Hinv Hs.
  - right. exists [], m. cbn [clock_stream ccd_run last].
    split; [reflexivity|]. split; [reflexivity|]. split; [constructor|].
    split; [exact Hinv|]. intro H. exfalso. apply H. reflexivity.
  - inversion Hs as [|? ? Hs' Hall]; subst.
    inversion Hall as [|? ? Hle _]; subst.
    cbn [clock_stream ccd_run].
    destruct (ccd_update_step Hinv Hle)
      as [[Hraise Hneg] | (out & m1 & Hupd & Hinv1 & Hout & Hwin & Hzero)].
    { left. rewrite Hraise. exists ValueError. split; [reflexivity|].
      exists t. split; [left; reflexivity | exact Hneg]. }
    rewrite Hupd. cbn [bind].
    destruct (IH t m1 Hinv1 Hs')
      as [(e & Hrun & t' & Hin & Hneg)
         | (outs & m' & Hrun & Hlen & Hall' & Hinv' & Hfinal)].
    { left. rewrite Hrun. exists e. split; [reflexivity|].
      exists t'. split; [right; exact Hin | exact Hneg]. }
    right. rewrite Hrun. cbn [bind].
    exists (out :: outs), m'.
    split; [reflexivity|]. split; [simpl; congruence|].
    split; [constructor; assumption|].
    split; [rewrite last_shift; exact Hinv'|].
    intros _. destruct rest as [|t' rest'].
    + destruct outs; [|discriminate Hlen].
      cbn in Hrun. injection Hrun as <-. cbn [last]. split; assumption.
    + destruct outs as [|o outs]; [discriminate Hlen|].
      change (last (out :: o :: outs) None) with (last (o :: outs) None).
      apply Hfinal. discriminate.
Qed.


Lemma ccd_monitor_built :
  ccd_init "rx" (Some (zq 10)) 1 (zq 2) (zq 3) = Ok Examples.ccd_monitor.
Proof. reflexivity. Qed.

Lemma ccd_times_sorted : StronglySorted Qcle (0 :: ccd_times).
Proof.
  repeat constructor; vm_compute; discriminate.
Qed.

(** On the example the fourth message fills the window and the metric is 0. *)
Lemma ccd_run_example :
  exists m,
    ccd_run Examples.ccd_monitor (clock_stream "rx" (zq 3) 0 ccd_times)
    = Ok ([None; None; None; Some false], m)
    /\ st_metric (status m) = Some 0
    /\ trs_times (bias_samples (attrs m)) = [zq 2; zq 3; zq 4].
Proof.
  eexists. split; [vm_compute; reflexivity|]. split; qc_compute.
Qed.

(** With negative times the second message already meets the ordering error
    of the empty buffer. *)
Lemma ccd_run_negative_times :
  ccd_run Examples.ccd_monitor
    (clock_stream "rx" (zq 3) (zq (-6)) [zq (-5); zq (-4)])
  = Raise ValueError.
Proof. reflexivity. Qed.


End CCDProps.

Module CnoProps.

Import Cno.

Lemma verified_has_time (M B S : Type) (m : Monitor M B S) (msg : message) :
  base_verify_message m msg = true -> exists t, rxTime msg = Some t.
Proof.
  unfold base_verify_message. destruct (rxTime msg) as [t|]; [eauto | discriminate].
Qed.

(** An [update] whose [_calculate_metric] raises on the message raises. *)
Lemma update_raises (M B S : Type) (cls : MonitorClass M B S) (m : Monitor M B S)
    (msg : message) :
  (exists t, rxTime msg = Some t) ->
  verify_message cls m msg = true ->
  (forall m2, exists e, calculate_metric cls m2 msg = Raise e) ->
  exists e, update cls m msg = Raise e.
Proof.
  intros [t Ht] Hv Hcalc. unfold update. rewrite Hv, Ht. cbn [negb getitem bind].
  match goal with
  | |- context [calculate_metric cls ?m2 msg] => destruct (Hcalc m2) as [e He]
  end.
  rewrite He. exists e. reflexivity.
Qed.

Lemma cnt_entry_unusable (time : Qc) (cnos : Dict.dict (option (Qc * Qc))) (sv : sv_data) :
  usable sv = false -> exists e, cnt_entry time cnos sv = Raise e.
Proof.
  unfold usable, cnt_entry.
  destruct (svid sv); [|eexists; reflexivity].
  destruct (gnssId sv); [|eexists; reflexivity].
  destruct (cno sv); [|eexists; reflexivity].
  destruct (qualityInd sv); [|eexists; reflexivity].
  cbn [getitem bind]. intro H. apply negb_false_iff in H. rewrite H.
  eexists; reflexivity.
Qed.

Lemma cnt_entries_unusable (time : Qc) (entries : list sv_data) (sv : sv_data) :
  In sv entries -> usable sv = false ->
  forall cnos, exists e, cnt_entries time cnos entries = Raise e.
Proof.
  intros Hin Hbad. induction entries as [|x entries IH]; [destruct Hin|].
  intro cnos. cbn [cnt_entries].
  destruct Hin as [-> | Hin].
  - destruct (@cnt_entry_unusable time cnos sv Hbad) as [e He]. rewrite He.
    exists e. reflexivity.
  - destruct (cnt_entry time cnos x) as [cnos'|e]; cbn [bind].
    + apply IH. assumption.
    + exists e. reflexivity.
Qed.

Lemma cnd_entry_unusable (time window : Qc) (cnos : Dict.dict (TimedBuffer Qc))
    (sv : sv_data) :
  usable sv = false -> cnd_entry time window cnos sv = Ok cnos.
Proof.
  unfold usable, cnd_entry.
  destruct (svid sv); [|reflexivity].
  destruct (gnssId sv); [|reflexivity].
  destruct (cno sv); [|reflexivity].
  destruct (qualityInd sv); [|reflexivity].
  intro H. apply negb_false_iff in H. rewrite H. reflexivity.
Qed.

Lemma cnd_entries_filter (time window : Qc) (entries : list sv_data) :
  forall cnos,
    cnd_entries time window cnos entries
    = cnd_entries time window cnos (filter usable entries).
Proof.
  induction entries as [|x entries IH]; intro cnos; [reflexivity|].
  cbn [cnd_entries filter]. destruct (usable x) eqn:E.
  - cbn [cnd_entries]. destruct (cnd_entry time window cnos x); cbn [bind]; auto.
  - rewrite (@cnd_entry_unusable time window cnos x E). cbn [bind]. apply IH.
Qed.

(** C6: in [CnoDropJammingMonitor] the entries of [svs] that lack a field,
    have [qualityInd < 4] or [cno <= 0] are passed over: [update] does what it
    does on the message without them.  In [CnoThresholdJammingMonitor] one
    such entry in an accepted message makes [update] raise. *)
Theorem cno_unusable_entries (entries : list sv_data) (msg : message) :
  svs msg = Some entries ->
  (forall m : CnoDropJammingMonitor,
      cnd_update m msg = cnd_update m (with_svs msg (filter usable entries)))
  /\ (forall (m : CnoThresholdJammingMonitor) (sv : sv_data),
         In sv entries -> usable sv = false ->
         verify_message cnt_class m msg = true ->
         exists e, cnt_update m msg = Raise e).
Proof.
  intro Hsvs. split.
  - intro m. unfold cnd_update, update.
    change (verify_message cnd_class m (with_svs msg (filter usable entries)))
      with (verify_message cnd_class m msg).
    destruct (negb (verify_message cnd_class m msg)); [reflexivity|].
    change (rxTime (with_svs msg (filter usable entries))) with (rxTime msg).
    destruct (getitem (rxTime msg)) as [time|e]; [|reflexivity].
    cbn [bind calculate_metric cnd_class]. unfold cnd_calculate_metric.
    rewrite Hsvs. cbn [with_svs svs rxTime].
    destruct (getitem (rxTime msg)) as [time'|e]; [|reflexivity].
    cbn [bind]. rewrite cnd_entries_filter. reflexivity.
  - intros m sv Hin Hbad Hv.
    apply update_raises; [|exact Hv|].
    + apply (@verified_has_time _ _ _ m msg). exact Hv.
    + intro m2. cbn [calculate_metric cnt_class]. unfold cnt_calculate_metric.
      rewrite Hsvs. destruct (getitem (rxTime msg)) as [time|e]; cbn [bind].
      * destruct (@cnt_entries_unusable time entries sv Hin Hbad (cnt_cnos (attrs m2))) as [e He].
        rewrite He. exists e. reflexivity.
      * exists e. reflexivity.
Qed.

(** The two failing inputs of [CnoThresholdJammingMonitor]: an entry of
    quality 3 reaches [self.logger.deubg], an entry without [cno] reaches
    [sv_data['cno']]. *)
Lemma cnt_unusable_entry_raises :
  cnt_update cnt_monitor low_quality_message = Raise AttributeError
  /\ cnt_update cnt_monitor missing_field_message = Raise KeyError.
Proof. split; reflexivity. Qed.

Lemma cno_unusable_entries_witness :
  svs low_quality_message = Some [sv_entry 0 1 30 5; sv_entry 0 2 30 3]
  /\ cnd_update cnd_monitor low_quality_message
     = cnd_update cnd_monitor (svs_message 1 [sv_entry 0 1 30 5])
  /\ exists e, cnt_update cnt_monitor low_quality_message = Raise e.
Proof.
  destruct (@cno_unusable_entries [sv_entry 0 1 30 5; sv_entry 0 2 30 3]
              low_quality_message eq_refl) as [Hd Ht].
  split; [reflexivity|]. split.
  - exact (Hd cnd_monitor).
  - apply (Ht cnt_monitor (sv_entry 0 2 30 3)).
    + right. left. reflexivity.
    + reflexivity.
    + reflexivity.
Defined.

Lemma get_set_other (V : Type) (d : Dict.dict V) (k key : string) (v : V) :
  String.eqb key k = false -> Dict.get (Dict.set d k v) key = Dict.get d key.
Proof.
  intro Hne. induction d as [|[k0 v0] d IH]; cbn [Dict.set Dict.get].
  - rewrite Hne. reflexivity.
  - destruct (String.eqb k k0) eqn:E; cbn [Dict.get].
    + apply String.eqb_eq in E. subst k0. rewrite Hne. reflexivity.
    + destruct (String.eqb key k0); [reflexivity | exact IH].
Qed.

Lemma cnt_entry_keeps_none (time : Qc) (cnos cnos' : Dict.dict (option (Qc * Qc)))
    (sv : sv_data) (key : string) :
  channel_of sv <> Some key ->
  Dict.get cnos key = Some None ->
  cnt_entry time cnos sv = Ok cnos' ->
  Dict.get cnos' key = Some None.
Proof.
  unfold channel_of, cnt_entry. intros Hch Hget.
  destruct (svid sv) as [s|]; [|discriminate].
  destruct (gnssId sv) as [g|]; [|discriminate].
  destruct (cno sv) as [c|]; [|discriminate].
  destruct (qualityInd sv) as [q|]; [|discriminate].
  cbn [getitem bind]. destruct (low_quality q c); [discriminate|].
  assert (Hne : String.eqb key (channel_id g s) = false).
  { apply String.eqb_neq. congruence. }
  destruct (Dict.get cnos (channel_id g s)) as [[[last c0]|]|].
  - destruct (Qcltb time last); intro H; injection H as <-;
      [assumption | rewrite get_set_other; assumption].
  - intro H; injection H as <-. rewrite get_set_other; assumption.
  - intro H; injection H as <-. rewrite get_set_other; assumption.
Qed.

Lemma cnt_entries_keep_none (time : Qc) (entries : list sv_data) (key : string) :
  (forall sv, In sv entries -> channel_of sv <> Some key) ->
  forall cnos cnos',
    Dict.get cnos key = Some None ->
    cnt_entries time cnos entries = Ok cnos' ->
    Dict.get cnos' key = Some None.
Proof.
  induction entries as [|x entries IH]; intros Hch cnos cnos' Hget; cbn [cnt_entries].
  - intro H. injection H as <-. assumption.
  - destruct (cnt_entry time cnos x) as [cnos1|e] eqn:E; cbn [bind]; [|discriminate].
    apply IH.
    + intros sv Hin. apply Hch. right. assumption.
    + eapply cnt_entry_keeps_none; [|eassumption|eassumption].
      apply Hch. left. reflexivity.
Qed.

(** The ageing loop cannot unpack a channel that holds [None]. *)
Lemma cnt_age_none (time window : Qc) (items : Dict.dict (option (Qc * Qc)))
    (key : string) :
  Dict.get items key = Some None ->
  forall max_cno, cnt_age time window items max_cno = Raise TypeError.
Proof.
  induction items as [|[k v] items IH]; cbn [Dict.get]; [discriminate|].
  intros Hget max_cno. destruct v as [[last c]|]; cbn [cnt_age]; [|reflexivity].
  destruct (String.eqb key k); [discriminate|].
  destruct (Qcltb window (time - last)); rewrite (IH Hget); reflexivity.
Qed.

(** C7: once a channel has been invalidated (its entry holds [None]), every
    later accepted message with an [svs] list that does not refresh that
    channel makes [update] raise: the loop over the channels unpacks
    [None]. *)
Theorem cnt_update_after_invalidation_raises
    (m : CnoThresholdJammingMonitor) (msg : message) (entries : list sv_data)
    (key : string) :
  verify_message cnt_class m msg = true ->
  monitor_timeout m = None ->
  svs msg = Some entries ->
  Dict.get (cnt_cnos (attrs m)) key = Some None ->
  (forall sv, In sv entries -> channel_of sv <> Some key) ->
  exists e, cnt_update m msg = Raise e.
Proof.
  intros Hv Hto Hsvs Hget Hch.
  destruct (@verified_has_time _ _ _ m msg Hv) as [t Ht].
  unfold cnt_update, update. rewrite Hv, Ht, Hto.
  cbn [negb getitem bind calculate_metric cnt_class].
  unfold cnt_calculate_metric. rewrite Hsvs, Ht. cbn [getitem bind with_last_event_time attrs].
  destruct (cnt_entries t (cnt_cnos (attrs m)) entries) as [cnos|e] eqn:E; cbn [bind].
  - rewrite (@cnt_age_none t _ cnos key); [eexists; reflexivity|].
    eapply cnt_entries_keep_none; eassumption.
  - exists e. reflexivity.
Qed.

(** The run of the unit test [testTimeWindow], and one message more. *)
Lemma cnt_aged_channel_example :
  (exists m1,
      cnt_update cnt_monitor two_channels_message = Ok (Some false, m1)
      /\ st_metric (status m1) = Some (zq 25)
      /\ cnt_update m1 (one_channel_message 82) = Ok (Some true, cnt_monitor_aged))
  /\ cnt_update cnt_monitor_aged (one_channel_message 83) = Raise TypeError.
Proof.
  split; [|reflexivity].
  eexists. split; [vm_compute; reflexivity|]. split; qc_compute.
Qed.

Lemma cnt_update_after_invalidation_raises_witness :
  exists e, cnt_update cnt_monitor_aged (one_channel_message 83) = Raise e.
Proof.
  apply (@cnt_update_after_invalidation_raises cnt_monitor_aged
           (one_channel_message 83) [sv_entry 0 2 2 5] "0.1"%string).
  - reflexivity.
  - reflexivity.
  - reflexivity.
  - reflexivity.
  - intros sv [<- | []]. vm_compute. discriminate.
Defined.

End CnoProps.

Module DualProps.

Import DualAntenna RunningSumFacts.

#[export] Instance vec3_SampleLaws : SampleLaws vec3.
Proof.
  split.
  - intros [[ax ay] az] [[bx b_y] bz]. cbn. f_equal; [f_equal|]; ring.
  - intros [[ax ay] az] [[bx b_y] bz] [[cx cy] cz]. cbn. f_equal; [f_equal|]; ring.
  - intros [[ax ay] az] [[bx b_y] bz]. cbn. f_equal; [f_equal|]; ring.
Qed.

Lemma timeout_guard_idle (M B S : Type) (cls : MonitorClass M B S) (m : Monitor M B S)
    (time : Qc) :
  timeout_fires m time = false ->
  match monitor_timeout m, last_event_time m with
  | Some timeout, Some last => if Qcleb timeout (time - last) then reset cls m else m
  | _, _ => m
  end = m.
Proof.
  unfold timeout_fires.
  destruct (monitor_timeout m); [|reflexivity].
  destruct (last_event_time m); [|reflexivity].
  intros ->. reflexivity.
Qed.

(** Popping the oldest entry keeps the newest time, unless the buffer
    empties. *)
Lemma trs_popleft_newest (b b' : TimedRunningSum vec3) :
  trs_popleft b = Ok b' ->
  trs_newest_time b' = trs_newest_time b \/ trs_newest_time b' = 0.
Proof.
  unfold trs_popleft, oldest_sample, tb_popleft, trs_newest_time, newest_time.
  destruct (time_buffer (trs_buffer b)) as [|t ts]; [discriminate|].
  destruct (sample_buffer (trs_buffer b)) as [|s ss]; [discriminate|].
  cbn. intro H. injection H as <-. cbn.
  destruct ts as [|t' ts']; [right; reflexivity|].
  left. symmetry. apply CCDProps.last_shift.
Qed.

Lemma trs_popleft_nonempty (b : TimedRunningSum vec3) :
  trs_ok b -> (1 <= trs_len b)%nat -> exists b', trs_popleft b = Ok b'.
Proof.
  intros [Hwf _] Hlen. unfold trs_popleft, oldest_sample, tb_popleft.
  unfold trs_len, tb_len in Hlen. unfold tb_wf in Hwf.
  destruct (time_buffer (trs_buffer b)) as [|t ts]; simpl in Hlen; [lia|].
  destruct (sample_buffer (trs_buffer b)) as [|s ss]; simpl in Hwf; [lia|].
  eexists. reflexivity.
Qed.

(** The sub-monitor's [update] returns on every message with a non-negative
    time, and keeps its invariant. *)
Lemma stub_update_total (sub : StubPosMonitor) (msg : message) (time : Qc) :
  stub_inv sub -> rxTime msg = Some time -> 0 <= time ->
  exists r sub', stub_update sub msg = Ok (r, sub') /\ stub_inv sub'.
Proof.
  intros [Hok Hnew] Ht Hpos. unfold stub_update, update.
  destruct (verify_message stub_class sub msg) eqn:Hv; cbn [negb].
  2:{ exists None, sub. split; [reflexivity | split; assumption]. }
  rewrite Ht. cbn [getitem bind].
  (* the state after the timeout guard *)
  match goal with
  | |- context [with_last_event_time ?x (Some time)] => set (m1 := x)
  end.
  assert (H1 : trs_ok (samples (attrs m1))
               /\ trs_newest_time (samples (attrs m1)) <= time).
  { assert (Hle : trs_newest_time (samples (attrs sub)) <= time).
    { destruct Hnew as [-> | (last & Hl & Hle)]; [exact Hpos|].
      eapply Qcle_trans; [exact Hle|].
      cbn [verify_message stub_class] in Hv. unfold base_verify_message in Hv.
      rewrite Ht, Hl in Hv.
      destruct (validity msg) as [valid|]; [|discriminate].
      destruct (msg_receiver_id msg) as [rcv|]; [|discriminate].
      destruct valid; cbn [negb] in Hv; [|discriminate].
      destruct (negb (receiver_id_eqb (Some rcv) (receiver_id sub))); [discriminate|].
      destruct (Qcltb time last) eqn:E; [discriminate|].
      apply Qcltb_ge. exact E. }
    subst m1.
    destruct (monitor_timeout sub) as [timeout|]; [|split; assumption].
    destruct (last_event_time sub) as [last|]; [|split; assumption].
    destruct (Qcleb timeout (time - last)); [|split; assumption].
    split; [apply trs_reset_ok | exact Hpos]. }
  clearbody m1. destruct H1 as [Hok1 Hle1].
  cbn [calculate_metric stub_class]. unfold stub_calculate_metric.
  destruct (ecef_position msg) as [position|].
  - rewrite Ht. cbn [getitem bind with_last_event_time attrs].
    pose proof (trs_append_spec time position Hok1) as Happ.
    assert (Hnl : Qcltb time (trs_newest_time (samples (attrs m1))) = false).
    { apply Qcltb_ge. exact Hle1. }
    rewrite Hnl in Happ. destruct Happ as (s1 & Happ & Hoks1 & Hbuf).
    rewrite Happ. cbn [bind].
    assert (Hnews1 : trs_newest_time s1 = time).
    { unfold trs_newest_time. rewrite Hbuf.
      apply CCDProps.newest_time_drop_push. apply CCDProps.popped_by_append_le. }
    assert (Hlens1 : (1 <= trs_len s1)%nat).
    { unfold trs_len, tb_len. rewrite Hbuf. unfold tb_drop, tb_push; simpl.
      rewrite length_skipn, length_app. simpl.
      pose proof (CCDProps.popped_by_append_le (trs_buffer (samples (attrs m1))) time).
      lia. }
    destruct (xltb (trs_target s1) (Fin (trs_elapsed_time s1))).
    + destruct (trs_popleft_nonempty Hoks1 Hlens1) as [s2 Hpop].
      rewrite Hpop. cbn [bind].
      eexists. eexists. split; [reflexivity|].
      split; cbn.
      * eapply trs_popleft_ok; eassumption.
      * destruct (@trs_popleft_newest s1 s2 Hpop) as [H | H]; [|left; exact H].
        right. exists time. split; [reflexivity|].
        rewrite H, Hnews1. apply Qcle_refl.
    + cbn [bind]. eexists. eexists. split; [reflexivity|].
      split; cbn; [exact Hoks1|].
      right. exists time. split; [reflexivity|]. rewrite Hnews1. apply Qcle_refl.
  - eexists. eexists. split; [reflexivity|].
    split; cbn; [exact Hok1|].
    right. exists time. split; [reflexivity | exact Hle1].
Qed.

Lemma dual_verified (m : DualAntennaDistanceMonitor) (msg : message) :
  dual_verify_message m msg = true ->
  exists receiver which,
    msg_receiver_id msg = Some receiver
    /\ Dict.get (receivers (attrs m)) receiver = Some which.
Proof.
  unfold dual_verify_message, Dict.contains.
  destruct (rxTime msg); [|discriminate].
  destruct (validity msg) as [valid|]; [|discriminate].
  destruct (msg_receiver_id msg) as [receiver|]; [|discriminate].
  destruct valid; cbn [negb]; [|discriminate].
  destruct (Dict.get (receivers (attrs m)) receiver) as [which|] eqn:E; [|discriminate].
  intros _. exists receiver, which. split; [reflexivity | exact E].
Qed.

Lemma mean_of_samples (s : TimedRunningSum vec3) :
  trs_ok s -> vdiv (trs_sum s) (trs_len s) = mean (sample_buffer (trs_buffer s)).
Proof.
  intros [Hwf Hsum]. unfold mean, trs_len, tb_len.
  rewrite Hsum. unfold tb_wf in Hwf. rewrite Hwf. reflexivity.
Qed.

Lemma vdiv_positive (v : vec3) (n : nat) :
  (1 <= n)%nat -> exists avg, vdiv v n = Ok avg.
Proof.
  destruct n as [|n]; [lia|]. intros _. destruct v as [[x y] z].
  eexists. reflexivity.
Qed.

Section DualSpec.

Variable sqrt : Qc -> Qc.


End DualSpec.

(** A constructed monitor has both sub-monitors in order and [-inf] as the
    time of its last combined computation; [reset] keeps the sub-monitors in
    order and stores [None]. *)
Lemma dual_init_inv (id1 id2 : string) (timeout : option Qc) (n : Z) (thr range : Qc)
    (m : DualAntennaDistanceMonitor) :
  dual_init id1 id2 timeout n thr range = Ok m ->
  stub_inv (rx1 (attrs m)) /\ stub_inv (rx2 (attrs m))
  /\ last_update (attrs m) = Some NInf.
Proof.
  unfold dual_init, stub_init, trs_init, tb_init.
  destruct (Qcleb thr 0); [discriminate|].
  destruct (xltb (Fin range) (Fin 0)); [discriminate|].
  cbn [bind]. intro H. injection H as <-.
  split; [|split]; try reflexivity;
    (split; [split; reflexivity | left; reflexivity]).
Qed.

Lemma dual_reset_inv (m : DualAntennaDistanceMonitor) :
  stub_inv (rx1 (attrs (dual_reset m))) /\ stub_inv (rx2 (attrs (dual_reset m)))
  /\ last_update (attrs (dual_reset m)) = None.
Proof.
  split; [|split]; try reflexivity;
    (split; [split; reflexivity | left; reflexivity]).
Qed.

Lemma stub_monitor_inv (receiver : string) : stub_inv (stub_monitor receiver).
Proof.
  split; [split; reflexivity | left; reflexivity].
Qed.

Lemma dual_monitor_built (n : Z) :
  dual_init "a" "b" None n (zq 2) (zq 15) = Ok (dual_monitor n).
Proof. reflexivity. Qed.


(** One position per receiver: the second message produces the metric (here
    the squared distance, [sqrt_stub] being the identity) and the alarm. *)
Lemma dual_update_example :
  exists m1 m2,
    dual_update sqrt_stub (dual_monitor 1) (position_message 1 "a" 0 0 0)
    = Ok (None, m1)
    /\ dual_update sqrt_stub m1 (position_message 2 "b" 1 0 0) = Ok (Some true, m2)
    /\ st_metric (status m2) = Some 1
    /\ last_update (attrs m2) = Some (Fin (zq 2)).
Proof.
  eexists. eexists. split; [vm_compute; reflexivity|].
  split; [vm_compute; reflexivity|]. split; qc_compute.
Qed.


(** C10: after [reset()], [_last_update] is [None]; the next accepted message
    makes [update] raise (the comparison [newest_time > None] is a
    [TypeError]) instead of returning [None] or an alarm. *)
Theorem dual_update_after_reset_raises (sqrt : Qc -> Qc)
    (m : DualAntennaDistanceMonitor) (msg : message) :
  dual_verify_message (dual_reset m) msg = true ->
  exists e, dual_update sqrt (dual_reset m) msg = Raise e.
Proof.
  intro Hv.
  destruct (dual_verified (dual_reset m) msg Hv) as (receiver & which & Hrcv & Hget).
  assert (Ht : exists time, rxTime msg = Some time).
  { unfold dual_verify_message in Hv.
    destruct (rxTime msg) as [time|]; [eauto | discriminate]. }
  destruct Ht as [time Ht].
  unfold dual_update, update.
  cbn [verify_message dual_class]. rewrite Hv, Ht. cbn [negb getitem bind].
  assert (Hidle : timeout_fires (dual_reset m) time = false).
  { unfold timeout_fires. destruct (monitor_timeout (dual_reset m)); reflexivity. }
  rewrite (timeout_guard_idle (dual_class sqrt) (dual_reset m) time Hidle).
  cbn [calculate_metric dual_class]. unfold dual_calculate_metric.
  cbn [with_last_event_time attrs]. rewrite Ht, Hrcv. cbn [getitem bind].
  rewrite Hget. cbn [getitem bind].
  match goal with
  | |- context [stub_update ?s msg] => destruct (stub_update s msg) as [[r sub]|e]
  end; cbn [bind].
  - destruct which; eexists; reflexivity.
  - exists e. reflexivity.
Qed.

Lemma dual_update_after_reset_raises_witness :
  dual_verify_message (dual_reset (dual_monitor 1)) (position_message 1 "a" 0 0 0) = true
  /\ exists e,
       dual_update sqrt_stub (dual_reset (dual_monitor 1)) (position_message 1 "a" 0 0 0)
       = Raise e.
Proof.
  split; [reflexivity|].
  apply (@dual_update_after_reset_raises sqrt_stub (dual_monitor 1)
           (position_message 1 "a" 0 0 0)).
  reflexivity.
Defined.

(** The same after an update: a monitor that has produced metrics, reset and
    fed again. *)
Lemma dual_reset_then_update_example :
  exists m1 m2,
    dual_update sqrt_stub (dual_monitor 1) (position_message 1 "a" 0 0 0)
    = Ok (None, m1)
    /\ dual_update sqrt_stub m1 (position_message 2 "b" 1 0 0) = Ok (Some true, m2)
    /\ dual_update sqrt_stub (dual_reset m2) (position_message 3 "a" 0 0 0)
       = Raise TypeError.
Proof.
  eexists. eexists. split; [vm_compute; reflexivity|].
  split; vm_compute; reflexivity.
Qed.

End DualProps.

Module FIRProps.
Import FIR FIFOFacts.

Lemma firstn_cons_firstn (X : Type) (n : nat) (x : X) (l : list X) :
  firstn n (x :: firstn n l) = firstn n (x :: l).
Proof.
  destruct n as [|n]; [reflexivity|]. simpl. f_equal.
  revert l. induction n as [|n IH]; intros [|y l]; simpl; try reflexivity.
  f_equal. apply IH.
Qed.

Lemma firstn_app_firstn (X : Type) (n : nat) (l q : list X) :
  firstn n (l ++ firstn n q) = firstn n (l ++ q).
Proof.
  rewrite !firstn_app, firstn_firstn. f_equal. f_equal. lia.
Qed.

Lemma fold_plus_qsum (l : list Qc) (a : Qc) : fold_left Qcplus l a = a + qsum l.
Proof.
  revert a. induction l as [|x l IH]; intro a; simpl.
  - ring.
  - rewrite IH. ring.
Qed.

Lemma weighted_sum_fir_sum (samples coeffs : list Qc) :
  weighted_sum samples coeffs = fir_sum coeffs samples.
Proof.
  unfold weighted_sum, fir_sum. rewrite fold_plus_qsum.
  rewrite Qcplus_0_l. 
  revert coeffs. induction samples as [|s samples IH]; intros [|c coeffs]; simpl;
    try reflexivity.
  rewrite IH. ring.
Qed.

Lemma fir_feed_past (f : FIRFilter) (xs : list Qc) :
  (length (past_samples f) <= past_maxlen f)%nat ->
  past_samples (fir_feed f xs) = firstn (past_maxlen f) (rev xs ++ past_samples f)
  /\ past_maxlen (fir_feed f xs) = past_maxlen f
  /\ filter_length (fir_feed f xs) = filter_length f
  /\ coefficients (fir_feed f xs) = coefficients f.
Proof.
  revert f. induction xs as [|x xs IH]; intros f Hlen.
  - simpl. rewrite firstn_all2 by assumption. auto.
  - change (fir_feed f (x :: xs)) with (fir_feed (appendleft f x) xs).
    destruct (IH (appendleft f x)) as (Hp & Hm & Hl & Hc).
    { simpl. unfold deque_appendleft. rewrite length_firstn. lia. }
    rewrite Hp, Hm, Hl, Hc. simpl.
    repeat split.
    unfold deque_appendleft.
    rewrite <- app_assoc. simpl.
    apply firstn_app_firstn.
Qed.


End FIRProps.

Module FIFOProps.
Import FIFOFacts.

Lemma fifo_appends_from (n : nat) (vals pre : list Qc) (f : FIFORunningSum) :
  (0 < n)%nat -> fifo_maxlen f = n -> fifo_ok f -> fifo_buffer f = lastn n pre ->
  exists f', fifo_appends f vals = Ok f'
             /\ fifo_ok f'
             /\ fifo_maxlen f' = n
             /\ fifo_buffer f' = lastn n (pre ++ vals).
Proof.
  intro Hn. revert pre f.
  induction vals as [|v vals IH]; intros pre f Hmax Hok Hbuf; simpl.
  - exists f. rewrite app_nil_r. auto.
  - destruct (fifo_append_ok v (f := f)) as (f' & Happ & Hok' & Hmax' & Hbuf');
      [lia | assumption |].
    rewrite Happ. simpl.
    rewrite Hmax, Hbuf, lastn_snoc in Hbuf'.
    destruct (IH (pre ++ [v]) f') as (f'' & H1 & H2 & H3 & H4);
      [congruence | assumption | assumption |].
    exists f''. rewrite <- app_assoc in H4. auto.
Qed.



End FIFOProps.

Module TimedBufferExtras.
Import FIFOFacts TimedBufferFacts TimedBufferProps.

Section Extras.

Variable A : Type.

Lemma sorted_skipn (k : nat) (l : list Qc) :
  StronglySorted Qcle l -> StronglySorted Qcle (skipn k l).
Proof.
  revert l. induction k as [|k IH]; intros l Hs; [exact Hs|].
  destruct l as [|x l]; [exact Hs|]. simpl. apply IH.
  inversion Hs; assumption.
Qed.

Lemma Forall_skipn_of (X : Type) (P : X -> Prop) (k : nat) (l : list X) :
  Forall P l -> Forall P (skipn k l).
Proof.
  revert l. induction k as [|k IH]; intros l H; [exact H|].
  destruct l as [|x l]; [exact H|]. simpl. apply IH. inversion H; assumption.
Qed.

(** On times in arrival order, what the loop does not count is fresh. *)
Lemma skipn_count_stale_fresh (cutoff : xnum) (times : list Qc) :
  StronglySorted Qcle times ->
  Forall (fun t => stale cutoff t = false) (skipn (count_stale cutoff times) times).
Proof.
  induction 1 as [|t times Hs IH Hall]; simpl; [constructor|].
  unfold xleb. fold (stale cutoff t).
  destruct (stale cutoff t) eqn:E; simpl; [exact IH|].
  constructor; [exact E|].
  eapply Forall_impl; [|exact Hall]. intros t' Hle. simpl in Hle.
  exact (stale_mono cutoff Hle E).
Qed.

(** The loop stops at the first entry that is not stale. *)
Lemma count_stale_lt (cutoff : xnum) (times : list Qc) (t : Qc) :
  In t times -> stale cutoff t = false ->
  (count_stale cutoff times < length times)%nat.
Proof.
  induction times as [|t0 times IH]; intros Hin Hf; [destruct Hin|].
  simpl. unfold xleb. fold (stale cutoff t0).
  destruct (stale cutoff t0) eqn:E; simpl; [|lia].
  destruct Hin as [-> | Hin]; [congruence|].
  specialize (IH Hin Hf). lia.
Qed.

Lemma newest_not_stale (target : xnum) (t : Qc) :
  xltb target (Fin 0) = false -> stale (xsub t target) t = false.
Proof.
  unfold stale. destruct target as [| q |]; simpl; intro H; try congruence.
  apply Qcltb_ge. apply Qcltb_ge in H.
  setoid_replace t with (t - 0) at 2 by ring.
  unfold Qcminus. apply Qcplus_le_compat; [apply Qcle_refl|].
  apply Qcopp_le_compat. assumption.
Qed.

Lemma last_in (X : Type) (x : X) (l : list X) : In (last l x) (x :: l).
Proof.
  revert x. induction l as [|y l IH]; intro x; [left; reflexivity|].
  right. rewrite CCDProps.last_shift. apply IH.
Qed.


(** With a target that is not negative the newest entry is never counted, so
    [remove_old_samples] pops fewer entries than the buffer holds. *)
Lemma num_to_pop_lt (keep : bool) (target : xnum) (times : list Qc) :
  xltb target (Fin 0) = false -> times <> [] ->
  (Z.to_nat (num_to_pop keep target times) < length times)%nat.
Proof.
  intros Ht Hne. destruct times as [|t rest]; [congruence|].
  unfold num_to_pop.
  pose proof (@count_stale_lt (xsub (last rest t) target) (t :: rest) (last rest t)
                (last_in t rest) (@newest_not_stale target (last rest t) Ht)) as H.
  destruct keep; lia.
Qed.

Lemma last_skipn (X : Type) (k : nat) (l : list X) (d : X) :
  (k < length l)%nat -> last (skipn k l) d = last l d.
Proof.
  revert l. induction k as [|k IH]; intros l Hk; [reflexivity|].
  destruct l as [|x l]; simpl in Hk; [lia|].
  change (skipn (S k) (x :: l)) with (skipn k l).
  destruct l as [|y l]; simpl in Hk; [lia|].
  rewrite IH by (simpl; lia). reflexivity.
Qed.

Lemma newest_time_last (b : TimedBuffer A) : newest_time b = last (time_buffer b) 0.
Proof.
  unfold newest_time. destruct (time_buffer b) as [|t rest]; [reflexivity|].
  symmetry. apply CCDProps.last_shift.
Qed.

Lemma newest_time_drop (b : TimedBuffer A) (k : nat) :
  (k < length (time_buffer b))%nat -> newest_time (tb_drop k b) = newest_time b.
Proof.
  intro Hk. rewrite !newest_time_last. apply last_skipn. exact Hk.
Qed.

Lemma newest_sample_drop (b : TimedBuffer A) (k : nat) :
  tb_wf b -> (k < length (time_buffer b))%nat ->
  newest_sample (tb_drop k b) = newest_sample b.
Proof.
  intros Hwf Hk. unfold newest_sample, tb_drop. simpl. unfold tb_wf in Hwf.
  destruct (skipn k (time_buffer b)) as [|t rest] eqn:E.
  { apply (f_equal (@length Qc)) in E. rewrite length_skipn in E.
    cbn [length] in E. lia. }
  destruct (time_buffer b) as [|t0 rest0] eqn:Et; [simpl in Hk; lia|].
  destruct (sample_buffer b) as [|s0 ss0] eqn:Es; [simpl in Hwf; lia|].
  assert (Hk' : (k < length (s0 :: ss0))%nat) by (rewrite <- Hwf; exact Hk).
  destruct (skipn k (s0 :: ss0)) as [|s ss] eqn:E2.
  { apply (f_equal (@length A)) in E2. rewrite length_skipn in E2.
    cbn [length] in E2, Hk'. lia. }
  f_equal.
  pose proof (last_skipn (s0 :: ss0) s0 Hk') as H. rewrite E2 in H.
  rewrite !CCDProps.last_shift in H. exact H.
Qed.


Lemma newest_time_nonneg (b : TimedBuffer A) : tb_inv b -> 0 <= newest_time b.
Proof.
  intros (_ & _ & Hpos & _). rewrite newest_time_last.
  destruct (time_buffer b) as [|t rest]; [apply Qcle_refl|].
  rewrite Forall_forall in Hpos. apply Hpos.
  rewrite CCDProps.last_shift. apply last_in.
Qed.

Lemma tb_drop_inv (k : nat) (b : TimedBuffer A) : tb_inv b -> tb_inv (tb_drop k b).
Proof.
  intros (Hwf & Hs & Hpos & Ht).
  split; [apply tb_drop_wf; assumption|].
  split; [apply sorted_skipn; assumption|].
  split; [apply Forall_skipn_of; assumption | exact Ht].
Qed.

Lemma tb_push_inv (b : TimedBuffer A) (time : Qc) (sample : A) :
  tb_inv b -> newest_time b <= time -> tb_inv (tb_push b time sample).
Proof.
  intros Hinv Hle. pose proof (newest_time_nonneg Hinv) as Hn.
  destruct Hinv as (Hwf & Hs & Hpos & Ht).
  split; [apply tb_push_wf; assumption|].
  split; [apply sorted_push; assumption|].
  split; [|exact Ht].
  cbn [tb_push time_buffer]. apply Forall_app. split; [assumption|].
  constructor; [|constructor]. eapply Qcle_trans; eassumption.
Qed.

Lemma tb_apply_inv (b b' : TimedBuffer A) (op : tb_op A) :
  tb_inv b -> tb_apply b op = Ok b' -> tb_inv b'.
Proof.
  intros Hinv Happ. pose proof Hinv as (Hwf & Hs & Hpos & Ht).
  destruct op as [time sample | | val | keep |]; cbn [tb_apply] in Happ.
  - rewrite tb_append_spec in Happ by assumption.
    destruct (Qcltb time (newest_time b)) eqn:E; [discriminate|].
    apply Qcltb_ge in E. injection Happ as <-.
    apply tb_drop_inv. apply tb_push_inv; assumption.
  - unfold tb_popleft in Happ.
    destruct (time_buffer b) as [|t ts] eqn:Et; [discriminate|].
    destruct (sample_buffer b) as [|s ss] eqn:Es; [discriminate|].
    injection Happ as <-. unfold tb_inv, tb_wf in *. cbn [time_buffer sample_buffer
      tb_target_elapsed_time]. rewrite Et, Es in *. cbn [length] in Hwf.
    split; [lia|]. split; [inversion Hs; assumption|].
    split; [inversion Hpos; assumption | exact Ht].
  - unfold tb_set_target_elapsed_time in Happ.
    destruct (xltb val (Fin 0)) eqn:E; [discriminate|].
    rewrite tb_remove_old_samples_spec in Happ by exact Hwf.
    injection Happ as <-. apply tb_drop_inv.
    split; [exact Hwf|]. split; [exact Hs|]. split; [exact Hpos | exact E].
  - rewrite tb_remove_old_samples_spec in Happ by exact Hwf.
    injection Happ as <-. apply tb_drop_inv. exact Hinv.
  - injection Happ as <-. split; [reflexivity|].
    split; [constructor|]. split; [constructor | exact Ht].
Qed.

Lemma tb_step_inv (b : TimedBuffer A) (op : tb_op A) : tb_inv b -> tb_inv (tb_step b op).
Proof.
  intro Hinv. unfold tb_step. destruct (tb_apply b op) as [b'|e] eqn:E; [|exact Hinv].
  exact (tb_apply_inv op Hinv E).
Qed.

(** X3: whatever a client does with a buffer it has built - appends (also
    ones that are refused), [popleft], a new target, [remove_old_samples]
    with either argument, [reset] - the times and the samples stay paired,
    the times stay in arrival order, no time is negative and the target stays
    non-negative. *)
Theorem tb_invariant_kept (target : xnum) (keep : bool) (b0 : TimedBuffer A)
    (ops : list (tb_op A)) :
  tb_init A target keep = Ok b0 ->
  tb_inv (fold_left (@tb_step A) ops b0).
Proof.
  intro Hinit. unfold tb_init in Hinit.
  destruct (xltb target (Fin 0)) eqn:E; [discriminate|]. injection Hinit as <-.
  set (b0 := {| time_buffer := []; sample_buffer := ([] : list A);
                tb_target_elapsed_time := target; tb_keep_one := keep |}).
  assert (H0 : tb_inv b0).
  { split; [reflexivity|]. split; [constructor|]. split; [constructor | exact E]. }
  revert H0. generalize b0.
  induction ops as [|op ops IH]; intros b Hb; [exact Hb|].
  simpl. apply IH. apply tb_step_inv. exact Hb.
Qed.


Lemma tl_skipn (X : Type) (k : nat) (l : list X) : tl (skipn k l) = skipn (S k) l.
Proof.
  revert l. induction k as [|k IH]; intros [|x l]; try reflexivity.
  apply IH.
Qed.

(** What [append] leaves: the pushed buffer without its [k] oldest entries,
    the new entry never among them, and everything after the oldest retained
    entry inside the window. *)
Lemma tb_append_shape (b b' : TimedBuffer A) (time : Qc) (sample : A) :
  tb_inv b ->
  tb_append b time sample = Ok b' ->
  newest_time b <= time
  /\ exists k,
       b' = tb_drop k (tb_push b time sample)
       /\ (k <= length (time_buffer b))%nat
       /\ Forall (fun t => stale (xsub time (tb_target_elapsed_time b)) t = false)
                 (skipn (S k) (time_buffer b ++ [time])).
Proof.
  intros Hinv Happ. pose proof Hinv as (Hwf & Hs & Hpos & Ht).
  rewrite tb_append_spec in Happ by assumption.
  destruct (Qcltb time (newest_time b)) eqn:E; [discriminate|].
  apply Qcltb_ge in E. injection Happ as <-.
  split; [exact E|].
  exists (popped_by_append b time).
  split; [reflexivity|]. split; [apply CCDProps.popped_by_append_le|].
  set (cutoff := xsub time (tb_target_elapsed_time b)).
  set (times := time_buffer b ++ [time]).
  assert (Hsorted : StronglySorted Qcle times) by (apply sorted_push; assumption).
  unfold popped_by_append. fold cutoff. fold times.
  pose proof (skipn_count_stale_fresh cutoff Hsorted) as Hfresh.
  destruct (count_stale cutoff times) as [|n] eqn:En.
  - apply (Forall_skipn_of 1) in Hfresh. exact Hfresh.
  - exact Hfresh.
Qed.

Lemma newest_sample_push (b : TimedBuffer A) (time : Qc) (sample : A) :
  newest_sample (tb_push b time sample) = Some sample.
Proof.
  unfold newest_sample, tb_push. cbn [time_buffer sample_buffer].
  destruct (time_buffer b ++ [time]) eqn:E1; [destruct (time_buffer b); discriminate|].
  destruct (sample_buffer b ++ [sample]) as [|s ss] eqn:E2;
    [destruct (sample_buffer b); discriminate|].
  f_equal. rewrite <- (CCDProps.last_shift s s ss), <- E2. apply last_last.
Qed.

(** X4: an [append] that returns leaves a buffer whose newest entry is the
    one just given, and in which every entry but the oldest lies inside the
    window: its time is not below [time - target_elapsed_time].  The length
    grows by at most one, and when it does not grow the retained span
    [elapsed_time] is strictly above the target. *)
Theorem tb_append_window (b b' : TimedBuffer A) (time : Qc) (sample : A) :
  tb_inv b ->
  tb_append b time sample = Ok b' ->
  newest_time b' = time
  /\ newest_sample b' = Some sample
  /\ (1 <= tb_len b' <= S (tb_len b))%nat
  /\ Forall (fun t => stale (xsub time (tb_target_elapsed_time b)) t = false)
            (tl (time_buffer b'))
  /\ ((tb_len b' <= tb_len b)%nat ->
      xltb (tb_target_elapsed_time b) (Fin (elapsed_time b')) = true).
Proof.
  intros Hinv Happ. pose proof Hinv as (Hwf & Hs & Hpos & Ht).
  destruct (@tb_append_shape b b' time sample Hinv Happ) as (E & _).
  rewrite tb_append_spec in Happ by assumption.
  apply Qcltb_ge in E. rewrite E in Happ. apply Qcltb_ge in E.
  injection Happ as <-.
  pose proof (CCDProps.popped_by_append_le b time) as Hk.
  set (cutoff := xsub time (tb_target_elapsed_time b)).
  set (times := time_buffer b ++ [time]).
  assert (Hsorted : StronglySorted Qcle times) by (apply sorted_push; assumption).
  assert (Hpush : (popped_by_append b time < length (time_buffer (tb_push b time sample)))%nat).
  { cbn [tb_push time_buffer]. rewrite length_app. cbn [length]. lia. }
  split; [apply CCDProps.newest_time_drop_push; assumption|].
  split.
  { rewrite newest_sample_drop; [| apply tb_push_wf; assumption | exact Hpush].
    apply newest_sample_push. }
  split.
  { unfold tb_len, tb_drop, tb_push. cbn [time_buffer].
    rewrite length_skipn, length_app. cbn [length]. lia. }
  split.
  { unfold tb_drop, tb_push. cbn [time_buffer]. fold times.
    rewrite tl_skipn. unfold popped_by_append. fold cutoff. fold times.
    pose proof (skipn_count_stale_fresh cutoff Hsorted) as Hfresh.
    destruct (count_stale cutoff times) as [|n] eqn:En.
    - apply (Forall_skipn_of 1) in Hfresh. exact Hfresh.
    - exact Hfresh. }
  intro Hlen.
  unfold tb_len, tb_drop, tb_push in Hlen. cbn [time_buffer] in Hlen.
  rewrite length_skipn, length_app in Hlen. cbn [length] in Hlen.
  assert (Hn : (2 <= count_stale cutoff times)%nat).
  { unfold popped_by_append in Hlen, Hk. fold cutoff in Hlen, Hk. fold times in Hlen, Hk.
    lia. }
  unfold elapsed_time, tb_drop, tb_push. cbn [time_buffer]. fold times.
  unfold popped_by_append. fold cutoff. fold times.
  pose proof (count_stale_le cutoff times) as Hle.
  assert (Hlt : (count_stale cutoff times < length times)%nat).
  { apply (@count_stale_lt cutoff times time).
    - unfold times. apply in_or_app. right. left. reflexivity.
    - apply newest_not_stale. exact Ht. }
  destruct (nth_error times (Nat.pred (count_stale cutoff times))) as [t0|] eqn:Et0;
    [| apply nth_error_None in Et0; lia].
  assert (Hstale : stale cutoff t0 = true).
  { apply (@count_stale_prefix cutoff times (Nat.pred (count_stale cutoff times)));
      [lia | exact Et0]. }
  assert (Hlast : last (skipn (Nat.pred (count_stale cutoff times)) times) 0 = time).
  { rewrite last_skipn by lia. unfold times. apply last_last. }
  pose proof (hd_skipn (Nat.pred (count_stale cutoff times)) times) as Hhd.
  rewrite Et0 in Hhd.
  destruct (skipn (Nat.pred (count_stale cutoff times)) times) as [|u [|u1 rest]] eqn:Esk.
  - discriminate.
  - apply (f_equal (@length Qc)) in Esk. rewrite length_skipn in Esk.
    cbn [length] in Esk. lia.
  - cbn [hd_error] in Hhd. injection Hhd as ->.
    rewrite CCDProps.last_shift in Hlast.
    assert (Hl1 : last rest u1 = time).
    { rewrite <- Hlast. symmetry. apply CCDProps.last_shift. }
    rewrite Hl1. unfold stale, cutoff in Hstale.
    destruct (tb_target_elapsed_time b) as [| q |]; simpl in Hstale |- *;
      try congruence.
    apply Qcltb_lt. apply Qcltb_lt in Hstale.
    apply Qclt_minus_iff. apply Qclt_minus_iff in Hstale.
    replace (time - t0 + - q) with (time - q + - t0) by ring. exact Hstale.
Qed.


Lemma skipn_count_stale_filter (cutoff : xnum) (times : list Qc) :
  StronglySorted Qcle times ->
  skipn (count_stale cutoff times) times
  = filter (fun t => negb (stale cutoff t)) times.
Proof.
  induction 1 as [|t times Hs IH Hall]; simpl; [reflexivity|].
  unfold xleb. fold (stale cutoff t).
  destruct (stale cutoff t) eqn:E; simpl; [exact IH|].
  f_equal. clear IH Hs.
  induction times as [|t' times IH]; simpl; [reflexivity|].
  inversion Hall as [|? ? Hle Hrest]; subst.
  rewrite (stale_mono cutoff Hle E). simpl. f_equal. apply IH. assumption.
Qed.

(** X5: called with [keep_one_before=False], [remove_old_samples] never
    raises and leaves exactly the entries inside the window, those whose time
    is not below [newest_time - target_elapsed_time]; the newest entry is
    always one of them. *)
Theorem tb_remove_old_samples_strict (b : TimedBuffer A) :
  tb_inv b ->
  let cutoff := xsub (newest_time b) (tb_target_elapsed_time b) in
  exists b',
    tb_remove_old_samples false b = Ok b'
    /\ time_buffer b' = filter (fun t => negb (stale cutoff t)) (time_buffer b)
    /\ sample_buffer b'
       = skipn (length (time_buffer b) - length (time_buffer b')) (sample_buffer b)
    /\ newest_time b' = newest_time b
    /\ newest_sample b' = newest_sample b
    /\ tb_inv b'.
Proof.
  intros Hinv cutoff. pose proof Hinv as (Hwf & Hs & Hpos & Ht).
  rewrite tb_remove_old_samples_spec by assumption.
  set (k := Z.to_nat (num_to_pop false (tb_target_elapsed_time b) (time_buffer b))).
  exists (tb_drop k b). split; [reflexivity|].
  assert (Hk : k = count_stale cutoff (time_buffer b)).
  { unfold k, num_to_pop, cutoff, newest_time.
    destruct (time_buffer b); [reflexivity | lia]. }
  assert (Hcase : k = O \/ (k < length (time_buffer b))%nat).
  { destruct (time_buffer b) as [|t rest] eqn:Et.
    - left. rewrite Hk. reflexivity.
    - right. unfold k. apply num_to_pop_lt; [assumption | discriminate]. }
  assert (Htimes : time_buffer (tb_drop k b)
                   = filter (fun t => negb (stale cutoff t)) (time_buffer b)).
  { cbn [tb_drop time_buffer]. rewrite Hk.
    apply skipn_count_stale_filter. assumption. }
  split; [exact Htimes|].
  split.
  { cbn [tb_drop time_buffer sample_buffer].
    rewrite length_skipn. f_equal.
    pose proof (count_stale_le cutoff (time_buffer b)). lia. }
  destruct Hcase as [H0 | Hlt].
  - rewrite H0, tb_drop_0. auto.
  - split; [apply newest_time_drop; exact Hlt|].
    split; [apply newest_sample_drop; assumption|].
    apply tb_drop_inv. exact Hinv.
Qed.

(** X6: the [target_elapsed_time] setter refuses a negative value with
    [ValueError]; any other value is stored, and the eviction that follows
    drops entries from the old end only and never the newest one, so a buffer
    that held something still holds its newest time and sample. *)
Theorem tb_set_target_keeps_newest (b : TimedBuffer A) (val : xnum) :
  tb_wf b ->
  (xltb val (Fin 0) = true -> tb_set_target_elapsed_time b val = Raise ValueError)
  /\ (xltb val (Fin 0) = false ->
      exists b' k,
        tb_set_target_elapsed_time b val = Ok b'
        /\ tb_target_elapsed_time b' = val
        /\ time_buffer b' = skipn k (time_buffer b)
        /\ sample_buffer b' = skipn k (sample_buffer b)
        /\ (k <= Nat.pred (tb_len b))%nat
        /\ newest_time b' = newest_time b
        /\ newest_sample b' = newest_sample b).
Proof.
  intro Hwf. unfold tb_set_target_elapsed_time. split; intro Hval; rewrite Hval.
  - reflexivity.
  - assert (Hwf' : tb_wf (tb_with_target b val)) by exact Hwf.
    rewrite tb_remove_old_samples_spec by exact Hwf'.
    set (k := Z.to_nat (num_to_pop true (tb_target_elapsed_time (tb_with_target b val))
                          (time_buffer (tb_with_target b val)))).
    exists (tb_drop k (tb_with_target b val)), k.
    assert (Hcase : k = O \/ (k < length (time_buffer b))%nat).
    { destruct (time_buffer b) as [|t rest] eqn:Et.
      - left. unfold k. cbn [tb_with_target time_buffer]. rewrite Et. reflexivity.
      - right. unfold k. cbn [tb_with_target time_buffer tb_target_elapsed_time].
        rewrite Et. apply num_to_pop_lt; [exact Hval | discriminate]. }
    split; [reflexivity|]. split; [reflexivity|]. split; [reflexivity|].
    split; [reflexivity|].
    split; [unfold tb_len; lia|].
    destruct Hcase as [H0 | Hlt].
    + rewrite H0, tb_drop_0. split; reflexivity.
    + split.
      * rewrite newest_time_drop by exact Hlt. reflexivity.
      * rewrite newest_sample_drop by assumption. reflexivity.
Qed.

End Extras.

Lemma strict_buffer_inv : tb_inv strict_buffer.
Proof.
  split; [reflexivity|]. split; [repeat constructor|].
  split; [|reflexivity]. repeat constructor. apply Qcle_refl.
Qed.

Lemma strict_buffer_after_inv : tb_inv strict_buffer_after.
Proof.
  assert (H : 0 <= zq 5) by (apply Qcleb_le; reflexivity).
  split; [reflexivity|]. split; [repeat constructor; exact H|].
  split; [|reflexivity]. repeat constructor; [apply Qcle_refl | exact H].
Qed.

Lemma tb_invariant_kept_witness :
  tb_init Qc (Fin 1) false = Ok (tb_reset strict_buffer)
  /\ tb_inv (fold_left (@tb_step Qc)
               [TbAppend 0 (zq 10); TbAppend (zq 5) (zq 20); TbAppend 1 1;
                TbPopleft Qc; TbSetTarget Qc (Fin (zq 3)); TbRemoveOld Qc false]
               (tb_reset strict_buffer)).
Proof.
  split; [reflexivity|].
  apply (@tb_invariant_kept Qc (Fin 1) false). reflexivity.
Defined.

Lemma tb_append_window_witness :
  tb_inv strict_buffer
  /\ tb_append strict_buffer (zq 5) (zq 20) = Ok strict_buffer_after
  /\ newest_time strict_buffer_after = zq 5
  /\ newest_sample strict_buffer_after = Some (zq 20)
  /\ (1 <= tb_len strict_buffer_after <= S (tb_len strict_buffer))%nat
  /\ Forall (fun t => stale (xsub (zq 5) (tb_target_elapsed_time strict_buffer)) t = false)
            (tl (time_buffer strict_buffer_after))
  /\ ((tb_len strict_buffer_after <= tb_len strict_buffer)%nat ->
      xltb (tb_target_elapsed_time strict_buffer)
           (Fin (elapsed_time strict_buffer_after)) = true).
Proof.
  split; [exact strict_buffer_inv|]. split; [reflexivity|].
  apply (@tb_append_window Qc strict_buffer strict_buffer_after (zq 5) (zq 20)).
  - exact strict_buffer_inv.
  - reflexivity.
Defined.

Lemma tb_remove_old_samples_strict_witness :
  tb_inv strict_buffer_after
  /\ exists b',
       tb_remove_old_samples false strict_buffer_after = Ok b'
       /\ time_buffer b'
          = filter (fun t => negb (stale (Fin (zq 4)) t)) (time_buffer strict_buffer_after)
       /\ sample_buffer b'
          = skipn (length (time_buffer strict_buffer_after) - length (time_buffer b'))
              (sample_buffer strict_buffer_after)
       /\ newest_time b' = newest_time strict_buffer_after
       /\ newest_sample b' = newest_sample strict_buffer_after
       /\ tb_inv b'.
Proof.
  split; [exact strict_buffer_after_inv|].
  apply (@tb_remove_old_samples_strict Qc strict_buffer_after).
  exact strict_buffer_after_inv.
Defined.

Lemma tb_set_target_keeps_newest_witness :
  tb_wf strict_buffer_after
  /\ (xltb (Fin 0) (Fin 0) = true ->
      tb_set_target_elapsed_time strict_buffer_after (Fin 0) = Raise ValueError)
  /\ (xltb (Fin 0) (Fin 0) = false ->
      exists b' k,
        tb_set_target_elapsed_time strict_buffer_after (Fin 0) = Ok b'
        /\ tb_target_elapsed_time b' = Fin 0
        /\ time_buffer b' = skipn k (time_buffer strict_buffer_after)
        /\ sample_buffer b' = skipn k (sample_buffer strict_buffer_after)
        /\ (k <= Nat.pred (tb_len strict_buffer_after))%nat
        /\ newest_time b' = newest_time strict_buffer_after
        /\ newest_sample b' = newest_sample strict_buffer_after).
Proof.
  split; [reflexivity|].
  apply (@tb_set_target_keeps_newest Qc strict_buffer_after (Fin 0)). reflexivity.
Defined.

End TimedBufferExtras.

Module MonitorExtras.
Import StationaryVelocity.

Lemma filtered_resets_through_base (S : Type)
    (calc : FilteredMonitor S -> message -> result (option Qc * FilteredMonitor S)) :
  resets_through_base
    {| calculate_metric := calc;
       compare_metric := @base_compare_metric bool (FilteredAttrs S);
       verify_message := @base_verify_message Qc bool (FilteredAttrs S);
       reset := @filtered_reset S;
       py_False := false |}.
Proof. split; [|split]; reflexivity. Qed.

Lemma sv_resets_through_base : resets_through_base sv_class.
Proof. apply filtered_resets_through_base. Qed.

Lemma ccd_resets_through_base : resets_through_base CCD.ccd_class.
Proof. split; [|split]; reflexivity. Qed.

Lemma cr_resets_through_base : resets_through_base ClockRate.cr_class.
Proof. split; [|split]; reflexivity. Qed.

(** X7: for a class that keeps the base [verify_message] and resets through
    [Monitor.reset], a message that is accepted [monitor_timeout] or more
    after the last accepted one is handled exactly as if [reset()] had been
    called just before [update]: same return value (or exception) and same
    monitor afterwards. *)
Theorem update_after_timeout_is_reset_then_update (M B S : Type)
    (cls : MonitorClass M B S) (m : Monitor M B S) (msg : message) (time : Qc) :
  resets_through_base cls ->
  verify_message cls m msg = true ->
  rxTime msg = Some time ->
  timeout_fires m time = true ->
  update cls m msg = update cls (reset cls m) msg.
Proof.
  intros (Hver & Hlast & Hid) Hv Ht Hfire.
  assert (Hv' : verify_message cls (reset cls m) msg = true).
  { rewrite Hver in Hv |- *. unfold base_verify_message in Hv |- *.
    rewrite Ht in Hv |- *. rewrite Hlast, Hid.
    destruct (validity msg) as [valid|]; [|discriminate].
    destruct (msg_receiver_id msg) as [receiver|]; [|discriminate].
    destruct (negb valid); [discriminate|].
    destruct (negb (receiver_id_eqb (Some receiver) (receiver_id m)));
      [discriminate | reflexivity]. }
  unfold update. rewrite Hv, Hv', Ht. cbn [negb getitem bind].
  unfold timeout_fires in Hfire.
  destruct (monitor_timeout m) as [timeout|]; [|discriminate].
  destruct (last_event_time m) as [last|]; [|discriminate].
  rewrite Hfire, Hlast.
  destruct (monitor_timeout (reset cls m)); reflexivity.
Qed.

Lemma update_after_timeout_is_reset_then_update_witness :
  resets_through_base sv_class
  /\ verify_message sv_class sv_monitor_flagged late_message = true
  /\ rxTime late_message = Some (zq 20)
  /\ timeout_fires sv_monitor_flagged (zq 20) = true
  /\ update sv_class sv_monitor_flagged late_message
     = update sv_class (reset sv_class sv_monitor_flagged) late_message.
Proof.
  split; [exact sv_resets_through_base|].
  split; [reflexivity|]. split; [reflexivity|]. split; [reflexivity|].
  apply (@update_after_timeout_is_reset_then_update _ _ _ sv_class
           sv_monitor_flagged late_message (zq 20)).
  - exact sv_resets_through_base.
  - reflexivity.
  - reflexivity.
  - reflexivity.
Defined.


Lemma Qcabs_nonneg (x : Qc) : 0 <= Qcabs x.
Proof.
  unfold Qcabs. destruct (Qcltb x 0) eqn:E.
  - apply Qcltb_lt in E. apply Qclt_le_weak.
    apply Qclt_minus_iff. replace (- x + - 0) with (0 + - x) by ring.
    apply Qclt_minus_iff in E. exact E.
  - apply Qcltb_ge in E. exact E.
Qed.

(** X8: after the threshold setter has been given [thr], of either sign, an
    accepted message with a three-component velocity raises the raw spoofing
    flag exactly when the squared speed exceeds the absolute value of [thr];
    the metric stored is the squared speed, and a receiver reporting zero
    velocity never raises the flag. *)
Theorem sv_flag_is_squared_speed_test (m : StationaryVelocityMonitor) (msg : message)
    (thr vx vy vz : Qc) :
  base_verify_message m msg = true ->
  ecef_velocity msg = Some [vx; vy; vz] ->
  fifo_ok (detections (attrs m)) ->
  (1 <= fifo_maxlen (detections (attrs m)))%nat ->
  exists alarm m',
    sv_update (sv_set_threshold m thr) msg = Ok (Some alarm, m')
    /\ spoofing_flag (attrs m') = Qcltb (Qcabs thr) (vx * vx + vy * vy + vz * vz)
    /\ st_metric (status m') = Some (vx * vx + vy * vy + vz * vz)
    /\ (vx = 0 -> vy = 0 -> vz = 0 -> spoofing_flag (attrs m') = false).
Proof.
  intros Hv Hvel Hok Hmax.
  pose proof (@CnoProps.verified_has_time _ _ _ m msg Hv) as [time Ht].
  set (m0 := sv_set_threshold m thr).
  assert (Hv0 : verify_message sv_class m0 msg = true) by exact Hv.
  unfold sv_update, filtered_update, update. rewrite Hv0, Ht.
  cbn [negb getitem bind].
  set (m1 := match monitor_timeout m0, last_event_time m0 with
             | Some timeout, Some last =>
                 if Qcleb timeout (time - last) then reset sv_class m0 else m0
             | _, _ => m0
             end).
  assert (Hthr : threshold m1 = Fin (Qcabs thr)).
  { unfold m1. destruct (monitor_timeout m0); [|reflexivity].
    destruct (last_event_time m0); [|reflexivity].
    destruct (Qcleb _ _); reflexivity. }
  assert (Hdet : fifo_ok (detections (attrs m1))
                 /\ (1 <= fifo_maxlen (detections (attrs m1)))%nat).
  { unfold m1. destruct (monitor_timeout m0); [|split; assumption].
    destruct (last_event_time m0); [|split; assumption].
    destruct (Qcleb _ _); [|split; assumption].
    split; [split; simpl; [reflexivity | lia] | exact Hmax]. }
  destruct Hdet as [Hok1 Hmax1].
  clearbody m1.
  cbn [calculate_metric sv_class]. unfold sv_calculate_metric.
  cbn [with_last_event_time]. rewrite Hvel. cbn [length Nat.eqb negb bind map fold_left].
  cbn [compare_metric sv_class with_status attrs status st_threshold].
  set (speed2 := 0 + vx * vx + vy * vy + vz * vz).
  assert (Hs : speed2 = vx * vx + vy * vy + vz * vz) by (unfold speed2; ring).
  set (flag := base_compare_metric _ speed2).
  assert (Hflag : flag = Qcltb (Qcabs thr) speed2).
  { unfold flag, base_compare_metric, with_last_event_time. cbn [threshold].
    rewrite Hthr. reflexivity. }
  rewrite Hs in Hflag.
  destruct (@FIFOFacts.fifo_append_ok (detections (attrs m1)) (int_of_bool flag))
    as (d & Happ & _); [lia | exact Hok1 |].
  change (attrs (with_last_event_time m1 (Some time))) with (attrs m1).
  rewrite Happ. cbn [bind].
  clearbody flag speed2.
  destruct (Qcleb _ (fifo_sum d)); eexists; eexists; (split; [reflexivity|]);
    (split; [exact Hflag|]); (split; [exact (f_equal Some Hs)|]);
    intros -> -> ->; change (flag = false); rewrite Hflag; apply Qcltb_ge;
    replace (0 * 0 + 0 * 0 + 0 * 0) with 0 by ring; apply Qcabs_nonneg.
Qed.

Lemma sv_flag_is_squared_speed_test_witness :
  exists alarm m',
    sv_update (sv_set_threshold sv_monitor (- (1))) fast_message = Ok (Some alarm, m')
    /\ spoofing_flag (attrs m') = Qcltb (Qcabs (- (1))) (zq 2 * zq 2 + 0 * 0 + 0 * 0)
    /\ st_metric (status m') = Some (zq 2 * zq 2 + 0 * 0 + 0 * 0)
    /\ (zq 2 = 0 -> 0 = 0 -> 0 = 0 -> spoofing_flag (attrs m') = false).
Proof.
  apply (@sv_flag_is_squared_speed_test sv_monitor fast_message (- (1)) (zq 2) 0 0).
  - reflexivity.
  - reflexivity.
  - split; simpl; [reflexivity | lia].
  - simpl. lia.
Defined.

End MonitorExtras.

Module ClockRateProps.
Import ClockRate TimedBufferFacts TimedBufferProps TimedBufferExtras.

Lemma tb_popleft_drop (A : Type) (b : TimedBuffer A) :
  tb_wf b -> time_buffer b <> [] -> tb_popleft b = Ok (tb_drop 1 b).
Proof.
  unfold tb_wf, tb_popleft, tb_drop. intros Hwf Hne.
  destruct (time_buffer b) as [|t ts]; [congruence|].
  destruct (sample_buffer b) as [|s ss]; [simpl in Hwf; lia|]. reflexivity.
Qed.

Lemma tb_drop_drop (A : Type) (b : TimedBuffer A) (j k : nat) :
  tb_drop j (tb_drop k b) = tb_drop (j + k) b.
Proof. unfold tb_drop. simpl. rewrite !skipn_skipn. reflexivity. Qed.

(** The span of a buffer whose entries all lie inside a window of width [q]
    ending at its newest time is at most [q]. *)
Lemma elapsed_fresh_bound (A : Type) (b : TimedBuffer A) (time q : Qc) :
  0 <= q -> newest_time b = time ->
  Forall (fun t => stale (xsub time (Fin q)) t = false) (time_buffer b) ->
  elapsed_time b <= q.
Proof.
  intros Hq Hnew Hall. unfold elapsed_time. unfold newest_time in Hnew.
  destruct (time_buffer b) as [|t0 [|t1 rest]]; [exact Hq | exact Hq |].
  inversion Hall as [|? ? Hfresh _]; subst.
  unfold stale in Hfresh. simpl in Hfresh. apply Qcltb_ge in Hfresh.
  cbn [last] in Hfresh |- *.
  set (tn := last rest t1) in *.
  change (match rest with [] => t1 | _ :: _ => last rest t0 end) with (last (t1 :: rest) t0) in Hfresh.
  rewrite CCDProps.last_shift in Hfresh. fold tn in Hfresh.
  apply Qcle_minus_iff. apply Qcle_minus_iff in Hfresh.
  replace (q + - (tn - t0)) with (t0 + - (tn - q)) by ring. exact Hfresh.
Qed.


Lemma oldest_sample_some (A : Type) (b : TimedBuffer A) :
  tb_wf b -> time_buffer b <> [] -> exists s, oldest_sample b = Some s.
Proof.
  unfold tb_wf, oldest_sample. intros Hwf Hne.
  destruct (time_buffer b) as [|t ts]; [congruence|].
  destruct (sample_buffer b) as [|s ss]; [simpl in Hwf; lia|].
  exists s. reflexivity.
Qed.

(** One [update] with a clock rate, on a monitor that satisfies [cr_inv]. *)
Lemma cr_update_step (m : ClockRateMonitor) (msg : message) (time rate : Qc) :
  cr_inv m ->
  base_verify_message m msg = true ->
  rxTime msg = Some time ->
  0 <= time ->
  clock_rate msg = Some rate ->
  exists (s0 : TimedBuffer Qc) (k : nat),
    (s0 = cr_samples (attrs m) \/ s0 = tb_reset (cr_samples (attrs m)))
    /\ (k <= length (time_buffer s0))%nat
    /\ let s' := tb_drop k (tb_push s0 time rate) in
       tb_inv s'
       /\ newest_time s' = time
       /\ newest_sample s' = Some rate
       /\ elapsed_time s' <= cr_max_delta_t (attrs m)
       /\ cr_outcome m time rate s' (cr_update m msg).
Proof.
  intros (Hinv & (min_dt & Hmin & Hle) & Hmax & Hnew) Hv Ht Htime Hrate.
  unfold cr_update, update.
  change (verify_message cr_class m msg) with (base_verify_message m msg).
  rewrite Hv, Ht. cbn [negb getitem bind].
  set (m1 := match monitor_timeout m, last_event_time m with
             | Some timeout, Some last =>
                 if Qcleb timeout (time - last) then reset cr_class m else m
             | _, _ => m
             end).
  set (s0 := cr_samples (attrs m1)).
  assert (Hm1 : (m1 = m \/ m1 = cr_reset m)).
  { unfold m1. destruct (monitor_timeout m); [|left; reflexivity].
    destruct (last_event_time m); [|left; reflexivity].
    destruct (Qcleb _ _); [right | left]; reflexivity. }
  assert (Hs0 : s0 = cr_samples (attrs m) \/ s0 = tb_reset (cr_samples (attrs m))).
  { unfold s0. destruct Hm1 as [-> | ->]; [left | right]; reflexivity. }
  assert (Hinv0 : tb_inv s0).
  { destruct Hs0 as [-> | ->]; [exact Hinv|].
    exact (@tb_apply_inv Qc _ _ (TbReset Qc) Hinv eq_refl). }
  assert (Htarget : tb_target_elapsed_time s0 = Fin min_dt).
  { destruct Hs0 as [-> | ->]; exact Hmin. }
  assert (Hmaxdt : cr_max_delta_t (attrs m1) = cr_max_delta_t (attrs m)).
  { destruct Hm1 as [-> | ->]; reflexivity. }
  assert (Hthr : threshold m1 = threshold m).
  { destruct Hm1 as [-> | ->]; reflexivity. }
  assert (Hnewest : newest_time s0 <= time).
  { destruct Hs0 as [-> | ->]; [|exact Htime].
    destruct Hnew as [[Hempty _] | (last & Hlast & Hn)].
    - unfold newest_time. rewrite Hempty. exact Htime.
    - eapply Qcle_trans; [exact Hn|].
      unfold base_verify_message in Hv. rewrite Ht, Hlast in Hv.
      destruct (validity msg) as [valid|]; [|discriminate].
      destruct (msg_receiver_id msg) as [receiver|]; [|discriminate].
      destruct (negb valid); [discriminate|].
      destruct (negb _); [discriminate|].
      destruct (Qcltb time last) eqn:E; [discriminate|].
      apply Qcltb_ge. exact E. }
  assert (Hq : 0 <= min_dt).
  { destruct Hinv0 as (_ & _ & _ & Hnn). rewrite Htarget in Hnn.
    apply Qcltb_ge. exact Hnn. }
  clearbody m1.
  cbn [calculate_metric cr_class]. unfold cr_calculate_metric.
  rewrite Hrate.
  change (rxTime msg) with (rxTime msg). rewrite Ht. cbn [getitem bind].
  change (attrs (with_last_event_time m1 (Some time))) with (attrs m1).
  fold s0.
  destruct (tb_append s0 time rate) as [s1|e] eqn:Happ.
  2:{ exfalso. pose proof Hinv0 as (Hwf0 & _).
      rewrite tb_append_spec in Happ by exact Hwf0.
      apply Qcltb_ge in Hnewest. rewrite Hnewest in Happ. discriminate. }
  destruct (@tb_append_shape Qc s0 s1 time rate Hinv0 Happ)
    as (_ & k & Hs1 & Hk & Hfresh).
  cbn [bind].
  assert (Hpushinv : tb_inv (tb_push s0 time rate)).
  { apply tb_push_inv; assumption. }
  rewrite Htarget in Hfresh.
  (* the single pop *)
  assert (Hpop : exists k',
             (k' <= length (time_buffer s0))%nat
             /\ (if Qcltb (cr_max_delta_t (attrs m1)) (elapsed_time s1)
                 then tb_popleft s1 else Ok s1)
                = Ok (tb_drop k' (tb_push s0 time rate))
             /\ elapsed_time (tb_drop k' (tb_push s0 time rate))
                <= cr_max_delta_t (attrs m)).
  { rewrite Hmaxdt.
    destruct (Qcltb (cr_max_delta_t (attrs m)) (elapsed_time s1)) eqn:E.
    - destruct (@CCDProps.elapsed_exceeds Qc s1 (cr_max_delta_t (attrs m)))
        as (t0 & t1 & rest & Hts); [apply Qclt_le_weak; exact Hmax | exact E |].
      assert (Hlen : (S k <= length (time_buffer s0))%nat).
      { rewrite Hs1 in Hts. cbn [tb_drop tb_push time_buffer] in Hts.
        apply (f_equal (@length Qc)) in Hts.
        rewrite length_skipn, length_app in Hts. cbn [length] in Hts. lia. }
      exists (S k). split; [exact Hlen|]. split.
      + rewrite tb_popleft_drop.
        * rewrite Hs1, tb_drop_drop. reflexivity.
        * rewrite Hs1. apply tb_drop_wf. apply Hpushinv.
        * rewrite Hts. discriminate.
      + apply Qcle_trans with (y := min_dt); [|exact Hle].
        apply (@elapsed_fresh_bound Qc _ time min_dt Hq).
        * apply CCDProps.newest_time_drop_push. exact Hlen.
        * exact Hfresh.
    - exists k. split; [exact Hk|]. split; [rewrite Hs1; reflexivity|].
      apply Qcltb_ge in E. rewrite <- Hs1. exact E. }
  destruct Hpop as (k' & Hk' & Hpopeq & Hbound).
  rewrite Hpopeq. cbn [bind].
  exists s0, k'. split; [exact Hs0|]. split; [exact Hk'|].
  set (s' := tb_drop k' (tb_push s0 time rate)) in *.
  assert (Hinv' : tb_inv s') by (apply tb_drop_inv; exact Hpushinv).
  assert (Hnew' : newest_time s' = time)
    by (apply CCDProps.newest_time_drop_push; exact Hk').
  assert (Hns : newest_sample s' = Some rate).
  { unfold s'. rewrite newest_sample_drop.
    - apply newest_sample_push.
    - apply Hpushinv.
    - cbn [tb_push time_buffer]. rewrite length_app. cbn [length]. lia. }
  cbv zeta.
  split; [exact Hinv'|]. split; [exact Hnew'|]. split; [exact Hns|].
  split; [exact Hbound|].
  assert (Hne : time_buffer s' <> []).
  { unfold s'. cbn [tb_drop tb_push time_buffer]. intro H.
    apply (f_equal (@length Qc)) in H.
    rewrite length_skipn, length_app in H. cbn [length] in H. lia. }
  destruct (@oldest_sample_some Qc s' (proj1 Hinv') Hne) as [oldest Hold].
  assert (Htarget' : tb_target_elapsed_time s' = Fin min_dt) by exact Htarget.
  assert (Hleft : forall st,
             cr_left m (with_status (with_samples (with_last_event_time m1 (Some time)) s') st)
                     time s').
  { intro st. split; [|split; [reflexivity | split; [exact Hmaxdt | split;
                                  [exact Hthr | reflexivity]]]].
    split; [exact Hinv'|]. split.
    { exists min_dt. split; [exact Htarget'|].
      cbn [with_status with_samples with_attrs attrs cr_max_delta_t
           with_last_event_time]. rewrite Hmaxdt. exact Hle. }
    split.
    { cbn [with_status with_samples with_attrs attrs cr_max_delta_t
           with_last_event_time]. rewrite Hmaxdt. exact Hmax. }
    right. exists time. split; [reflexivity|].
    cbn [with_status with_samples with_attrs attrs cr_samples].
    rewrite Hnew'. apply Qcle_refl. }
  unfold cr_outcome.
  destruct (xltb (Fin (elapsed_time s')) (tb_target_elapsed_time s')) eqn:Eel.
  - left. split; [reflexivity|].
    eexists. split; [reflexivity|].
    pose proof (Hleft (status (with_samples (with_last_event_time m1 (Some time)) s'))) as H.
    exact H.
  - right. rewrite Hns, Hold.
    destruct (Qceqb (elapsed_time s') 0) eqn:Ez.
    + left. split; [reflexivity|]. split; [apply Qceqb_eq; exact Ez | reflexivity].
    + right. split; [reflexivity|]. split.
      { intro H. apply Qceqb_eq in H. congruence. }
      cbn [bind]. eexists. exists oldest. split; [reflexivity|].
      split.
      { cbn [compare_metric cr_class]. unfold base_compare_metric.
        cbn [with_samples with_attrs with_last_event_time threshold].
        rewrite Hthr. reflexivity. }
      split; [reflexivity|]. apply Hleft.
Qed.



Lemma Qcabs_mult_pos (a d : Qc) : 0 < d -> Qcabs (a * d) = Qcabs a * d.
Proof.
  intro Hd. unfold Qcabs.
  destruct (Qcltb a 0) eqn:Ea.
  - apply Qcltb_lt in Ea.
    assert (H : a * d < 0).
    { replace 0 with (0 * d) by ring. apply Qcmult_lt_compat_r; assumption. }
    apply Qcltb_lt in H. rewrite H. ring.
  - apply Qcltb_ge in Ea.
    assert (H : 0 <= a * d).
    { replace 0 with (0 * d) at 1 by ring.
      apply Qcmult_le_compat_r; [exact Ea | apply Qclt_le_weak; exact Hd]. }
    apply Qcltb_ge in H. rewrite H. reflexivity.
Qed.


Lemma skipn_map (X Y : Type) (f : X -> Y) (k : nat) (l : list X) :
  skipn k (map f l) = map f (skipn k l).
Proof.
  revert l. induction k as [|k IH]; intros [|x l]; simpl; try reflexivity.
  apply IH.
Qed.


Lemma cr_init_inv (receiver : string) (timeout : option Qc) (thr min_dt max_dt : Qc)
    (m : ClockRateMonitor) :
  cr_init receiver timeout thr min_dt max_dt = Ok m ->
  cr_inv m /\ cr_min_delta_t (attrs m) = Fin min_dt
  /\ time_buffer (cr_samples (attrs m)) = [].
Proof.
  unfold cr_init, tb_init. intro H.
  destruct (Qcleb thr 0); [discriminate|].
  destruct (Qcltb max_dt min_dt) eqn:E1; [discriminate|].
  destruct (xltb (Fin min_dt) (Fin 0)) eqn:E2; [discriminate|].
  cbn [bind] in H.
  destruct (Qcleb max_dt 0) eqn:E3; [discriminate|].
  injection H as <-. split; [|split; reflexivity].
  split.
  { split; [reflexivity|]. split; [constructor|]. split; [constructor | exact E2]. }
  split.
  { exists min_dt. split; [reflexivity|]. apply Qcltb_ge. exact E1. }
  split.
  { apply Qcleb_gt. exact E3. }
  left. split; reflexivity.
Qed.

(** X11: the constructor accepts [min_delta_t = 0]; on the monitor it builds,
    the first accepted message that carries a clock rate (at a non-negative
    time) raises [ZeroDivisionError]: the one sample held spans no time, which
    is not less than [min_delta_t], and the metric divides by that span. *)
Theorem cr_zero_min_delta_t_raises (receiver : string) (timeout : option Qc)
    (thr max_dt : Qc) (m : ClockRateMonitor) (msg : message) (time rate : Qc) :
  cr_init receiver timeout thr 0 max_dt = Ok m ->
  base_verify_message m msg = true ->
  rxTime msg = Some time ->
  0 <= time ->
  clock_rate msg = Some rate ->
  cr_update m msg = Raise ZeroDivisionError.
Proof.
  intros Hinit Hv Ht Htime Hrate.
  destruct (cr_init_inv _ _ _ _ _ Hinit) as (Hinv & Hmin & Hempty).
  destruct (@cr_update_step m msg time rate Hinv Hv Ht Htime Hrate)
    as (s0 & k & Hs0 & Hk & Hinv' & Hnew & Hns & Hbound & Hout).
  assert (Hts0 : time_buffer s0 = []).
  { destruct Hs0 as [-> | ->]; [exact Hempty | reflexivity]. }
  rewrite Hts0 in Hk. cbn [length] in Hk.
  assert (Hk0 : k = O) by lia. subst k.
  assert (Hel : elapsed_time (tb_drop 0 (tb_push s0 time rate)) = 0).
  { unfold elapsed_time. cbn [tb_drop tb_push time_buffer skipn]. rewrite Hts0.
    reflexivity. }
  assert (Htarget : tb_target_elapsed_time (tb_drop 0 (tb_push s0 time rate)) = Fin 0).
  { destruct Hs0 as [-> | ->]; exact Hmin. }
  unfold cr_outcome in Hout. rewrite Hel, Htarget in Hout.
  destruct Hout as [(H & _) | [(_ & _ & Hres) | (_ & Hnz & _)]].
  - discriminate.
  - exact Hres.
  - congruence.
Qed.


Lemma cr_monitor_built :
  cr_init "rx"%string (Some (zq 10)) 1 (zq 2) (zq 3) = Ok cr_monitor.
Proof. reflexivity. Qed.

Lemma cr_monitor_inv : cr_inv cr_monitor.
Proof. exact (proj1 (cr_init_inv _ _ _ _ _ cr_monitor_built)). Qed.



Lemma cr_zero_min_delta_t_raises_witness :
  cr_init "rx"%string (Some (zq 10)) 1 0 (zq 3) = Ok cr_monitor_zero
  /\ cr_update cr_monitor_zero (clock_rate_message 0 (zq 7)) = Raise ZeroDivisionError.
Proof.
  split; [reflexivity|].
  apply (@cr_zero_min_delta_t_raises "rx"%string (Some (zq 10)) 1 (zq 3) cr_monitor_zero
           (clock_rate_message 0 (zq 7)) (zq 0) (zq 7)).
  - reflexivity.
  - reflexivity.
  - reflexivity.
  - apply Qcle_refl.
  - reflexivity.
Defined.

(** [ClockRateMonitor('rx', threshold=1, min_delta_t=5, max_delta_t=5.1)]
    once the rates [t * t] have come at times 1 to 6; at time 7 the sample
    of time 1 is popped and the metric is [(49 - 4) / 5]. *)
Lemma cr_quadratic_example :
  let fed : ClockRateMonitor :=
    {| last_event_time := Some (zq 6);
       receiver_id := Some "rx"%string;
       monitor_timeout := Some (zq 10);
       threshold := Fin 1;
       status := {| st_alarm := true; st_threshold := Fin 1;
                    st_metric := Some (zq 7) |};
       attrs := {| cr_samples :=
                     {| time_buffer := [1; zq 2; zq 3; zq 4; zq 5; zq 6];
                        sample_buffer := [1; zq 4; zq 9; zq 16; zq 25; zq 36];
                        tb_target_elapsed_time := Fin (zq 5);
                        tb_keep_one := true |};
                   cr_max_delta_t := Q2Qc (51 # 10) |} |} in
  exists m',
    cr_update fed (clock_rate_message 7 (zq 49)) = Ok (Some true, m')
    /\ time_buffer (cr_samples (attrs m')) = [zq 2; zq 3; zq 4; zq 5; zq 6; zq 7]
    /\ st_metric (status m') = Some (zq 9).
Proof.
  eexists. split; [vm_compute; reflexivity|]. split; [reflexivity|].
  vm_compute. f_equal. apply Qc_is_canon. reflexivity.
Qed.

End ClockRateProps.

Module PositionProps.
Import StationaryPosition DualAntenna FilteredProps.

Lemma zq_of_nat_nonneg (n : nat) : 0 <= zq (Z.of_nat n).
Proof.
  induction n as [|n IH]; [apply Qcle_refl|].
  rewrite zq_succ. replace 0 with (0 + 0) by ring.
  apply Qcplus_le_compat; [|exact IH].
  apply Qcleb_le. reflexivity.
Qed.

Lemma zq_succ_neq_0 (n : nat) : zq (Z.of_nat n) + 1 <> 0.
Proof.
  intro H. pose proof (zq_of_nat_nonneg n) as Hn.
  assert (Hlt : 0 < zq (Z.of_nat n) + 1).
  { apply Qcle_lt_trans with (y := zq (Z.of_nat n)); [exact Hn|].
    apply Qclt_minus_iff.
    replace (zq (Z.of_nat n) + 1 + - zq (Z.of_nat n)) with 1 by ring.
    apply Qcltb_lt. reflexivity. }
  rewrite H in Hlt. exact (Qclt_not_eq _ _ Hlt eq_refl).
Qed.

Lemma zq_pos_neq_0 (n : nat) : (1 <= n)%nat -> zq (Z.of_nat n) <> 0.
Proof.
  destruct n as [|n]; [lia|]. intros _. rewrite zq_succ, Qcplus_comm.
  apply zq_succ_neq_0.
Qed.

Lemma Qc_1_neq_0 : (1 : Qc) <> 0.
Proof. intro H. apply Qceqb_eq in H. vm_compute in H. discriminate H. Qed.

Lemma vmean_singleton (p : vec3) : vmean [p] = p.
Proof.
  destruct p as [[x y] z]. unfold vmean, total.
  cbn [fold_left length s_add s_zero vec3_SampleOps vadd vzero vscale_div].
  change (zq (Z.of_nat 1)) with 1.
  f_equal; [f_equal|]; field; exact Qc_1_neq_0.
Qed.

(** The incremental update of [_update_average] keeps the arithmetic mean. *)
Lemma vmean_snoc (acc : list vec3) (p : vec3) :
  acc <> [] ->
  vadd (vmean acc) (vscale_div (vsub p (vmean acc)) (zq (Z.of_nat (length acc)) + 1))
  = vmean (acc ++ [p]).
Proof.
  intro Hne. unfold vmean.
  rewrite (@RunningSumFacts.total_snoc vec3 vec3_SampleOps acc p).
  rewrite length_app. cbn [length]. rewrite Nat.add_comm. cbn [Nat.add].
  rewrite zq_succ.
  assert (Hn : zq (Z.of_nat (length acc)) <> 0).
  { apply zq_pos_neq_0. destruct acc; [congruence | simpl; lia]. }
  pose proof (zq_succ_neq_0 (length acc)) as Hn1.
  set (n := zq (Z.of_nat (length acc))) in *.
  destruct (@total vec3 vec3_SampleOps acc) as [[sx sy] sz].
  destruct p as [[px p_y] pz].
  cbn [vscale_div vsub vadd s_add vec3_SampleOps].
  assert (Hn1' : 1 + n <> 0) by (rewrite Qcplus_comm; exact Hn1).
  f_equal; [f_equal|]; field; auto.
Qed.


(** The timeout guard of [update], in terms of [timeout_fires]. *)
Lemma timeout_guard (M B S : Type) (cls : MonitorClass M B S) (m : Monitor M B S)
    (time : Qc) :
  match monitor_timeout m, last_event_time m with
  | Some timeout, Some last =>
      if Qcleb timeout (time - last) then reset cls m else m
  | _, _ => m
  end = if timeout_fires m time then reset cls m else m.
Proof.
  unfold timeout_fires.
  destruct (monitor_timeout m); [|reflexivity].
  destruct (last_event_time m); reflexivity.
Qed.

Section PositionSpec.

Variable sqrt : Qc -> Qc.

(** One [_calculate_metric] on a position, for a monitor that has accepted
    [acc]. *)
Lemma sp_calc_step (m : StationaryPositionMonitor) (msg : message) (position : vec3)
    (acc : list vec3) :
  sp_tracks acc m ->
  (1 <= num_init_samples (sub_attrs (attrs m)))%Z ->
  ecef_position msg = Some position ->
  let offset := norm sqrt (vsub position (vmean acc)) in
  exists metric m',
    sp_calculate_metric sqrt m msg = Ok (metric, m')
    /\ (m' = m \/ exists avg n, m' = with_average m avg n)
    /\ if (Z.of_nat (length acc) <? num_init_samples (sub_attrs (attrs m)))%Z
       then metric = None /\ sp_tracks (acc ++ [position]) m'
       else metric = Some offset
            /\ if Qcltb offset (rejection_threshold (sub_attrs (attrs m)))
               then sp_tracks (acc ++ [position]) m'
               else sp_tracks acc m'.
Proof.
  intros [Hnum Havg] Hinit Hpos offset. unfold sp_calculate_metric.
  rewrite Hpos, Hnum.
  assert (Hupd : acc <> [] ->
                 exists m', update_average m position = Ok m'
                            /\ (exists avg n, m' = with_average m avg n)
                            /\ sp_tracks (acc ++ [position]) m').
  { intro Hne. unfold update_average. rewrite (Havg Hne), Hnum.
    eexists. split; [reflexivity|]. split; [eexists; eexists; reflexivity|].
    split.
    - cbn [with_average with_sub with_attrs attrs sub_attrs num_accepted].
      rewrite length_app. cbn [length]. lia.
    - intros _.
      cbn [with_average with_sub with_attrs attrs sub_attrs average].
      f_equal. apply vmean_snoc. exact Hne. }
  destruct acc as [|p0 acc].
  - cbn [length Z.of_nat Z.eqb].
    assert (Hlt : (0 <? num_init_samples (sub_attrs (attrs m)))%Z = true)
      by (apply Z.ltb_lt; lia).
    rewrite Hlt.
    eexists. eexists. split; [reflexivity|].
    split; [right; eexists; eexists; reflexivity|].
    split; [reflexivity|]. split; [reflexivity|].
    intros _. cbn [app with_average with_sub with_attrs attrs sub_attrs average].
    rewrite vmean_singleton. reflexivity.
  - assert (Hne : p0 :: acc <> []) by discriminate.
    assert (Hnz : (Z.of_nat (length (p0 :: acc)) =? 0)%Z = false).
    { apply Z.eqb_neq. cbn [length]. lia. }
    rewrite Hnz.
    destruct (Hupd Hne) as (mu & Hmu & Hform & Htr).
    destruct (Z.of_nat (length (p0 :: acc)) <? num_init_samples (sub_attrs (attrs m)))%Z.
    + rewrite Hmu. cbn [bind]. exists None, mu.
      split; [reflexivity|]. split; [right; exact Hform|]. split; [reflexivity | exact Htr].
    + rewrite (Havg Hne). cbn [bind]. fold offset.
      destruct (Qcltb offset (rejection_threshold (sub_attrs (attrs m)))).
      * rewrite Hmu. cbn [bind]. exists (Some offset), mu.
        split; [reflexivity|]. split; [right; exact Hform|].
        split; [reflexivity | exact Htr].
      * cbn [bind]. exists (Some offset), m.
        split; [reflexivity|]. split; [left; reflexivity|].
        split; [reflexivity|]. split; assumption.
Qed.



End PositionSpec.

Lemma total_repeat (v : vec3) (n : nat) :
  @total vec3 vec3_SampleOps (repeat v n)
  = (zq (Z.of_nat n) * fst (fst v), zq (Z.of_nat n) * snd (fst v),
     zq (Z.of_nat n) * snd v).
Proof.
  induction n as [|n IH].
  - destruct v as [[x y] z]. unfold total.
    cbn [repeat fold_left s_zero vec3_SampleOps vzero Z.of_nat fst snd].
    change (zq 0) with 0.
    replace (0 * x) with 0 by ring. replace (0 * y) with 0 by ring.
    replace (0 * z) with 0 by ring. reflexivity.
  - cbn [repeat].
    rewrite (@RunningSumFacts.total_cons vec3 vec3_SampleOps DualProps.vec3_SampleLaws v (repeat v n)), IH.
    rewrite zq_succ. destruct v as [[x y] z].
    cbn [fst snd s_add vec3_SampleOps vadd].
    replace ((1 + zq (Z.of_nat n)) * x) with (zq (Z.of_nat n) * x + x) by ring.
    replace ((1 + zq (Z.of_nat n)) * y) with (zq (Z.of_nat n) * y + y) by ring.
    replace ((1 + zq (Z.of_nat n)) * z) with (zq (Z.of_nat n) * z + z) by ring.
    reflexivity.
Qed.

Lemma vmean_repeat (v : vec3) (n : nat) : (1 <= n)%nat -> vmean (repeat v n) = v.
Proof.
  intro Hn. unfold vmean. rewrite total_repeat, repeat_length.
  pose proof (zq_pos_neq_0 Hn) as Hz.
  destruct v as [[x y] z]. cbn [fst snd vscale_div].
  f_equal; [f_equal|]; field; exact Hz.
Qed.

(** X13: [hot_start_monitor(average, num_accepted)] raises [ValueError] and
    changes nothing unless [average] has three components and [num_accepted]
    is positive.  Otherwise it leaves the monitor as if it had accepted
    [num_accepted] positions all equal to [average]; the detection window,
    the thresholds and the last event time are untouched. *)
Theorem hot_start_is_repeated_average (m : StationaryPositionMonitor) (avg : list Qc)
    (n : Z) :
  match hot_start_monitor m avg n with
  | Ok m' =>
      exists x y z,
        avg = [x; y; z] /\ (0 < n)%Z
        /\ sp_tracks (repeat (x, y, z) (Z.to_nat n)) m'
        /\ m' = with_average m (Some (x, y, z)) n
  | Raise e => e = ValueError /\ (length avg <> 3%nat \/ (n <= 0)%Z)
  end.
Proof.
  unfold hot_start_monitor.
  destruct avg as [|x [|y [|z [|w rest]]]];
    try (split; [reflexivity | left; simpl; lia]).
  destruct (n <=? 0)%Z eqn:E.
  - apply Z.leb_le in E. split; [reflexivity | right; exact E].
  - apply Z.leb_gt in E. exists x, y, z.
    split; [reflexivity|]. split; [exact E|]. split; [|reflexivity].
    split.
    + cbn [with_average with_sub with_attrs attrs sub_attrs num_accepted].
      rewrite repeat_length. lia.
    + intros _. cbn [with_average with_sub with_attrs attrs sub_attrs average].
      rewrite vmean_repeat by lia. reflexivity.
Qed.


Lemma sp_monitor_built :
  sp_init "rx"%string (Some (zq 60)) (zq 3) 4 (zq 3) (zq 5) 4 = Ok sp_monitor.
Proof. reflexivity. Qed.


(** The fifth position of a receiver that reported [(0,0,0)] once and
    [(2,2,2)] three times, with [num_init_samples = 4]: the mean is
    [(3/2, 3/2, 3/2)] and the metric is the norm of [(1/2, 1/2, 1/2)], here
    with the identity in place of the square root. *)
Lemma sp_metric_example :
  let fed := with_average sp_monitor
               (Some (Q2Qc (3 # 2), Q2Qc (3 # 2), Q2Qc (3 # 2))) 4 in
  exists m',
    sp_update sqrt_stub fed (position_message 5 "rx" 2 2 2) = Ok (Some false, m')
    /\ st_metric (status m') = Some (Q2Qc (3 # 4))
    /\ num_accepted (sub_attrs (attrs m')) = 5%Z
    /\ average (sub_attrs (attrs m'))
       = Some (Q2Qc (8 # 5), Q2Qc (8 # 5), Q2Qc (8 # 5)).
Proof.
  eexists. split; [vm_compute; reflexivity|].
  split; [vm_compute; f_equal; apply Qc_is_canon; reflexivity|].
  split; [reflexivity|].
  vm_compute. do 2 f_equal; [f_equal|]; apply Qc_is_canon; reflexivity.
Qed.

End PositionProps.

Module CnoSpoofingProps.
Import CnoSpoofing.

Lemma cns_scan_passes (gnss_id sv_id : Z) (pre rest : list sv_data) :
  forallb (cns_passes gnss_id sv_id) pre = true ->
  cns_scan gnss_id sv_id (pre ++ rest) = cns_scan gnss_id sv_id rest.
Proof.
  induction pre as [|sv pre IH]; intro H; [reflexivity|].
  cbn [forallb] in H. apply andb_true_iff in H. destruct H as [Hsv Hpre].
  cbn [app cns_scan]. unfold cns_passes in Hsv.
  destruct (gnssId sv) as [g|]; [|discriminate]. cbn [getitem bind].
  destruct (g =? gnss_id)%Z; [|exact (IH Hpre)].
  destruct (svid sv) as [s|]; [|discriminate]. cbn [getitem bind].
  destruct (s =? sv_id)%Z; [discriminate | exact (IH Hpre)].
Qed.

(** X14: the [CnoSpoofingMonitor] reads the first entry of its channel and
    nothing after it: when the entries before it belong to other channels,
    an accepted message gives the [cno] of that entry as metric and
    [cno > threshold] as alarm, whatever its quality indicator and whatever
    follows it in the list; the ids the monitor tracks are never changed.
    When every entry belongs to another channel the update returns [None]. *)
Theorem cns_update_reads_first_match (m : CnoSpoofingMonitor) (msg : message)
    (pre post : list sv_data) (sv : sv_data) (c : Qc) :
  base_verify_message m msg = true ->
  forallb (cns_passes (cns_gnss_id (attrs m)) (cns_sv_id (attrs m))) pre = true ->
  gnssId sv = Some (cns_gnss_id (attrs m)) ->
  svid sv = Some (cns_sv_id (attrs m)) ->
  cno sv = Some c ->
  (svs msg = Some (pre ++ sv :: post) ->
   exists m',
     cns_update m msg = Ok (Some (xltb (threshold m) (Fin c)), m')
     /\ st_metric (status m') = Some c
     /\ st_alarm (status m') = xltb (threshold m) (Fin c)
     /\ attrs m' = attrs m
     /\ last_event_time m' = rxTime msg)
  /\ (svs msg = Some pre ->
      exists m',
        cns_update m msg = Ok (None, m')
        /\ attrs m' = attrs m
        /\ last_event_time m' = rxTime msg).
Proof.
  intros Hv Hpre Hg Hs Hc.
  pose proof (@CnoProps.verified_has_time _ _ _ m msg Hv) as [time Ht].
  split; intro Hsvs; unfold cns_update, update;
    change (verify_message cns_class m msg) with (base_verify_message m msg);
    rewrite Hv, Ht; cbn [negb getitem bind];
    set (m1 := match monitor_timeout m, last_event_time m with
               | Some timeout, Some last =>
                   if Qcleb timeout (time - last) then reset cns_class m else m
               | _, _ => m
               end);
    assert (Hguard : attrs m1 = attrs m /\ threshold m1 = threshold m)
      by (unfold m1; destruct (monitor_timeout m); [|split; reflexivity];
          destruct (last_event_time m); [|split; reflexivity];
          destruct (Qcleb _ _); split; reflexivity);
    destruct Hguard as [Hattrs Hthr]; clearbody m1;
    cbn [calculate_metric cns_class]; unfold cns_calculate_metric;
    rewrite Hsvs;
    change (attrs (with_last_event_time m1 (Some time))) with (attrs m1);
    rewrite Hattrs.
  - rewrite cns_scan_passes by exact Hpre.
    cbn [cns_scan]. rewrite Hg. cbn [getitem bind]. rewrite Z.eqb_refl.
    rewrite Hs. cbn [getitem bind]. rewrite Z.eqb_refl, Hc. cbn [getitem bind].
    cbn [compare_metric cns_class]. unfold base_compare_metric.
    change (threshold (with_last_event_time m1 (Some time))) with (threshold m1).
    rewrite Hthr. eexists. split; [reflexivity|].
    split; [reflexivity|]. split; [reflexivity|]. split; [exact Hattrs | reflexivity].
  - rewrite <- (app_nil_r pre), cns_scan_passes by exact Hpre.
    cbn [cns_scan bind]. eexists. split; [reflexivity|].
    split; [exact Hattrs | reflexivity].
Qed.

Lemma cns_update_reads_first_match_witness :
  (exists m',
     cns_update cns_monitor
       (svs_message 1 ([sv_entry 1 1 12 5] ++ sv_entry 0 1 41 2 :: [sv_entry_no_cno]))
     = Ok (Some (xltb (threshold cns_monitor) (Fin (zq 41))), m')
     /\ st_metric (status m') = Some (zq 41)
     /\ st_alarm (status m') = xltb (threshold cns_monitor) (Fin (zq 41))
     /\ attrs m' = attrs cns_monitor
     /\ last_event_time m' = Some (zq 1))
  /\ xltb (threshold cns_monitor) (Fin (zq 41)) = true.
Proof.
  split; [|reflexivity].
  apply (@cns_update_reads_first_match cns_monitor
           (svs_message 1 ([sv_entry 1 1 12 5] ++ sv_entry 0 1 41 2 :: [sv_entry_no_cno]))
           [sv_entry 1 1 12 5] [sv_entry_no_cno] (sv_entry 0 1 41 2) (zq 41));
    reflexivity.
Defined.

End CnoSpoofingProps.

Module CnoThresholdProps.
Import Cno.

Lemma healthy_set (cnos : Dict.dict (option (Qc * Qc))) (key : string) (v : Qc * Qc) :
  cnt_healthy cnos -> cnt_healthy (Dict.set cnos key (Some v)).
Proof.
  unfold cnt_healthy. induction cnos as [|[k w] rest IH]; intro H; simpl.
  - constructor; [discriminate | constructor].
  - inversion H as [|? ? Hw Hrest]; subst.
    destruct (String.eqb key k).
    + constructor; [discriminate | exact Hrest].
    + constructor; [exact Hw | exact (IH Hrest)].
Qed.

Lemma cnt_entries_usable_ok (time : Qc) (entries : list sv_data)
    (cnos : Dict.dict (option (Qc * Qc))) :
  forallb usable entries = true -> cnt_healthy cnos ->
  exists cnos', cnt_entries time cnos entries = Ok cnos' /\ cnt_healthy cnos'.
Proof.
  revert cnos. induction entries as [|sv entries IH]; intros cnos Hu Hh.
  - exists cnos. split; [reflexivity | exact Hh].
  - cbn [forallb] in Hu. apply andb_true_iff in Hu. destruct Hu as [Hsv Hrest].
    cbn [cnt_entries]. unfold cnt_entry, usable in *.
    destruct (svid sv) as [s|]; [|discriminate].
    destruct (gnssId sv) as [g|]; [|discriminate].
    destruct (cno sv) as [c|]; [|discriminate].
    destruct (qualityInd sv) as [q|]; [|discriminate].
    cbn [getitem bind]. apply negb_true_iff in Hsv. rewrite Hsv.
    destruct (Dict.get cnos (channel_id g s)) as [[[last c0]|]|].
    + destruct (Qcltb time last); cbn [bind].
      * apply IH; assumption.
      * apply IH; [assumption | apply healthy_set; assumption].
    + cbn [bind]. apply IH; [assumption | apply healthy_set; assumption].
    + cbn [bind]. apply IH; [assumption | apply healthy_set; assumption].
Qed.

Lemma is_max_step (mx0 : option Qc) (c : Qc) (l : list Qc) (mx : option Qc) :
  is_max mx (opt_list (match mx0 with
                       | None => Some c
                       | Some m0 => if Qcltb m0 c then Some c else Some m0
                       end) ++ l) ->
  is_max mx (opt_list mx0 ++ c :: l).
Proof.
  destruct mx as [m|]; cbn [is_max].
  - destruct mx0 as [m0|]; cbn [opt_list app]; [|auto].
    destruct (Qcltb m0 c) eqn:E; cbn [opt_list app]; intros [Hin Hall].
    + apply Qcltb_lt in E. split.
      * destruct Hin as [<- | Hin]; [right; left; reflexivity | right; right; exact Hin].
      * inversion Hall as [|? ? Hc Hl]; subst.
        constructor; [|constructor; assumption].
        apply Qclt_le_weak. eapply Qclt_le_trans; eassumption.
    + apply Qcltb_ge in E. split.
      * destruct Hin as [<- | Hin]; [left; reflexivity | right; right; exact Hin].
      * inversion Hall as [|? ? Hm Hl]; subst.
        constructor; [exact Hm|]. constructor; [|exact Hl].
        eapply Qcle_trans; eassumption.
  - destruct mx0 as [m0|]; [destruct (Qcltb m0 c)|]; cbn [opt_list app]; discriminate.
Qed.

(** The ageing loop on a dictionary without [None]: it returns the largest
    C/N0 among the starting value and the fresh channels, and ages every
    entry. *)
Lemma cnt_age_spec (time window : Qc) (items : Dict.dict (option (Qc * Qc)))
    (mx0 : option Qc) :
  cnt_healthy items ->
  exists mx,
    cnt_age time window items mx0 = Ok (mx, map (age_entry time window) items)
    /\ is_max mx (opt_list mx0 ++ fresh_cnos time window items).
Proof.
  revert mx0. induction items as [|[key v] rest IH]; intros mx0 Hh.
  - exists mx0. split; [reflexivity|]. cbn [fresh_cnos flat_map]. rewrite app_nil_r.
    destruct mx0 as [c|]; cbn; [|reflexivity].
    split; [left; reflexivity | constructor; [apply Qcle_refl | constructor]].
  - inversion Hh as [|? ? Hv Hrest]; subst. cbn [snd] in Hv.
    destruct v as [[last c]|]; [|congruence].
    cbn [cnt_age map]. unfold age_entry at 1. cbn [snd fst].
    unfold fresh_cnos. cbn [flat_map snd]. fold (fresh_cnos time window rest).
    destruct (Qcltb window (time - last)).
    + destruct (IH mx0 Hrest) as (mx & Hage & Hmax).
      rewrite Hage. cbn [bind]. exists mx. split; [reflexivity | exact Hmax].
    + set (mx1 := match mx0 with
                  | None => Some c
                  | Some m0 => if Qcltb m0 c then Some c else Some m0
                  end).
      destruct (IH mx1 Hrest) as (mx & Hage & Hmax).
      rewrite Hage. cbn [bind]. exists mx. split; [reflexivity|].
      cbn [app]. apply is_max_step. exact Hmax.
Qed.


(** X15: on a monitor none of whose channels has been invalidated, an
    accepted message whose entries are all usable never raises.  Once the
    entries are stored, the metric is the largest C/N0 among the channels
    whose last sample is no older than [time_window], the alarm says whether
    it is below the threshold, and every channel with an older sample is
    left holding [None]; when no channel is fresh the update returns [None]. *)
Theorem cnt_metric_is_max_fresh_cno (m : CnoThresholdJammingMonitor) (msg : message)
    (entries : list sv_data) :
  monitor_timeout m = None ->
  cnt_healthy (cnt_cnos (attrs m)) ->
  base_verify_message m msg = true ->
  svs msg = Some entries ->
  forallb usable entries = true ->
  exists time cnos1 out m',
    rxTime msg = Some time
    /\ cnt_entries time (cnt_cnos (attrs m)) entries = Ok cnos1
    /\ cnt_update m msg = Ok (out, m')
    /\ cnt_cnos (attrs m')
       = map (age_entry time (cnt_time_window (attrs m))) cnos1
    /\ is_max (match out with
               | None => None
               | Some _ => st_metric (status m')
               end)
              (fresh_cnos time (cnt_time_window (attrs m)) cnos1)
    /\ (forall alarm, out = Some alarm ->
        exists c, st_metric (status m') = Some c
                  /\ alarm = xltb (Fin c) (threshold m)).
Proof.
  intros Hto Hh Hv Hsvs Hu.
  pose proof (@CnoProps.verified_has_time _ _ _ m msg Hv) as [time Ht].
  destruct (@cnt_entries_usable_ok time entries (cnt_cnos (attrs m)) Hu Hh)
    as (cnos1 & Hent & Hh1).
  destruct (@cnt_age_spec time (cnt_time_window (attrs m)) cnos1 None Hh1)
    as (mx & Hage & Hmax).
  exists time, cnos1.
  unfold cnt_update, update.
  change (verify_message cnt_class m msg) with (base_verify_message m msg).
  rewrite Hv, Ht, Hto. cbn [negb getitem bind].
  cbn [calculate_metric cnt_class]. unfold cnt_calculate_metric.
  rewrite Hsvs. change (rxTime msg) with (rxTime msg). rewrite Ht.
  cbn [getitem bind].
  change (attrs (with_last_event_time m (Some time))) with (attrs m).
  rewrite Hent. cbn [bind]. rewrite Hage. cbn [bind].
  cbn [opt_list app] in Hmax.
  destruct mx as [c|].
  - eexists. eexists. split; [reflexivity|]. split; [reflexivity|].
    split; [reflexivity|]. split; [reflexivity|].
    split; [exact Hmax|].
    intros alarm H. injection H as <-. exists c. split; reflexivity.
  - eexists. eexists. split; [reflexivity|]. split; [reflexivity|].
    split; [reflexivity|]. split; [reflexivity|].
    split; [exact Hmax|]. intros alarm H. discriminate.
Qed.

Lemma cnt_metric_is_max_fresh_cno_witness :
  exists time cnos1 out m',
    rxTime two_channels_message = Some time
    /\ cnt_entries time (cnt_cnos (attrs cnt_monitor))
         [sv_entry 0 1 25 5; sv_entry 0 2 15 5] = Ok cnos1
    /\ cnt_update cnt_monitor two_channels_message = Ok (out, m')
    /\ cnt_cnos (attrs m')
       = map (age_entry time (cnt_time_window (attrs cnt_monitor))) cnos1
    /\ is_max (match out with
               | None => None
               | Some _ => st_metric (status m')
               end)
              (fresh_cnos time (cnt_time_window (attrs cnt_monitor)) cnos1)
    /\ (forall alarm, out = Some alarm ->
        exists c, st_metric (status m') = Some c
                  /\ alarm = xltb (Fin c) (threshold cnt_monitor)).
Proof.
  apply (@cnt_metric_is_max_fresh_cno cnt_monitor two_channels_message
           [sv_entry 0 1 25 5; sv_entry 0 2 15 5]).
  - reflexivity.
  - constructor.
  - reflexivity.
  - reflexivity.
  - reflexivity.
Defined.

End CnoThresholdProps.

Module StubProps.
Import DualAntenna TimedBufferFacts TimedBufferProps TimedBufferExtras.

(** After an [append], the span of the buffer exceeds the target exactly
    when a stale entry has been kept. *)
Lemma elapsed_exceeds_iff_stale (A : Type) (b : TimedBuffer A) (time : Qc) (sample : A) :
  tb_inv b -> newest_time b <= time ->
  xltb (tb_target_elapsed_time b)
       (Fin (elapsed_time (tb_drop (popped_by_append b time) (tb_push b time sample))))
  = (1 <=? count_stale (xsub time (tb_target_elapsed_time b)) (time_buffer b ++ [time]))%nat.
Proof.
  intros Hinv Hle. pose proof Hinv as (Hwf & Hs & Hpos & Ht).
  set (cutoff := xsub time (tb_target_elapsed_time b)).
  set (times := time_buffer b ++ [time]).
  assert (Hsorted : StronglySorted Qcle times) by (apply sorted_push; assumption).
  assert (Hlt : (count_stale cutoff times < length times)%nat).
  { apply (@count_stale_lt cutoff times time).
    - unfold times. apply in_or_app. right. left. reflexivity.
    - apply newest_not_stale. exact Ht. }
  unfold popped_by_append. fold cutoff. fold times.
  destruct (count_stale cutoff times) as [|n] eqn:En.
  - (* nothing stale: every entry is inside the window *)
    cbn [Nat.pred Nat.leb].
    pose proof (skipn_count_stale_fresh cutoff Hsorted) as Hfresh.
    rewrite En in Hfresh. cbn [skipn] in Hfresh.
    destruct (tb_target_elapsed_time b) as [| q |] eqn:Etar; [discriminate | | reflexivity].
    apply Qcltb_ge.
    apply (@ClockRateProps.elapsed_fresh_bound A _ time q).
    + apply Qcltb_ge. exact Ht.
    + rewrite tb_drop_0. apply newest_time_push.
    + rewrite tb_drop_0. exact Hfresh.
  - (* the oldest entry kept is stale *)
    cbn [Nat.pred]. change (1 <=? S n)%nat with true.
    assert (Hlen : length times = S (length (time_buffer b))).
    { unfold times. rewrite length_app. cbn [length]. lia. }
    destruct (nth_error times n) as [t0|] eqn:Et0;
      [| apply nth_error_None in Et0; lia].
    assert (Hstale : stale cutoff t0 = true).
    { apply (@count_stale_prefix cutoff times n); [lia | exact Et0]. }
    assert (Hlast : last (skipn n times) 0 = time).
    { rewrite last_skipn by lia. unfold times. apply last_last. }
    pose proof (hd_skipn n times) as Hhd. rewrite Et0 in Hhd.
    unfold elapsed_time, tb_drop, tb_push. cbn [time_buffer]. fold times.
    destruct (skipn n times) as [|u [|u1 rest]] eqn:Esk.
    + discriminate.
    + apply (f_equal (@length Qc)) in Esk. rewrite length_skipn in Esk.
      cbn [length] in Esk. lia.
    + cbn [hd_error] in Hhd. injection Hhd as ->.
      rewrite CCDProps.last_shift in Hlast.
      assert (Hl1 : last rest u1 = time).
      { rewrite <- Hlast. symmetry. apply CCDProps.last_shift. }
      rewrite Hl1. unfold stale, cutoff in Hstale.
      destruct (tb_target_elapsed_time b) as [| q |]; simpl in Hstale |- *;
        try congruence.
      apply Qcltb_lt. apply Qcltb_lt in Hstale.
      apply Qclt_minus_iff. apply Qclt_minus_iff in Hstale.
      replace (time - t0 + - q) with (time - q + - t0) by ring. exact Hstale.
Qed.

Lemma trs_popleft_drop (b : TimedRunningSum vec3) :
  trs_ok b -> time_buffer (trs_buffer b) <> [] ->
  exists b', trs_popleft b = Ok b'
             /\ trs_ok b'
             /\ trs_buffer b' = tb_drop 1 (trs_buffer b).
Proof.
  intros Hok Hne. pose proof Hok as [Hwf _].
  unfold trs_popleft, oldest_sample, tb_popleft. unfold tb_wf in Hwf.
  destruct (time_buffer (trs_buffer b)) as [|t ts] eqn:Et; [congruence|].
  destruct (sample_buffer (trs_buffer b)) as [|s ss] eqn:Es; [simpl in Hwf; lia|].
  cbn [hd_error bind]. eexists. split; [reflexivity|]. split.
  - apply (@RunningSumFacts.trs_popleft_ok vec3 vec3_SampleOps DualProps.vec3_SampleLaws b);
      [exact Hok|].
    unfold trs_popleft, oldest_sample, tb_popleft. rewrite Et, Es. reflexivity.
  - unfold tb_drop. cbn [trs_buffer time_buffer sample_buffer tb_target_elapsed_time
                         tb_keep_one]. rewrite Et, Es. reflexivity.
Qed.




End StubProps.

Module CnoDropProps.
Import Cno TimedBufferFacts TimedBufferProps TimedBufferExtras.

Lemma dict_get_Forall (V : Type) (Q : V -> Prop) (d : Dict.dict V) (key : string) (v : V) :
  Forall (fun kv => Q (snd kv)) d -> Dict.get d key = Some v -> Q v.
Proof.
  induction d as [|[k w] rest IH]; intros H Hget; simpl in Hget; [discriminate|].
  inversion H as [|? ? Hw Hrest]; subst.
  destruct (String.eqb key k); [injection Hget as <-; exact Hw | exact (IH Hrest Hget)].
Qed.

Lemma dict_set_Forall (V : Type) (Q : V -> Prop) (d : Dict.dict V) (key : string) (v : V) :
  Forall (fun kv => Q (snd kv)) d -> Q v -> Forall (fun kv => Q (snd kv)) (Dict.set d key v).
Proof.
  induction d as [|[k w] rest IH]; intros H Hv; simpl.
  - constructor; [exact Hv | constructor].
  - inversion H as [|? ? Hw Hrest]; subst.
    destruct (String.eqb key k).
    + constructor; [exact Hv | exact Hrest].
    + constructor; [exact Hw | exact (IH Hrest Hv)].
Qed.

Lemma cnd_entry_ok (time window : Qc) (cnos : Dict.dict (TimedBuffer Qc)) (sv : sv_data) :
  0 <= time -> 0 <= window -> cnd_ok time cnos ->
  exists cnos', cnd_entry time window cnos sv = Ok cnos' /\ cnd_ok time cnos'.
Proof.
  intros Htime Hwin Hok. unfold cnd_entry.
  destruct (svid sv) as [s|]; [|exists cnos; split; [reflexivity | exact Hok]].
  destruct (gnssId sv) as [g|]; [|exists cnos; split; [reflexivity | exact Hok]].
  destruct (cno sv) as [c|]; [|exists cnos; split; [reflexivity | exact Hok]].
  destruct (qualityInd sv) as [q|]; [|exists cnos; split; [reflexivity | exact Hok]].
  destruct (low_quality q c); [exists cnos; split; [reflexivity | exact Hok]|].
  assert (Hbuf : exists buf,
             match Dict.get cnos (channel_id g s) with
             | Some buf => Ok buf
             | None => tb_init Qc (Fin window) false
             end = Ok buf
             /\ tb_inv buf /\ newest_time buf <= time).
  { destruct (Dict.get cnos (channel_id g s)) as [buf|] eqn:Eg.
    - exists buf. split; [reflexivity|].
      exact (@dict_get_Forall _ (fun b => tb_inv b /\ newest_time b <= time)
               cnos _ buf Hok Eg).
    - unfold tb_init.
      assert (Hw : xltb (Fin window) (Fin 0) = false) by (apply Qcltb_ge; exact Hwin).
      rewrite Hw. eexists. split; [reflexivity|]. split; [|exact Htime].
      split; [reflexivity|]. split; [constructor|]. split; [constructor | exact Hw]. }
  destruct Hbuf as (buf & -> & Hinv & Hle). cbn [bind].
  destruct (tb_append buf time c) as [buf'|e] eqn:Happ.
  - cbn [bind]. eexists. split; [reflexivity|].
    apply (@dict_set_Forall _ (fun b => tb_inv b /\ newest_time b <= time)); [exact Hok|].
    split.
    + exact (@tb_apply_inv Qc buf buf' (TbAppend time c) Hinv Happ).
    + destruct (@tb_append_shape Qc buf buf' time c Hinv Happ) as (_ & k & -> & Hk & _).
      rewrite CCDProps.newest_time_drop_push by exact Hk. apply Qcle_refl.
  - exfalso. rewrite tb_append_spec in Happ by apply Hinv.
    apply Qcltb_ge in Hle. rewrite Hle in Happ. discriminate.
Qed.

Lemma cnd_entries_ok (time window : Qc) (entries : list sv_data)
    (cnos : Dict.dict (TimedBuffer Qc)) :
  0 <= time -> 0 <= window -> cnd_ok time cnos ->
  exists cnos', cnd_entries time window cnos entries = Ok cnos' /\ cnd_ok time cnos'.
Proof.
  intros Htime Hwin. revert cnos.
  induction entries as [|sv entries IH]; intros cnos Hok.
  - exists cnos. split; [reflexivity | exact Hok].
  - cbn [cnd_entries].
    destruct (@cnd_entry_ok time window cnos sv Htime Hwin Hok) as (c1 & -> & Hok1).
    cbn [bind]. exact (IH c1 Hok1).
Qed.

Lemma cnd_retained_ok (bound : Qc) (data : TimedBuffer Qc) :
  tb_inv data /\ newest_time data <= bound ->
  tb_remove_old_samples true data = Ok (cnd_retained data)
  /\ tb_inv (cnd_retained data) /\ newest_time (cnd_retained data) <= bound.
Proof.
  intros [Hinv Hle]. split; [apply tb_remove_old_samples_spec; apply Hinv|].
  split; [apply tb_drop_inv; exact Hinv|].
  unfold cnd_retained.
  destruct (time_buffer data) as [|t ts] eqn:Et.
  - cbn [num_to_pop Z.to_nat]. rewrite tb_drop_0. exact Hle.
  - rewrite newest_time_drop; [exact Hle|].
    rewrite <- Et. apply num_to_pop_lt; [apply Hinv | rewrite Et; discriminate].
Qed.

(** The loop over the channels: the alarm stays up only if every examined
    channel dropped by more than the threshold, and a channel is examined
    when two samples or more are left of it. *)
Lemma cnd_age_spec (thr : xnum) (bound : Qc) (items : Dict.dict (TimedBuffer Qc))
    (acc : cnd_scan) :
  cnd_ok bound items -> cnd_ok bound (scan_cnos acc) ->
  exists scan,
    cnd_age thr items acc = Ok scan
    /\ cnd_ok bound (scan_cnos scan)
    /\ scan_alarm scan
       = forallb (fun d => xltb thr (Fin d)) (cnd_examined items) && scan_alarm acc
    /\ scan_any_examined scan
       = match cnd_examined items with
         | [] => scan_any_examined acc
         | _ :: _ => true
         end.
Proof.
  revert acc. induction items as [|[channel data] rest IH]; intros acc Hok Hacc.
  - exists acc. split; [reflexivity|]. split; [exact Hacc|]. split; reflexivity.
  - inversion Hok as [|? ? Hdata Hrest]; subst. cbn [snd] in Hdata.
    destruct (@cnd_retained_ok bound data Hdata) as (Hrem & Hinvk & Hlek).
    cbn [cnd_age]. rewrite Hrem. cbn [bind].
    assert (Hset : cnd_ok bound (Dict.set (scan_cnos acc) channel (cnd_retained data))).
    { apply (@dict_set_Forall _ (fun b => tb_inv b /\ newest_time b <= bound));
        [exact Hacc | split; assumption]. }
    unfold cnd_examined. cbn [flat_map snd]. fold (cnd_examined rest).
    unfold channel_drop. cbv zeta.
    pose proof (proj1 Hinvk) as Hwf. unfold tb_wf in Hwf.
    unfold tb_len, newest_sample, oldest_sample.
    destruct (time_buffer (cnd_retained data)) as [|t0 [|t1 ts]] eqn:Et;
      destruct (sample_buffer (cnd_retained data)) as [|s0 [|s1 ss]] eqn:Es;
      cbn [length] in Hwf; try lia; cbn [length Nat.ltb Nat.leb opt_list app hd_error].
    + match goal with
      | |- context [cnd_age thr rest ?a] => destruct (IH a Hrest Hset)
          as (scan & Hage & Hok' & Hal & Hany)
      end.
      exists scan. split; [exact Hage|]. split; [exact Hok'|]. split; assumption.
    + match goal with
      | |- context [cnd_age thr rest ?a] => destruct (IH a Hrest Hset)
          as (scan & Hage & Hok' & Hal & Hany)
      end.
      exists scan. split; [exact Hage|]. split; [exact Hok'|]. split; assumption.
    + match goal with
      | |- context [cnd_age thr rest ?a] => destruct (IH a Hrest Hset)
          as (scan & Hage & Hok' & Hal & Hany)
      end.
      exists scan. split; [exact Hage|]. split; [exact Hok'|].
      cbn [scan_alarm scan_any_examined] in Hal, Hany.
      assert (Hd : - (last (s1 :: ss) s0 - s0) = s0 - last ss s1).
      { rewrite CCDProps.last_shift. ring. }
      rewrite Hd in Hal. split.
      * rewrite Hal. cbn [forallb]. unfold xleb.
        destruct (xltb thr (Fin (s0 - last ss s1))); cbn [negb andb];
          [reflexivity | rewrite andb_false_r; reflexivity].
      * rewrite Hany. destruct (cnd_examined rest); reflexivity.
Qed.


(** X17: on a [CnoDropJammingMonitor] whose channel buffers are well formed
    and hold nothing later than the message, an accepted message with a list
    of entries (at a non-negative time) never raises, whatever the entries
    are.  Once the usable entries are stored and every channel has been
    trimmed, a channel left with fewer than two samples is not examined; the
    update returns [None] when no channel is examined, and otherwise the
    alarm is raised exactly when every examined channel has dropped, oldest
    minus newest C/N0, by more than the threshold. *)
Theorem cnd_alarm_is_all_channels_dropped (m : CnoDropJammingMonitor) (msg : message)
    (time : Qc) (entries : list sv_data) :
  monitor_timeout m = None ->
  0 <= cnd_time_window (attrs m) ->
  cnd_ok time (cnd_cnos (attrs m)) ->
  base_verify_message m msg = true ->
  rxTime msg = Some time ->
  0 <= time ->
  svs msg = Some entries ->
  exists cnos1 out m',
    cnd_entries time (cnd_time_window (attrs m)) (cnd_cnos (attrs m)) entries = Ok cnos1
    /\ cnd_update m msg = Ok (out, m')
    /\ out = match cnd_examined cnos1 with
             | [] => None
             | drops => Some (forallb (fun d => xltb (threshold m) (Fin d)) drops)
             end
    /\ cnd_ok time (cnd_cnos (attrs m')).
Proof.
  intros Hto Hwin Hok Hv Ht Htime Hsvs.
  destruct (@cnd_entries_ok time (cnd_time_window (attrs m)) entries
              (cnd_cnos (attrs m)) Htime Hwin Hok) as (cnos1 & Hent & Hok1).
  exists cnos1.
  unfold cnd_update, update.
  change (verify_message cnd_class m msg) with (base_verify_message m msg).
  rewrite Hv, Ht, Hto. cbn [negb getitem bind].
  cbn [calculate_metric cnd_class]. unfold cnd_calculate_metric.
  rewrite Hsvs. change (rxTime msg) with (rxTime msg). rewrite Ht.
  cbn [getitem bind].
  change (attrs (with_last_event_time m (Some time))) with (attrs m).
  change (threshold (with_last_event_time m (Some time))) with (threshold m).
  rewrite Hent. cbn [bind].
  match goal with
  | |- context [cnd_age (threshold m) cnos1 ?a] =>
      destruct (@cnd_age_spec (threshold m) time cnos1 a Hok1 Hok1)
        as (scan & Hage & Hoks & Hal & Hany)
  end.
  rewrite Hage. cbn [bind]. cbn [scan_alarm scan_any_examined] in Hal, Hany.
  rewrite Hany.
  destruct (cnd_examined cnos1) as [|d drops] eqn:Eex.
  - cbn [negb]. eexists. eexists. split; [reflexivity|]. split; [reflexivity|].
    split; [reflexivity | exact Hoks].
  - cbn [negb]. eexists. eexists. split; [reflexivity|]. split; [reflexivity|].
    split; [|exact Hoks].
    cbn [compare_metric cnd_class]. rewrite Hal, andb_true_r. reflexivity.
Qed.

Lemma cnd_alarm_is_all_channels_dropped_witness :
  exists cnos1 out m',
    cnd_entries (zq 1) (cnd_time_window (attrs cnd_monitor)) (cnd_cnos (attrs cnd_monitor))
      [sv_entry 0 1 25 5; sv_entry 0 1 15 5; sv_entry 0 2 15 3] = Ok cnos1
    /\ cnd_update cnd_monitor
         (svs_message 1 [sv_entry 0 1 25 5; sv_entry 0 1 15 5; sv_entry 0 2 15 3])
       = Ok (out, m')
    /\ out = match cnd_examined cnos1 with
             | [] => None
             | drops => Some (forallb (fun d => xltb (threshold cnd_monitor) (Fin d)) drops)
             end
    /\ cnd_ok (zq 1) (cnd_cnos (attrs m')).
Proof.
  apply (@cnd_alarm_is_all_channels_dropped cnd_monitor
           (svs_message 1 [sv_entry 0 1 25 5; sv_entry 0 1 15 5; sv_entry 0 2 15 3])
           (zq 1) [sv_entry 0 1 25 5; sv_entry 0 1 15 5; sv_entry 0 2 15 3]).
  - reflexivity.
  - apply Qcleb_le. reflexivity.
  - constructor.
  - reflexivity.
  - reflexivity.
  - apply Qcleb_le. reflexivity.
  - reflexivity.
Defined.

(** Channel 0.1 reported twice in one message, 25 and then 15: it is
    examined, its drop is 10 and the alarm is raised. *)
Lemma cnd_update_example :
  exists m',
    cnd_update cnd_monitor
      (svs_message 1 [sv_entry 0 1 25 5; sv_entry 0 1 15 5; sv_entry 0 2 15 3])
    = Ok (Some true, m')
    /\ cnd_drops (attrs m') = [("0.1"%string, Some (zq 10))].
Proof.
  eexists. split; [vm_compute; reflexivity|].
  qc_compute.
Qed.

End CnoDropProps.

Module ConfigProps.
Import Config.

Lemma find_app_first (X : Type) (f : X -> bool) (l1 l2 : list X) :
  find f (l1 ++ l2) = match find f l1 with
                      | Some x => Some x
                      | None => find f l2
                      end.
Proof.
  induction l1 as [|x l1 IH]; [reflexivity|]. simpl.
  destruct (f x); [reflexivity | exact IH].
Qed.

(** X18: [from_config] looks among the direct subclasses of [cls], then
    among those of the first subclass of [cls], then among those of the first
    subclass of that one, and so on, and takes the first class with the
    requested name; a class that is not a direct subclass of a class on this
    chain of first subclasses is never found. *)
Theorem from_config_searches_first_chain (monitor_name : string) (cls : pyclass) :
  from_config monitor_name cls
  = find (fun sub => String.eqb monitor_name (class_name sub))
         (flat_map subclasses_of (first_chain cls)).
Proof.
  revert cls. fix IH 1. intros [name subclasses].
  cbn [from_config first_chain flat_map subclasses_of].
  rewrite find_app_first.
  destruct (find (fun sub => String.eqb monitor_name (class_name sub)) subclasses);
    [reflexivity|].
  destruct subclasses as [|sub rest]; [reflexivity|].
  apply IH.
Qed.

(** With [CCDMonitor] defined before [FilteredMonitor], the subclasses of
    [FilteredMonitor] cannot be created by name. *)
Lemma from_config_example :
  from_config "StationaryVelocityMonitor" monitor_classes = None
  /\ from_config "ClockRateMonitor" monitor_classes
     = Some (PyClass "ClockRateMonitor" []).
Proof. split; reflexivity. Qed.

End ConfigProps.

Module CCDLockProps.
Import CCD TimedBufferFacts TimedBufferProps TimedBufferExtras RunningSumFacts.

Lemma trs_popleft_drop_Qc (b : TimedRunningSum Qc) :
  trs_ok b -> time_buffer (trs_buffer b) <> [] ->
  exists b', trs_popleft b = Ok b'
             /\ trs_ok b'
             /\ trs_buffer b' = tb_drop 1 (trs_buffer b).
Proof.
  intros Hok Hne. pose proof Hok as [Hwf _].
  unfold trs_popleft, oldest_sample, tb_popleft. unfold tb_wf in Hwf.
  destruct (time_buffer (trs_buffer b)) as [|t ts] eqn:Et; [congruence|].
  destruct (sample_buffer (trs_buffer b)) as [|s ss] eqn:Es; [simpl in Hwf; lia|].
  cbn [hd_error bind]. eexists. split; [reflexivity|]. split.
  - apply (@trs_popleft_ok Qc Qc_SampleOps Qc_SampleLaws b); [exact Hok|].
    unfold trs_popleft, oldest_sample, tb_popleft. rewrite Et, Es. reflexivity.
  - unfold tb_drop. cbn [trs_buffer time_buffer sample_buffer tb_target_elapsed_time
                         tb_keep_one]. rewrite Et, Es. reflexivity.
Qed.

(** The lock-step loop on two sums that hold the same time stamps: it never
    raises, pops the same number of entries off both, never the newest one,
    and stops with a span within [max_dt]. *)
Lemma trim_lock (fuel : nat) (max_dt : Qc) (bs ri : TimedRunningSum Qc) :
  trs_ok bs -> trs_ok ri -> trs_times ri = trs_times bs ->
  0 <= max_dt -> (trs_len bs < fuel)%nat ->
  exists j bs' ri',
    trim fuel max_dt bs ri = Ok (bs', ri')
    /\ (j = O \/ (j < length (trs_times bs))%nat)
    /\ trs_ok bs' /\ trs_ok ri'
    /\ trs_buffer bs' = tb_drop j (trs_buffer bs)
    /\ trs_buffer ri' = tb_drop j (trs_buffer ri)
    /\ Qcltb max_dt (trs_elapsed_time bs') = false.
Proof.
  revert bs ri. induction fuel as [|fuel IH]; intros bs ri Hbs Hri Ht Hmax Hlen; [lia|].
  cbn [trim].
  destruct (Qcltb max_dt (trs_elapsed_time bs)) eqn:E.
  - destruct (CCDProps.elapsed_exceeds _ Hmax E) as (t0 & t1 & rest & Hts).
    destruct (@trs_popleft_drop_Qc bs Hbs) as (bs1 & Hpb & Hbs1 & Hbuf1);
      [rewrite Hts; discriminate|].
    destruct (@trs_popleft_drop_Qc ri Hri) as (ri1 & Hpr & Hri1 & Hbufr1).
    { unfold trs_times in Ht. rewrite Ht, Hts. discriminate. }
    rewrite Hpb, Hpr. cbn [bind].
    destruct (IH bs1 ri1 Hbs1 Hri1) as (j & bs' & ri' & Htrim & Hj & Hok1 & Hok2 & Hb & Hr & Hel).
    + unfold trs_times. rewrite Hbuf1, Hbufr1. cbn [tb_drop time_buffer].
      unfold trs_times in Ht. rewrite Ht. reflexivity.
    + exact Hmax.
    + unfold trs_len, tb_len in *. rewrite Hbuf1. cbn [tb_drop time_buffer].
      rewrite length_skipn. rewrite Hts in *. cbn [length] in *. lia.
    + exists (S j), bs', ri'. split; [exact Htrim|].
      split.
      { right. unfold trs_times in *. rewrite Hbuf1 in Hj.
        cbn [tb_drop time_buffer] in Hj. rewrite length_skipn in Hj.
        rewrite Hts in *. cbn [length] in *. lia. }
      split; [exact Hok1|]. split; [exact Hok2|].
      rewrite Hb, Hr, Hbuf1, Hbufr1, !ClockRateProps.tb_drop_drop.
      replace (j + 1)%nat with (S j) by lia. split; [reflexivity|].
      split; [reflexivity | exact Hel].
  - exists O, bs, ri. split; [reflexivity|]. split; [left; reflexivity|].
    split; [exact Hbs|]. split; [exact Hri|].
    rewrite !tb_drop_0. split; [reflexivity|]. split; [reflexivity | exact E].
Qed.




Lemma ccd_monitor_lock : ccd_lock ccd_monitor.
Proof.
  unfold ccd_lock. cbn [attrs ccd_monitor bias_samples rate_integral max_delta_t
                        last_rate last_time].
  split; [split; reflexivity|]. split; [split; reflexivity|].
  split; [split; [reflexivity|]; split; [constructor|]; split; [constructor | reflexivity]|].
  split; [reflexivity|]. split; [reflexivity|].
  split; [apply Qcleb_le; reflexivity|]. split; [apply Qcleb_le; reflexivity|].
  split; [congruence|]. left. reflexivity.
Qed.


End CCDLockProps.

Module FIRImpulse.
Import FIR FIFOFacts FIRProps.

Lemma fir_sum_zeros (coeffs : list Qc) (n : nat) :
  fir_sum coeffs (repeat 0 n) = 0.
Proof.
  unfold fir_sum. revert n. induction coeffs as [|c coeffs IH]; intro n; [reflexivity|].
  destruct n as [|n]; [reflexivity|]. cbn [repeat combine map qsum fold_right fst snd].
  fold (qsum (map (fun p : Qc * Qc => fst p * snd p) (combine coeffs (repeat 0 n)))).
  rewrite IH. ring.
Qed.

(** Against a history that is zero but for a one in place [k], the weighted
    sum picks coefficient [k]. *)
Lemma fir_sum_impulse (coeffs : list Qc) (k n : nat) :
  fir_sum coeffs (repeat 0 k ++ 1 :: repeat 0 n) = nth k coeffs 0.
Proof.
  revert k. induction coeffs as [|c coeffs IH]; intro k.
  - destruct k; reflexivity.
  - destruct k as [|k].
    + cbn [repeat app nth]. unfold fir_sum.
      cbn [combine map qsum fold_right fst snd].
      pose proof (fir_sum_zeros coeffs n) as H. unfold fir_sum, qsum in H.
      rewrite H. ring.
    + cbn [repeat app nth]. unfold fir_sum.
      cbn [combine map qsum fold_right fst snd].
      pose proof (IH k) as H. unfold fir_sum, qsum in H. rewrite H. ring.
Qed.

Lemma combine_firstn_r (X Y : Type) (l : list X) (r : list Y) :
  combine l (firstn (length l) r) = combine l r.
Proof.
  revert r. induction l as [|x l IH]; intros [|y r]; simpl; try reflexivity.
  f_equal. apply IH.
Qed.

(** X20: the impulse response of the filter is its list of coefficients.
    Fed zeros, then a single one, then [k] more zeros, a new filter that has
    received at least [filter_length] samples responds with coefficient [k],
    for every [k] below [filter_length]. *)
Theorem fir_impulse_response (coeffs : list Qc) (n k : nat) :
  (k < length coeffs)%nat ->
  (length coeffs <= n + 1 + k)%nat ->
  response (fir_feed (fir_init coeffs) (repeat 0 n ++ 1 :: repeat 0 k))
  = Some (nth k coeffs 0).
Proof.
  intros Hk Hlen.
  set (input := repeat 0 n ++ 1 :: repeat 0 k).
  assert (Hne : input <> []) by (unfold input; destruct (repeat 0 n); discriminate).
  destruct (exists_last Hne) as (xs & x & Hin).
  destruct (@fir_feed_past (fir_init coeffs) xs) as (Hp & Hm & Hl & Hc); [simpl; lia|].
  rewrite Hin. unfold fir_feed. rewrite fold_left_app. fold (fir_feed (fir_init coeffs) xs).
  cbn [fold_left appendleft response]. unfold deque_appendleft.
  rewrite Hp, Hm, Hl, Hc. cbn [fir_init past_maxlen past_samples filter_length coefficients].
  rewrite app_nil_r, firstn_cons_firstn.
  assert (Hrev : x :: rev xs = repeat 0 k ++ 1 :: repeat 0 n).
  { change (x :: rev xs) with (rev [x] ++ rev xs). rewrite <- rev_app_distr, <- Hin.
    unfold input. rewrite rev_app_distr. cbn [rev].
    rewrite !rev_repeat, <- app_assoc. reflexivity. }
  rewrite Hrev.
  assert (Hfull : length (firstn (length coeffs) (repeat 0 k ++ 1 :: repeat 0 n))
                  = length coeffs).
  { rewrite length_firstn, length_app. cbn [length]. rewrite !repeat_length. lia. }
  rewrite Hfull, Nat.eqb_refl. f_equal.
  rewrite weighted_sum_fir_sum. unfold fir_sum. rewrite combine_firstn_r.
  apply fir_sum_impulse.
Qed.

Lemma fir_impulse_response_witness :
  response (fir_feed (fir_init [zq 3; zq 2; 1]) (repeat 0 3 ++ 1 :: repeat 0 1))
  = Some (zq 2).
Proof.
  apply (@fir_impulse_response [zq 3; zq 2; 1] 3 1); simpl; lia.
Defined.

End FIRImpulse.
